(** * DresGuardian: the moderation and policy state engine

    A shallow embedding of [dresguardian.py]: the persistent store, the warn
    ledger, the global blacklist, the banned-word filter, the welcome
    renderer, the AI request gate, the target resolver and the mute-duration
    parser, followed by the properties of the specification.

    Conventions.
    - A Python [str] is a [string]; each character stands for the code point
      of the same number (code points below 256).
    - A Python [int] is a [Z].
    - A [dict] with string keys is a [gmap string _]; a [set] is a [gset].
    - The module-level globals [STORE] and [GLOBAL_BLACKLIST] are the fields
      of a [World] threaded through a small state-and-exception monad; calls
      to the chat transport are recorded in a trace. *)

From Stdlib Require Import ZArith List Ascii String QArith.
From stdpp Require Import base decidable option list strings pretty gmap.

Local Open Scope string_scope.
Local Open Scope list_scope.
Local Open Scope Z_scope.

#[local] Arguments String.append !_ _ / : simpl nomatch.

(** ** Python string operations used by the program *)

Module Py.

(** [c.lower()] for one character: A-Z and the Latin-1 capitals U+00C0 to
    U+00DE (the multiplication sign U+00D7 apart) move up by 32. *)
Definition chr_lower (c : ascii) : ascii :=
  let n := N_of_ascii c in
  if ((65 <=? n) && (n <=? 90)
      || (192 <=? n) && (n <=? 222) && negb (n =? 215))%N
  then ascii_of_N (n + 32) else c.

(** [s.lower()] *)
Fixpoint lower (s : string) : string :=
  match s with
  | EmptyString => EmptyString
  | String c s' => String (chr_lower c) (lower s')
  end.

(** [s.startswith(p)] *)
Fixpoint startswith (s p : string) {struct p} : bool :=
  match p, s with
  | EmptyString, _ => true
  | String _ _, EmptyString => false
  | String a p', String b s' => if Ascii.eqb a b then startswith s' p' else false
  end.

(** [w in s]: [w] occurs in [s] at some position. *)
Fixpoint contains (w s : string) : bool :=
  startswith s w ||
  match s with
  | EmptyString => false
  | String _ s' => contains w s'
  end.

(** [s.replace(old, new)]: the occurrences of [old] are taken left to right
    and do not overlap.  [skip] counts the characters of a matched [old] still
    to be dropped.  With an empty [old], [new] is put before every character
    and at the end, as Python does. *)
Fixpoint replace_go (old new s : string) (skip : nat) : string :=
  match s with
  | EmptyString =>
      match old with EmptyString => new | _ => EmptyString end
  | String c s' =>
      match skip with
      | S k => replace_go old new s' k
      | O =>
          if startswith s old
          then new +:+
               match old with
               | EmptyString => String c (replace_go old new s' 0)
               | String _ old' => replace_go old new s' (String.length old')
               end
          else String c (replace_go old new s' 0)
      end
  end.

Definition replace (s old new : string) : string := replace_go old new s 0.

(** [sep.join(parts)] *)
Fixpoint join (sep : string) (parts : list string) : string :=
  match parts with
  | [] => ""
  | [p] => p
  | p :: rest => p +:+ sep +:+ join sep rest
  end.

(** [str(n)] for an [int]. *)
Definition str (n : Z) : string := pretty n.

(** Truth value of a [str]: empty is false. *)
Definition truthy (s : string) : bool :=
  match s with EmptyString => false | _ => true end.

End Py.

(** ** Data model *)

(** The welcome configuration of one chat: a [dict] with the optional keys
    ["text"], ["media"], ["type"] and ["link"]. *)
Record WelcomeCfg := mkCfg {
  cfg_text : option string;
  cfg_media : option string;
  cfg_type : option string;
  cfg_link : option string
}.

Definition empty_cfg : WelcomeCfg := mkCfg None None None None.

(** The document [STORE], as the program uses it once loaded. *)
Record Store := mkStore {
  welcomes : gmap string WelcomeCfg;
  blacklist : list Z;
  banned_words : gmap string (list string);
  warns : gmap string Z
}.

Definition default_store : Store := mkStore ∅ [] ∅ ∅.

(** The two module-level globals that handlers read and write. *)
Record World := mkWorld {
  STORE : Store;
  GLOBAL_BLACKLIST : gset Z
}.

(** [telegram.User], the fields the program reads. *)
Record User := mkUser {
  id : Z;
  first_name : string;
  username : option string;
  is_bot : bool
}.

(** The message a command replies to: its author and its media. *)
Record RepliedMessage := mkReplied {
  from_user : User;
  photo : list string;
  animation : option string;
  video : option string
}.

Record Message := mkMessage {
  text : option string;
  reply_to_message : option RepliedMessage;
  new_chat_members : list User
}.

Record ChatMember := mkMember { status : string; user : User }.

(** [telegram.ChatMemberUpdated]: [from_user] is who performed the change,
    [new_chat_member] the member it is about. *)
Record ChatMemberUpdated := mkCMU {
  cmu_from_user : User;
  old_chat_member : option ChatMember;
  new_chat_member : ChatMember
}.

Record Update := mkUpdate {
  message : option Message;
  effective_chat_id : Z;
  effective_user : User;
  chat_member : option ChatMemberUpdated
}.

(** What [get_chat_member] is asked for: a handle or a numeric id. *)
Inductive ChatRef := Handle (h : string) | Uid (n : Z).

(** Calls to the outside world, in the order they are made. *)
Inductive Event :=
  | reply_text (body : string)
  | restrict_chat_member (chat uid : Z) (can_send_messages : bool)
                         (until_date : option Z)
  | send_message (chat : Z) (body : string) (button_url : option string)
  | send_photo (chat : Z) (file_id caption : string) (button_url : option string)
  | send_animation (chat : Z) (file_id caption : string) (button_url : option string)
  | send_video (chat : Z) (file_id caption : string) (button_url : option string)
  | delete_message
  | json_dump (doc : Store)
  | logging_error (what : string).

(** [context.bot]: member lookup ([None] when the call raises) and, for every
    other call, whether it goes through or raises.  A member lookup is a
    request to the transport like the other calls; it changes nothing there,
    and the trace of a handler records the other calls only. *)
Record Bot := mkBot {
  get_chat_member : Z -> ChatRef -> option ChatMember;
  delivers : Event -> bool
}.

Record Context := mkContext {
  bot : Bot;
  args : list string
}.

(** ** Handlers as state-and-exception computations *)

Inductive Outcome (A : Type) := Returned (a : A) | Raised.
Arguments Returned {A} a.
Arguments Raised {A}.

(** A computation reads and writes the [World], appends to the trace, and
    either returns or raises.  An exception keeps the writes made so far. *)
Definition M (A : Type) : Type := World -> World * list Event * Outcome A.

Definition ret {A} (a : A) : M A := fun w => (w, [], Returned a).

Definition bind {A B} (m : M A) (k : A -> M B) : M B :=
  fun w =>
    match m w with
    | (w1, t1, Returned a) =>
        match k a w1 with
        | (w2, t2, r) => (w2, t1 ++ t2, r)
        end
    | (w1, t1, Raised) => (w1, t1, Raised)
    end.

Declare Scope handler_scope.
Delimit Scope handler_scope with handler.
Bind Scope handler_scope with M.
Notation "'let*' x ':=' c1 'in' c2" := (bind c1 (fun x => c2))
  (at level 10, x pattern, c1 at level 100, c2 at level 200) : handler_scope.
Notation "c1 ;; c2" := (bind c1 (fun _ => c2))
  (at level 100, c2 at level 200, right associativity) : handler_scope.
Local Open Scope handler_scope.

Definition raise {A} : M A := fun w => (w, [], Raised).
Definition emit (e : Event) : M unit := fun w => (w, [e], Returned tt).
Definition get_STORE : M Store := fun w => (w, [], Returned (STORE w)).
Definition put_STORE (s : Store) : M unit :=
  fun w => (mkWorld s (GLOBAL_BLACKLIST w), [], Returned tt).
Definition get_BLACKLIST : M (gset Z) :=
  fun w => (w, [], Returned (GLOBAL_BLACKLIST w)).
Definition put_BLACKLIST (b : gset Z) : M unit :=
  fun w => (mkWorld (STORE w) b, [], Returned tt).

(** An awaited transport call: recorded, and it raises when the transport
    refuses it. *)
Definition call (b : Bot) (e : Event) : M unit :=
  emit e ;; if delivers b e then ret tt else raise.

(** [try: body / except Exception as e: logging.error(...)] *)
Definition try_log {A} (body : M A) (what : string) : M unit :=
  fun w =>
    match body w with
    | (w1, t1, Returned _) => (w1, t1, Returned tt)
    | (w1, t1, Raised) => (w1, t1 ++ [logging_error what], Returned tt)
    end.

(** [try: body / except: pass] *)
Definition try_pass {A} (body : M A) : M unit :=
  fun w =>
    match body w with
    | (w1, t1, _) => (w1, t1, Returned tt)
    end.

Definition set_warns (s : Store) (w : gmap string Z) : Store :=
  mkStore (welcomes s) (blacklist s) (banned_words s) w.
Definition set_banned_words (s : Store) (b : gmap string (list string)) : Store :=
  mkStore (welcomes s) (blacklist s) b (warns s).
Definition set_welcomes (s : Store) (c : gmap string WelcomeCfg) : Store :=
  mkStore c (blacklist s) (banned_words s) (warns s).
Definition set_blacklist (s : Store) (b : list Z) : Store :=
  mkStore (welcomes s) b (banned_words s) (warns s).

(** [save_store]: the whole document is written; a failure is logged inside
    and never leaves the function. *)
Definition save_store : M unit :=
  let* s := get_STORE in emit (json_dump s).

(** ** Warn ledger *)

Definition warn_key (chat_id user_id : Z) : string :=
  Py.str chat_id +:+ ":" +:+ Py.str user_id.

Definition add_warn (chat_id user_id : Z) : M Z :=
  let key := warn_key chat_id user_id in
  let* s := get_STORE in
  put_STORE (set_warns s (<[key := default 0 (warns s !! key) + 1]> (warns s))) ;;
  save_store ;;
  let* s := get_STORE in
  match warns s !! key with
  | Some n => ret n
  | None => raise
  end.

Definition remove_warn (chat_id user_id : Z) : M unit :=
  let key := warn_key chat_id user_id in
  let* s := get_STORE in
  match warns s !! key with
  | Some n =>
      let n' := n - 1 in
      put_STORE (set_warns s
        (if n' <=? 0 then delete key (warns s) else <[key := n']> (warns s))) ;;
      save_store
  | None => ret tt
  end.

Definition get_warn_count (chat_id user_id : Z) : M Z :=
  let* s := get_STORE in
  ret (default 0 (warns s !! warn_key chat_id user_id)).

(** ** Durations and dates *)

(** [datetime.timedelta(days=, seconds=, minutes=, hours=)], as a number of
    seconds.  The constructor raises [OverflowError] when the normalised
    number of days leaves the range of plus or minus 999999999. *)
Definition timedelta (days seconds minutes hours : Z) : Outcome Z :=
  let total := days * 86400 + seconds + minutes * 60 + hours * 3600 in
  let d := total / 86400 in
  if (-999999999 <=? d) && (d <=? 999999999) then Returned total else Raised.

(** Whole seconds since the epoch of [datetime.max]. *)
Definition datetime_max : Z := 253402300799.

(** [int((now + delta).timestamp())] for a clock reading [now] in whole
    seconds since the epoch: the sum raises [OverflowError] past year 9999.
    The float that [timestamp()] returns is exact to the second below 2^33
    (year 2242); the properties that name the result stay below it. *)
Definition timestamp_after (now delta : Z) : Outcome Z :=
  if now + delta <=? datetime_max then Returned (now + delta) else Raised.

Definition lift {A} (o : Outcome A) : M A := fun w => (w, [], o).

Definition is_digit (c : ascii) : bool :=
  let n := N_of_ascii c in ((48 <=? n) && (n <=? 57))%N.

Definition digit_value (c : ascii) : Z := Z.of_N (N_of_ascii c) - 48.

(** The greedy group [(\d+)] at the head of [s], with the rest of [s]. *)
Fixpoint span_digits (s : string) : string * string :=
  match s with
  | String c s' =>
      if is_digit c
      then let '(ds, rest) := span_digits s' in (String c ds, rest)
      else (EmptyString, s)
  | EmptyString => (EmptyString, EmptyString)
  end.

(** [int(ds)] for a string of decimal digits. *)
Fixpoint int_of_digits (acc : Z) (ds : string) : Z :=
  match ds with
  | EmptyString => acc
  | String c ds' => int_of_digits (10 * acc + digit_value c) ds'
  end.

(** The group [([smhd]?)] at the head of [rest]. *)
Definition unit_group (rest : string) : string :=
  match rest with
  | String c _ =>
      if (Ascii.eqb c "s" || Ascii.eqb c "m" || Ascii.eqb c "h"
          || Ascii.eqb c "d")%char
      then String c EmptyString else ""
  | EmptyString => ""
  end.

(** [re.match(r"(\d+)([smhd]?)", s)]: the two groups, or [None]. *)
Definition re_match_duration (s : string) : option (string * string) :=
  let '(ds, rest) := span_digits s in
  match ds with
  | EmptyString => None
  | _ => Some (ds, unit_group rest)
  end.

(** Sequencing of two values that may raise, left first. *)
Definition and_then {A B} (o : Outcome A) (k : A -> Outcome B) : Outcome B :=
  match o with Returned a => k a | Raised => Raised end.

(** The dict literal builds its four values before the lookup, in the order
    written; the default of [.get] is built after them.  (A Python that
    limits [int] to 4300 digits raises on longer numbers; [timedelta] raises
    on them as well.) *)
Definition parse_duration (s : string) : Outcome Z :=
  match re_match_duration (Py.lower s) with
  | None => timedelta 0 0 0 1
  | Some (g1, g2) =>
      let num := int_of_digits 0 g1 in
      let unit := if Py.truthy g2 then g2 else "h" in
      and_then (timedelta 0 num 0 0) (fun ts =>
      and_then (timedelta 0 0 num 0) (fun tm =>
      and_then (timedelta 0 0 0 num) (fun th =>
      and_then (timedelta num 0 0 0) (fun td =>
      and_then (timedelta 0 0 0 1) (fun dflt =>
        Returned
          (if String.eqb unit "s" then ts
           else if String.eqb unit "m" then tm
           else if String.eqb unit "h" then th
           else if String.eqb unit "d" then td
           else dflt))))))
  end.

(** ** Utilities *)

(** [is_admin] awaits one [get_chat_member] request; an exception of it is
    swallowed and reads as "no administrator". *)
Definition is_admin (context : Context) (chat_id user_id : Z) : bool :=
  match get_chat_member (bot context) chat_id (Uid user_id) with
  | Some member =>
      String.eqb (status member) "administrator"
      || String.eqb (status member) "creator"
  | None => false
  end.

Definition is_globally_blacklisted (user_id : Z) : M bool :=
  let* bl := get_BLACKLIST in ret (bool_decide (user_id ∈ bl)).

Definition has_banned_word (chat_id : Z) (body : string) : M bool :=
  let* s := get_STORE in
  let words := default [] (banned_words s !! Py.str chat_id) in
  ret (existsb (fun w => Py.contains (Py.lower w) (Py.lower body)) words).

(** The four placeholders of a welcome template. *)
Inductive Placeholder := p_first | p_mention | p_id | p_username.

Definition placeholder_name (k : Placeholder) : string :=
  match k with
  | p_first => "{first}"
  | p_mention => "{mention}"
  | p_id => "{id}"
  | p_username => "{username}"
  end.

(** The placeholder that stands at the head of [s], if one does. *)
Definition placeholder_at (s : string) : option Placeholder :=
  List.find (fun k => Py.startswith s (placeholder_name k))
            [p_first; p_mention; p_id; p_username].

Section Handlers.

(** Library functions and configuration the program takes from outside:
    [User.mention_html()], the built-in [int] on a [str] ([None] when it
    raises [ValueError]), and the configured [OWNER_ID]. *)
Context (mention_html : User -> string)
        (py_int : string -> option Z)
        (OWNER_ID : Z).

(** ** Target resolver *)

(** One lookup through the transport; an exception is swallowed. *)
Definition lookup_user (context : Context) (chat_id : Z) (r : ChatRef)
  : option User :=
  user <$> get_chat_member (bot context) chat_id r.

Definition get_target_user (update : Update) (context : Context)
  : Outcome (option User) :=
  match message update with
  | None => Raised
  | Some msg =>
      match reply_to_message msg with
      | Some replied => Returned (Some (from_user replied))
      | None =>
          match args context with
          | arg :: _ =>
              let by_id :=
                match py_int arg with
                | Some uid => lookup_user context (effective_chat_id update) (Uid uid)
                | None => None
                end in
              if Py.startswith arg "@" then
                match lookup_user context (effective_chat_id update) (Handle arg) with
                | Some u => Returned (Some u)
                | None => Returned by_id
                end
              else Returned by_id
          | [] => Returned None
          end
      end
  end.

(** [update.message.reply_text(body)] *)
Definition reply (update : Update) (context : Context) (body : string) : M unit :=
  match message update with
  | Some _ => call (bot context) (reply_text body)
  | None => raise
  end.

(** ** Moderation commands *)

(** The reply of [/warn]: the f-string with the count. *)
Definition warned_text (u : User) (count : Z) : string :=
  "Warned " +:+ mention_html u +:+ " (" +:+ Py.str count +:+ "/3)".

(** [now] is the reading of [datetime.now(timezone.utc)], in whole seconds. *)
Definition warn (now : Z) (update : Update) (context : Context) : M unit :=
  let chat := effective_chat_id update in
  if negb (is_admin context chat (id (effective_user update))) then ret tt else
  let* target := lift (get_target_user update context) in
  match target with
  | None => reply update context "Reply or mention user"
  | Some u =>
      let* count := add_warn chat (id u) in
      reply update context (warned_text u count) ;;
      if 3 <=? count then
        let* delta := lift (timedelta 0 0 0 1) in
        let* until := lift (timestamp_after now delta) in
        call (bot context) (restrict_chat_member chat (id u) false (Some until)) ;;
        reply update context (first_name u +:+ " auto-muted for 1 hour (3 warns)") ;;
        let* s := get_STORE in
        put_STORE (set_warns s (delete (warn_key chat (id u)) (warns s))) ;;
        save_store
      else ret tt
  end.

Definition delwarn (update : Update) (context : Context) : M unit :=
  let chat := effective_chat_id update in
  if negb (is_admin context chat (id (effective_user update))) then ret tt else
  let* target := lift (get_target_user update context) in
  match target with
  | None => reply update context "Reply or mention"
  | Some u =>
      remove_warn chat (id u) ;;
      reply update context ("Warn removed from " +:+ first_name u)
  end.

Definition warns_cmd (update : Update) (context : Context) : M unit :=
  let* target := lift (get_target_user update context) in
  let u := default (effective_user update) target in
  let* count := get_warn_count (effective_chat_id update) (id u) in
  reply update context
    (first_name u +:+ " has <b>" +:+ Py.str count +:+ "/3</b> warns").

Definition mute (now : Z) (update : Update) (context : Context) : M unit :=
  let chat := effective_chat_id update in
  if negb (is_admin context chat (id (effective_user update))) then ret tt else
  let* target := lift (get_target_user update context) in
  match target with
  | None => reply update context "Reply + time (e.g. /mute 10m)"
  | Some u =>
      let dur := List.last (args context) "1h" in
      let* delta := lift (parse_duration dur) in
      let* until := lift (timestamp_after now delta) in
      call (bot context) (restrict_chat_member chat (id u) false (Some until)) ;;
      reply update context (first_name u +:+ " muted for " +:+ dur)
  end.

(** ** Banned words *)

Definition addword (update : Update) (context : Context) : M unit :=
  let chat_id := effective_chat_id update in
  if negb (is_admin context chat_id (id (effective_user update))) then ret tt else
  match args context with
  | [] => reply update context "Usage: /addword badword"
  | _ =>
      let word := Py.lower (Py.join " " (args context)) in
      let chat := Py.str chat_id in
      let* s := get_STORE in
      let existing := default [] (banned_words s !! chat) in
      put_STORE (set_banned_words s (<[chat := existing]> (banned_words s))) ;;
      (if bool_decide (word ∈ existing) then ret tt else
         let* s := get_STORE in
         put_STORE (set_banned_words s
                      (<[chat := existing ++ [word]]> (banned_words s))) ;;
         save_store) ;;
      reply update context ("Word '" +:+ word +:+ "' banned in this group")
  end.

(** [l.remove(x)]: the first occurrence goes. *)
Fixpoint list_remove (x : string) (l : list string) : list string :=
  match l with
  | [] => []
  | y :: l' => if String.eqb x y then l' else y :: list_remove x l'
  end.

Definition removeword (update : Update) (context : Context) : M unit :=
  let chat_id := effective_chat_id update in
  if negb (is_admin context chat_id (id (effective_user update))) then ret tt else
  match args context with
  | [] => reply update context "Usage: /removeword word"
  | _ =>
      let word := Py.lower (Py.join " " (args context)) in
      let chat := Py.str chat_id in
      let* s := get_STORE in
      match banned_words s !! chat with
      | Some l =>
          if bool_decide (word ∈ l) then
            put_STORE (set_banned_words s
                         (<[chat := list_remove word l]> (banned_words s))) ;;
            save_store ;;
            reply update context "Word unbanned"
          else reply update context "Word not found"
      | None => reply update context "Word not found"
      end
  end.

Definition message_filter (update : Update) (context : Context) : M unit :=
  match message update with
  | None => ret tt
  | Some msg =>
      match text msg with
      | None => ret tt
      | Some body =>
          if Py.truthy body then
            let* banned := is_globally_blacklisted (id (effective_user update)) in
            if is_bot (effective_user update) || banned then ret tt else
            let* hit := has_banned_word (effective_chat_id update) body in
            if hit then try_pass (call (bot context) delete_message) else ret tt
          else ret tt
      end
  end.

(** ** Welcome system *)

(** [STORE["welcomes"].setdefault(chat, {})], then one update of the entry. *)
Definition update_cfg (chat : string) (f : WelcomeCfg -> WelcomeCfg) : M unit :=
  let* s := get_STORE in
  let cfg := default empty_cfg (welcomes s !! chat) in
  put_STORE (set_welcomes s (<[chat := f cfg]> (welcomes s))).

Definition setwelcometext (update : Update) (context : Context) : M unit :=
  let chat := effective_chat_id update in
  if negb (is_admin context chat (id (effective_user update))) then ret tt else
  match args context with
  | [] => reply update context "Usage: /setwelcometext Welcome {first}!"
  | _ =>
      update_cfg (Py.str chat)
        (fun c => mkCfg (Some (Py.join " " (args context)))
                        (cfg_media c) (cfg_type c) (cfg_link c)) ;;
      save_store ;;
      reply update context "Welcome text saved!"
  end.

Definition with_media (file_id kind : string) (c : WelcomeCfg) : WelcomeCfg :=
  mkCfg (cfg_text c) (Some file_id) (Some kind) (cfg_link c).

Definition setmedia (update : Update) (context : Context) : M unit :=
  let chat := effective_chat_id update in
  if negb (is_admin context chat (id (effective_user update))) then ret tt else
  match message update with
  | None => raise
  | Some m =>
      let usage := reply update context "Reply to a photo, GIF, or video" in
      match reply_to_message m with
      | None => usage
      | Some msg =>
          match List.last (Some <$> photo msg) None, animation msg, video msg with
          | Some file_id, _, _ =>
              update_cfg (Py.str chat) (with_media file_id "photo") ;;
              save_store ;; reply update context "Welcome media saved!"
          | None, Some file_id, _ =>
              update_cfg (Py.str chat) (with_media file_id "animation") ;;
              save_store ;; reply update context "Welcome media saved!"
          | None, None, Some file_id =>
              update_cfg (Py.str chat) (with_media file_id "video") ;;
              save_store ;; reply update context "Welcome media saved!"
          | None, None, None => usage
          end
      end
  end.

(** The link is kept as given when it starts with ["http"] or ["t.me"]. *)
Definition normalize_link (link : string) : string :=
  if negb (Py.startswith link "http" || Py.startswith link "t.me")
  then "https://" +:+ link else link.

Definition setchannellink (update : Update) (context : Context) : M unit :=
  let chat := effective_chat_id update in
  if negb (is_admin context chat (id (effective_user update))) then ret tt else
  match args context with
  | [] => reply update context "Usage: /setchannellink https://t.me/example"
  | arg :: _ =>
      let link := normalize_link arg in
      update_cfg (Py.str chat)
        (fun c => mkCfg (cfg_text c) (cfg_media c) (cfg_type c) (Some link)) ;;
      save_store ;;
      reply update context "Channel link button saved!"
  end.

Definition clearwelcome (update : Update) (context : Context) : M unit :=
  let chat := effective_chat_id update in
  if negb (is_admin context chat (id (effective_user update))) then ret tt else
  let* s := get_STORE in
  put_STORE (set_welcomes s (delete (Py.str chat) (welcomes s))) ;;
  save_store ;;
  reply update context "Welcome message cleared".

(** [d.get(k)] read as a truth value: a missing or empty string is false. *)
Definition get_truthy (v : option string) : option string :=
  match v with
  | Some x => if Py.truthy x then Some x else None
  | None => None
  end.

(** The four chained [replace] calls of [_send_welcome]. *)
Definition welcome_text (template : string) (member : User) : string :=
  let first := if Py.truthy (first_name member) then first_name member else "User" in
  let uname :=
    match get_truthy (username member) with
    | Some n => "@" +:+ n
    | None => first_name member
    end in
  Py.replace
    (Py.replace
       (Py.replace
          (Py.replace template "{first}" first)
          "{mention}" (mention_html member))
       "{id}" (Py.str (id member)))
    "{username}" uname.

(** The text as the specification words it: the template with its four
    placeholders substituted.  The template is read once, from left to
    right; where a placeholder stands, the member's value for it is put out
    as it is and reading goes on behind the placeholder; every other
    character is kept.  What a value holds is not read as template. *)
Definition value_of (member : User) (k : Placeholder) : string :=
  match k with
  | p_first => first_name member
  | p_mention => mention_html member
  | p_id => Py.str (id member)
  | p_username =>
      match username member with
      | Some n => "@" +:+ n
      | None => first_name member
      end
  end.

Fixpoint substitute_go (value : Placeholder -> string) (s : string)
    (skip : nat) : string :=
  match s with
  | EmptyString => EmptyString
  | String c s' =>
      match skip with
      | S k => substitute_go value s' k
      | O =>
          match placeholder_at s with
          | Some k =>
              value k
              +:+ substitute_go value s'
                    (String.length (placeholder_name k) - 1)
          | None => String c (substitute_go value s' 0)
          end
      end
  end.

Definition substituted (template : string) (member : User) : string :=
  substitute_go (value_of member) template 0.

(** The dict that maps a media kind to the send function; [None] is the
    [KeyError] of an unknown kind. *)
Definition send_func (mtype : string)
  : option (Z -> string -> string -> option string -> Event) :=
  if String.eqb mtype "photo" then Some send_photo
  else if String.eqb mtype "animation" then Some send_animation
  else if String.eqb mtype "video" then Some send_video
  else None.

(** The send of one welcome: by media kind when a media is configured. *)
Definition send_one (context : Context) (chat_id : Z) (cfg : WelcomeCfg)
    (body : string) : M unit :=
  let markup := get_truthy (cfg_link cfg) in
  match get_truthy (cfg_media cfg) with
  | Some file_id =>
      match send_func (default "photo" (cfg_type cfg)) with
      | Some send => call (bot context) (send chat_id file_id body markup)
      | None => raise
      end
  | None => call (bot context) (send_message chat_id body markup)
  end.

Fixpoint for_each {A} (l : list A) (body : A -> M unit) : M unit :=
  match l with
  | [] => ret tt
  | x :: l' => body x ;; for_each l' body
  end.

Definition _send_welcome (update : Update) (context : Context)
    (members : list User) : M unit :=
  let chat_id := effective_chat_id update in
  let* s := get_STORE in
  let cfg := default empty_cfg (welcomes s !! Py.str chat_id) in
  match get_truthy (cfg_text cfg) with
  | None => ret tt
  | Some template =>
      for_each members (fun member =>
        try_log (send_one context chat_id cfg (welcome_text template member))
                "Welcome failed")
  end.

Definition legacy_welcome (update : Update) (context : Context) : M unit :=
  match message update with
  | Some msg =>
      match new_chat_members msg with
      | [] => ret tt
      | members => _send_welcome update context members
      end
  | None => ret tt
  end.

Definition welcome_new_member (update : Update) (context : Context) : M unit :=
  match chat_member update with
  | None => ret tt
  | Some cmu =>
      let u := cmu_from_user cmu in
      let old_status := status <$> old_chat_member cmu in
      let new_status := status (new_chat_member cmu) in
      let was_in :=
        match old_status with
        | Some st => String.eqb st "member" || String.eqb st "administrator"
                     || String.eqb st "creator"
        | None => false
        end in
      if was_in || negb (String.eqb new_status "member") then ret tt else
      let* banned := is_globally_blacklisted (id u) in
      if is_bot u || banned then ret tt else
      _send_welcome update context [u]
  end.

(** ** Owner commands *)

Definition blacklist_cmd (update : Update) (context : Context) : M unit :=
  if negb (id (effective_user update) =? OWNER_ID) then ret tt else
  let* target := lift (get_target_user update context) in
  match target with
  | None => reply update context "Reply or mention user"
  | Some u =>
      let* bl := get_BLACKLIST in
      if bool_decide (id u ∈ bl) then reply update context "Already blacklisted"
      else
        put_BLACKLIST ({[id u]} ∪ bl) ;;
        let* bl := get_BLACKLIST in
        let* s := get_STORE in
        put_STORE (set_blacklist s (elements bl)) ;;
        save_store ;;
        reply update context ("Globally blacklisted " +:+ Py.str (id u))
  end.

Definition unblacklist (update : Update) (context : Context) : M unit :=
  if negb (id (effective_user update) =? OWNER_ID) then ret tt else
  let* target := lift (get_target_user update context) in
  let* bl := get_BLACKLIST in
  match target with
  | Some u =>
      if bool_decide (id u ∈ bl) then
        put_BLACKLIST (bl ∖ {[id u]}) ;;
        let* bl := get_BLACKLIST in
        let* s := get_STORE in
        put_STORE (set_blacklist s (elements bl)) ;;
        save_store ;;
        reply update context "Removed from global blacklist"
      else ret tt
  | None => ret tt
  end.

End Handlers.

(** ** Views of the state used in the properties *)

(** The count stored for a pair, as [get_warn_count] reads it. *)
Definition count_of (w : World) (chat uid : Z) : Z :=
  default 0 (warns (STORE w) !! warn_key chat uid).

(** The world with the warn table replaced. *)
Definition with_warns (w : World) (m : gmap string Z) : World :=
  mkWorld (set_warns (STORE w) m) (GLOBAL_BLACKLIST w).

(** [add_warn] followed by [remove_warn] for one pair. *)
Definition round_trip (chat uid : Z) : M unit :=
  add_warn chat uid ;; remove_warn chat uid.

(** Every stored count is at least 1: what the ledger keeps true. *)
Definition counts_positive (w : World) : Prop :=
  forall k n, warns (STORE w) !! k = Some n -> 1 <= n.

(** The three counts returned by three [add_warn] calls in a row. *)
Definition add_warn_thrice (chat uid : Z) : M (Z * Z * Z) :=
  let* a := add_warn chat uid in
  let* b := add_warn chat uid in
  let* c := add_warn chat uid in
  ret (a, b, c).

(** The world with the welcome table replaced. *)
Definition with_welcomes (w : World) (m : gmap string WelcomeCfg) : World :=
  mkWorld (set_welcomes (STORE w) m) (GLOBAL_BLACKLIST w).

(** The configuration of a chat as the handlers read it. *)
Definition cfg_of (w : World) (chat : Z) : WelcomeCfg :=
  default empty_cfg (welcomes (STORE w) !! Py.str chat).

(** The words stored for a chat, as [has_banned_word] reads them. *)
Definition words_of (w : World) (chat : Z) : list string :=
  default [] (banned_words (STORE w) !! Py.str chat).

(** What one welcome for one member puts on the wire: the call [e], and the
    log entry when the transport refuses it. *)
Definition one_call (context : Context) (e : Event) : list Event :=
  if delivers (bot context) e then [e] else [e; logging_error "Welcome failed"].

(** Seconds in one unit of the suffix; no suffix means hours. *)
Definition unit_seconds (g2 : string) : Z :=
  if String.eqb g2 "s" then 1
  else if String.eqb g2 "m" then 60
  else if String.eqb g2 "d" then 86400
  else 3600.

(** ** Example data

    An administrator, a transport that knows user 1 as an administrator and
    accepts every call, a fresh world, and the worlds of the scenarios. *)

(** A stand-in for [User.mention_html()]. *)
Definition example_mention (u : User) : string :=
  "<a>" +:+ first_name u +:+ "</a>".

(** A stand-in for [int]: a non-empty string of decimal digits. *)
Definition example_int (s : string) : option Z :=
  match span_digits s with
  | (String c ds, EmptyString) => Some (int_of_digits 0 (String c ds))
  | _ => None
  end.

Definition admin_user : User := mkUser 1 "Root" (Some "root") false.

Definition bob : User := mkUser 8 "Bob" None false.

Definition ann : User := mkUser 42 "Ann" (Some "ann42") false.

Definition eve : User := mkUser 7 "Eve" None false.

Definition example_bot : Bot :=
  mkBot (fun _ r =>
           match r with
           | Uid 1 => Some (mkMember "administrator" admin_user)
           | Uid n => Some (mkMember "member" (mkUser n "Member" None false))
           | Handle _ => None
           end)
        (fun _ => true).

(** The same transport, refusing every [restrict_chat_member]. *)
Definition refusing_bot : Bot :=
  mkBot (get_chat_member example_bot)
        (fun e => match e with
                  | restrict_chat_member _ _ _ _ => false
                  | _ => true
                  end).

(** A command sent by [sender] in [chat], possibly as a reply. *)
Definition command (chat : Z) (sender : User) (replied : option RepliedMessage)
  : Update :=
  mkUpdate (Some (mkMessage (Some "/command") replied [])) chat sender None.

(** The service message announcing new members. *)
Definition members_joined (chat : Z) (sender : User) (members : list User)
  : Update :=
  mkUpdate (Some (mkMessage None None members)) chat sender None.

(** The chat-member update of a user who joined by themselves. *)
Definition member_joined (chat : Z) (u : User) : Update :=
  mkUpdate None chat u
    (Some (mkCMU u (Some (mkMember "left" u)) (mkMember "member" u))).

(** The chat-member update of a user [u] whom [adder] put into the chat. *)
Definition member_added (chat : Z) (adder u : User) : Update :=
  mkUpdate None chat adder
    (Some (mkCMU adder (Some (mkMember "left" u)) (mkMember "member" u))).

(** The state of a process started without a snapshot. *)
Definition fresh : World := mkWorld default_store ∅.

(** The world after an administrator banned the word ["spam"] in chat 100
    of a fresh document. *)
Definition spam_banned : World :=
  (addword (command 100 admin_user None) (mkContext example_bot ["spam"])
           fresh).1.1.

(** Chat 5 after [/setwelcometext Welcome {first}!] and then
    [/setchannellink t.me/x], both sent by an administrator. *)
Definition welcome_bob_world : World :=
  let w1 := (setwelcometext (command 5 admin_user None)
               (mkContext example_bot ["Welcome"; "{first}!"]) fresh).1.1 in
  (setchannellink (command 5 admin_user None)
     (mkContext example_bot ["t.me/x"]) w1).1.1.

(** Chat 5 with a welcome text, after the owner (user 1) blacklisted Eve. *)
Definition eve_blacklisted : World :=
  let w1 := (setwelcometext (command 5 admin_user None)
               (mkContext example_bot ["Welcome"; "{first}!"]) fresh).1.1 in
  (blacklist_cmd example_int 1
     (command 5 admin_user (Some (mkReplied eve [] None None)))
     (mkContext example_bot []) w1).1.1.

(** Chat 100 after user 7 was warned twice. *)
Definition twice_warned : World :=
  ((add_warn 100 7 ;; add_warn 100 7) fresh).1.1.

(** An administrator warns Eve by replying to her message. *)
Definition warn_eve : Update :=
  command 5 admin_user (Some (mkReplied eve [] None None)).

(** A schedule for two calls: call 0 takes the lock, call 1 has to wait for
    it, call 0 reads the clock at 1000 and returns, then call 1 runs and
    reads the clock at 500000. *)
Definition interleaved : list (nat * Z) :=
  [(0%nat, 0); (1%nat, 0); (0%nat, 1000); (1%nat, 0); (0%nat, 0);
   (0%nat, 0); (0%nat, 0); (1%nat, 0); (1%nat, 500000); (1%nat, 0);
   (1%nat, 0); (1%nat, 0)].

(** The duration of [/mute 1000000000s], sent as a reply to Bob. *)
Definition mute_overflow_update : Update :=
  command 5 admin_user (Some (mkReplied bob [] None None)).

(** ** AI request gate

    [can_use_ai] runs as a coroutine; several calls are in flight at once and
    the event loop switches between them.  Each call is a task with a program
    counter; a schedule picks the task that moves next and supplies the clock
    reading a [datetime.now()] at that step would return (microseconds; no
    monotonicity is assumed of the wall clock).  Every statement under the
    lock is a separate step, so the lock alone has to keep the body atomic. *)

Module AiGate.

(** [COOLDOWN = 1.5], in seconds. *)
Definition COOLDOWN : Q := 3 # 2.

(** [(now - last).total_seconds()] for two readings in microseconds.  The
    program compares the float nearest to this quotient with the float 1.5;
    the outcome is that of the exact comparison, 1.5 being a float and the
    quotients next to it being a microsecond away. *)
Definition total_seconds (now last : Z) : Q := (now - last) # 1000000.

Inductive PC :=
  | Start                                   (* before [async with locks[user_id]] *)
  | Locked                                  (* lock held, before [now = ...] *)
  | GotNow (now : Z)                        (* before [last = ...] *)
  | GotLast (now : Z) (last : option Z)     (* before the test *)
  | Leaving (now : Z) (result : bool)       (* returning, lock still held *)
  | Done (now : Z) (result : bool).         (* lock released, value returned *)

Record Task := mkTask { user_id : Z; pc : PC }.

(** [held]: the users whose lock in [locks] is taken.  [last_used]: the
    function attribute [can_use_ai.last_used], [None] until first created. *)
Record Sys := mkSys {
  tasks : list Task;
  held : gset Z;
  last_used : option (gmap Z Z)
}.

(** [getattr(can_use_ai, "last_used", {}).get(user_id)] *)
Definition read_last (attr : option (gmap Z Z)) (u : Z) : option Z :=
  default ∅ attr !! u.

(** [last is None or (now - last).total_seconds() >= COOLDOWN] *)
Definition may_pass (now : Z) (last : option Z) : bool :=
  match last with
  | None => true
  | Some l => Qle_bool COOLDOWN (total_seconds now l)
  end.

(** One step of task [tid]; [None] when it cannot move (it waits for the
    lock, it has returned, or there is no such task). *)
Definition step (tid : nat) (clock : Z) (σ : Sys) : option Sys :=
  match tasks σ !! tid with
  | None => None
  | Some t =>
      let u := user_id t in
      let goto p := <[tid := mkTask u p]> (tasks σ) in
      match pc t with
      | Start =>
          if bool_decide (u ∈ held σ) then None
          else Some (mkSys (goto Locked) ({[u]} ∪ held σ) (last_used σ))
      | Locked => Some (mkSys (goto (GotNow clock)) (held σ) (last_used σ))
      | GotNow now =>
          Some (mkSys (goto (GotLast now (read_last (last_used σ) u)))
                      (held σ) (last_used σ))
      | GotLast now last =>
          if may_pass now last
          then Some (mkSys (goto (Leaving now true)) (held σ)
                           (Some (<[u := now]> (default ∅ (last_used σ)))))
          else Some (mkSys (goto (Leaving now false)) (held σ) (last_used σ))
      | Leaving now r =>
          Some (mkSys (goto (Done now r)) (held σ ∖ {[u]}) (last_used σ))
      | Done _ _ => None
      end
  end.

(** A schedule: which task moves, and what the clock shows then.  A task
    that cannot move leaves the system as it is. *)
Fixpoint run (schedule : list (nat * Z)) (σ : Sys) : Sys :=
  match schedule with
  | [] => σ
  | (tid, clock) :: rest => run rest (default σ (step tid clock σ))
  end.

(** Calls just made for the given users, with the attribute as it stands. *)
Definition spawn (users : list Z) (attr : option (gmap Z Z)) : Sys :=
  mkSys ((fun u => mkTask u Start) <$> users) ∅ attr.

(** The value a finished call returned, with the clock reading it took. *)
Definition returned (σ : Sys) (tid : nat) : option (Z * bool) :=
  match pc <$> tasks σ !! tid with
  | Some (Done now r) => Some (now, r)
  | _ => None
  end.

(** *** Notions used in the properties of the gate *)

(** [COOLDOWN] in microseconds. *)
Definition cooldown_us : Z := 1500000.

(** Whether a task is inside [async with locks[user_id]]. *)
Definition in_cs (p : PC) : bool :=
  match p with Start | Done _ _ => false | _ => true end.

(** The clock reading of a call that was granted, or that was denied. *)
Definition grant (p : PC) : option Z :=
  match p with Leaving n true | Done n true => Some n | _ => None end.

Definition denial (p : PC) : option Z :=
  match p with Leaving n false | Done n false => Some n | _ => None end.

(** The moves of one task of user [u], on the lock set and the attribute. *)
Inductive moves (u clock : Z)
  : PC -> gset Z -> option (gmap Z Z) -> PC -> gset Z -> option (gmap Z Z) -> Prop :=
  | move_acquire h a :
      u ∉ h -> moves u clock Start h a Locked ({[u]} ∪ h) a
  | move_now h a :
      moves u clock Locked h a (GotNow clock) h a
  | move_last n h a :
      moves u clock (GotNow n) h a (GotLast n (read_last a u)) h a
  | move_grant n l h a :
      may_pass n l = true ->
      moves u clock (GotLast n l) h a (Leaving n true) h
            (Some (<[u := n]> (default ∅ a)))
  | move_deny n l h a :
      may_pass n l = false ->
      moves u clock (GotLast n l) h a (Leaving n false) h a
  | move_release n r h a :
      moves u clock (Leaving n r) h a (Done n r) (h ∖ {[u]}) a.

(** What stays true along every schedule, for calls that started with the
    attribute [attr0]. *)
Record Inv (attr0 : option (gmap Z Z)) (σ : Sys) : Prop := mkInv {
  (* at most one task of a user is under that user's lock *)
  inv_excl : forall i j ti tj,
    tasks σ !! i = Some ti -> tasks σ !! j = Some tj ->
    in_cs (pc ti) = true -> in_cs (pc tj) = true ->
    user_id ti = user_id tj -> i = j;
  (* a lock is taken exactly when a task is under it *)
  inv_held : forall u,
    u ∈ held σ <->
    exists i t, tasks σ !! i = Some t /\ user_id t = u /\ in_cs (pc t) = true;
  (* the value read under the lock is still the stored one *)
  inv_last : forall i t n l,
    tasks σ !! i = Some t -> pc t = GotLast n l ->
    read_last (last_used σ) (user_id t) = l;
  (* the stored reading is that of the latest grant *)
  inv_grant : forall i t n,
    tasks σ !! i = Some t -> grant (pc t) = Some n ->
    exists L, read_last (last_used σ) (user_id t) = Some L
              /\ (L = n \/ cooldown_us <= L - n);
  (* two grants to one user are a cooldown apart *)
  inv_apart : forall i j ti tj ni nj,
    i <> j -> tasks σ !! i = Some ti -> tasks σ !! j = Some tj ->
    user_id ti = user_id tj ->
    grant (pc ti) = Some ni -> grant (pc tj) = Some nj ->
    cooldown_us <= Z.abs (ni - nj);
  (* a stored reading is the initial one or that of a granted call *)
  inv_source : forall u L,
    read_last (last_used σ) u = Some L ->
    read_last attr0 u = Some L
    \/ exists i t, tasks σ !! i = Some t /\ user_id t = u
                   /\ grant (pc t) = Some L;
  (* a denial is caused by such a reading, less than a cooldown before *)
  inv_denial : forall i t n,
    tasks σ !! i = Some t -> denial (pc t) = Some n ->
    exists L, n - L < cooldown_us
      /\ (read_last attr0 (user_id t) = Some L
          \/ exists j tj, tasks σ !! j = Some tj /\ user_id tj = user_id t
                          /\ grant (pc tj) = Some L)
}.

(** Steps a task still has to make. *)
Definition remaining (p : PC) : nat :=
  match p with
  | Start => 5 | Locked => 4 | GotNow _ => 3 | GotLast _ _ => 2
  | Leaving _ _ => 1 | Done _ _ => 0
  end.

Definition work (σ : Sys) : nat :=
  sum_list ((fun t => remaining (pc t)) <$> tasks σ).

End AiGate.

(** ** Persistent store: [load_store]

    The snapshot is a JSON text; what [json.load] returns is a JSON value
    (numbers are kept as integers here).  A JSON object is a [dict], modelled
    in insertion order. *)

#[local] Set Warnings "-register-all".

Inductive json :=
  | JNull
  | JBool (b : bool)
  | JNum (n : Z)
  | JStr (s : string)
  | JArr (items : list json)
  | JObj (fields : list (string * json)).

(** What the program finds at [STORE_FILE]: no file; a file that cannot be
    opened or parsed; a file that parses to a value. *)
Inductive Snapshot :=
  | Missing
  | Unreadable
  | Parsed (data : json).

Fixpoint dict_get (d : list (string * json)) (k : string) : option json :=
  match d with
  | [] => None
  | (k', v) :: d' => if String.eqb k k' then Some v else dict_get d' k
  end.

(** [d.setdefault(k, v)]: a new key goes to the end. *)
Definition dict_setdefault (d : list (string * json)) (k : string) (v : json)
  : list (string * json) :=
  match dict_get d k with
  | Some _ => d
  | None => d ++ [(k, v)]
  end.

Definition default_fields : list (string * json) :=
  [("welcomes", JObj []); ("blacklist", JArr []);
   ("banned_words", JObj []); ("warns", JObj [])].

(** [for k in default: data.setdefault(k, default[k])] *)
Definition merge_defaults (data defaults : list (string * json))
  : list (string * json) :=
  fold_left (fun d kv => dict_setdefault d (fst kv) (snd kv)) defaults data.

(** A value that is not an object has no [setdefault]: the [AttributeError]
    is caught with the rest, and the defaults are returned. *)
Definition load_store (file : Snapshot) : json :=
  match file with
  | Parsed (JObj data) =>
      JObj (merge_defaults data default_fields)
  | Parsed _ | Missing | Unreadable => JObj default_fields
  end.


(** ** Notions used in the further properties *)

(** A string without the separator of the ledger keys. *)
Definition no_colon (s : string) : Prop :=
  Forall (fun c => c <> ":"%char) (String.list_ascii_of_string s).

(** ** Two more commands *)

Section MoreHandlers.

Context (py_int : string -> option Z)
        (OWNER_ID : Z).

(** [/unmute]: the restriction is lifted, with no end date.  Of the four
    permissions the call grants, the event records [can_send_messages]. *)
Definition unmute (update : Update) (context : Context) : M unit :=
  let chat := effective_chat_id update in
  if negb (is_admin context chat (id (effective_user update))) then ret tt else
  let* target := lift (get_target_user py_int update context) in
  match target with
  | None => reply update context "Reply or mention"
  | Some u =>
      call (bot context) (restrict_chat_member chat (id u) true None) ;;
      reply update context (first_name u +:+ " unmuted")
  end.

(** [/blacklisted]: the owner gets the list, one id per line, in the order
    the set yields its elements. *)
Definition blacklisted (update : Update) (context : Context) : M unit :=
  if negb (id (effective_user update) =? OWNER_ID) then ret tt else
  let* bl := get_BLACKLIST in
  let lines :=
    match elements bl with
    | [] => "Empty"
    | ids => Py.join (String "010" "") (Py.str <$> ids)
    end in
  reply update context ("Global Blacklist:" +:+ String "010" "" +:+ lines).

End MoreHandlers.

(** ** The handler table of [main]

    [main] registers one handler per command or kind of update.  A delivery
    names the handler that is run, with the update and the context it gets;
    the [/warn] and [/mute] handlers also read the clock. *)

Inductive Handler :=
  | h_warn (now : Z)
  | h_delwarn
  | h_warns
  | h_mute (now : Z)
  | h_unmute
  | h_addword
  | h_removeword
  | h_setwelcometext
  | h_setmedia
  | h_setchannellink
  | h_clearwelcome
  | h_blacklist
  | h_unblacklist
  | h_blacklisted
  | h_legacy_welcome
  | h_welcome_new_member
  | h_message_filter.

(** The test a handler starts with: [is_admin] for the sender in the chat,
    the comparison of the sender with [OWNER_ID], or none. *)
Inductive Guard := for_admins | for_owner | for_everyone.

Definition guard (h : Handler) : Guard :=
  match h with
  | h_warn _ | h_delwarn | h_mute _ | h_unmute | h_addword | h_removeword
  | h_setwelcometext | h_setmedia | h_setchannellink | h_clearwelcome =>
      for_admins
  | h_blacklist | h_unblacklist | h_blacklisted => for_owner
  | h_warns | h_legacy_welcome | h_welcome_new_member | h_message_filter =>
      for_everyone
  end.

Section Dispatch.

Context (mention_html : User -> string)
        (py_int : string -> option Z)
        (OWNER_ID : Z).

Definition handle (h : Handler) (update : Update) (context : Context) : M unit :=
  match h with
  | h_warn now => warn mention_html py_int now update context
  | h_delwarn => delwarn py_int update context
  | h_warns => warns_cmd py_int update context
  | h_mute now => mute py_int now update context
  | h_unmute => unmute py_int update context
  | h_addword => addword update context
  | h_removeword => removeword update context
  | h_setwelcometext => setwelcometext update context
  | h_setmedia => setmedia update context
  | h_setchannellink => setchannellink update context
  | h_clearwelcome => clearwelcome update context
  | h_blacklist => blacklist_cmd py_int OWNER_ID update context
  | h_unblacklist => unblacklist py_int OWNER_ID update context
  | h_blacklisted => blacklisted OWNER_ID update context
  | h_legacy_welcome => legacy_welcome mention_html update context
  | h_welcome_new_member => welcome_new_member mention_html update context
  | h_message_filter => message_filter update context
  end.

(** Whether the sender passes the test the handler starts with. *)
Definition passes (h : Handler) (update : Update) (context : Context) : bool :=
  match guard h with
  | for_admins =>
      is_admin context (effective_chat_id update) (id (effective_user update))
  | for_owner => id (effective_user update) =? OWNER_ID
  | for_everyone => true
  end.

(** Deliveries served one after the other, each handler run to its end
    before the next starts; a handler that raises is abandoned and the next
    delivery is served.  ([main] asks for concurrent updates, so that the
    library may also switch between handlers where they await; those
    interleavings are not part of [serve].) *)
Fixpoint serve (deliveries : list (Handler * Update * Context)) (w : World)
  : World :=
  match deliveries with
  | [] => w
  | (h, update, context) :: rest => serve rest (handle h update context w).1.1
  end.

(** What the served deliveries put on the wire, on disk and in the log. *)
Fixpoint serve_trace (deliveries : list (Handler * Update * Context))
    (w : World) : list Event :=
  match deliveries with
  | [] => []
  | (h, update, context) :: rest =>
      (handle h update context w).1.2
      ++ serve_trace rest (handle h update context w).1.1
  end.

End Dispatch.

(** [GLOBAL_BLACKLIST = set(STORE.get("blacklist", []))], as set up at start
    and after every change of the blacklist. *)
Definition blacklist_mirrored (w : World) : Prop :=
  GLOBAL_BLACKLIST w = list_to_set (blacklist (STORE w)).

(** Every list of banned words holds lowercase words, each once. *)
Definition words_normal (w : World) : Prop :=
  forall chat l, banned_words (STORE w) !! chat = Some l ->
    NoDup l /\ Forall (fun x => Py.lower x = x) l.


(** The document last written by [save_store] in a trace, or [disk] when the
    trace writes none. *)
Fixpoint written (trace : list Event) (disk : Store) : Store :=
  match trace with
  | [] => disk
  | json_dump doc :: rest => written rest doc
  | _ :: rest => written rest disk
  end.

(** ** AI commands: [ask] and [mention_ai]

    Both commands go through [can_use_ai] and [call_ai].  What they read of
    the update beyond [Update] is [update.effective_message]; what they call
    is recorded in a trace of its own.  This section takes a call of
    [can_use_ai] that runs from its first to its last statement without
    another call of the same user in between; the interleavings are those of
    [AiGate]. *)

Module PyText.

(** [c.isspace()], which is what [strip] removes. *)
Definition isspace (c : ascii) : bool :=
  let n := N_of_ascii c in
  ((9 <=? n) && (n <=? 13) || (28 <=? n) && (n <=? 32)
   || (n =? 133) || (n =? 160))%N.

(** [s.lstrip()] *)
Fixpoint lstrip (s : string) : string :=
  match s with
  | String c s' => if isspace c then lstrip s' else s
  | EmptyString => EmptyString
  end.

(** [s.rstrip()] *)
Fixpoint rstrip (s : string) : string :=
  match s with
  | EmptyString => EmptyString
  | String c s' =>
      match rstrip s' with
      | EmptyString => if isspace c then EmptyString else String c EmptyString
      | r => String c r
      end
  end.

(** [s.strip()] *)
Definition strip (s : string) : string := rstrip (lstrip s).

(** [re.sub(pattern, "", s, flags=re.I)] for a pattern made of lowercase
    ASCII letters and other literal ASCII characters: a character of [s]
    matches a letter of the pattern when its lowercase form is that letter.
    Matches are taken left to right and do not overlap; [skip] counts the
    characters of a match still to be dropped. *)
Fixpoint sub_ignore_case_go (pattern s : string) (skip : nat) : string :=
  match s with
  | EmptyString => EmptyString
  | String c s' =>
      match skip with
      | S k => sub_ignore_case_go pattern s' k
      | O =>
          if Py.startswith (Py.lower s) pattern
          then sub_ignore_case_go pattern s' (String.length pattern - 1)
          else String c (sub_ignore_case_go pattern s' 0)
      end
  end.

Definition sub_ignore_case (pattern s : string) : string :=
  sub_ignore_case_go pattern s 0.

End PyText.

(** [update.effective_message], as far as the two commands read it. *)
Record EffectiveMessage := mkEffective {
  em_text : option string;
  em_from_user : option User;
  message_id : Z
}.

(** What the two commands call. *)
Inductive AiEvent :=
  | ai_reply_text (body : string) (reply_to_message_id : option Z)
  | reply_chat_action (action : string)
  | completion (prompt : string).

(** [can_use_ai] run on its own: the answer, and the attribute
    [can_use_ai.last_used] afterwards.  [now] is in microseconds. *)
Definition can_use_ai (now user_id : Z) (attr : option (gmap Z Z))
  : bool * option (gmap Z Z) :=
  if AiGate.may_pass now (AiGate.read_last attr user_id)
  then (true, Some (<[user_id := now]> (default ∅ attr)))
  else (false, attr).

Section AiHandlers.

(** [call_ai]: the text of the completion, or the fallback text when the
    request fails; it never raises.  [accepts]: whether the transport lets a
    call through. *)
Context (call_ai : string -> string)
        (accepts : AiEvent -> bool).

(** Calls awaited one after the other: each is recorded, and the first one
    the transport refuses raises.  The request to the model is not a
    transport call. *)
Fixpoint awaited (calls : list AiEvent) : list AiEvent * Outcome unit :=
  match calls with
  | [] => ([], Returned tt)
  | e :: rest =>
      if match e with completion _ => true | _ => accepts e end
      then let '(t, r) := awaited rest in (e :: t, r)
      else ([e], Raised)
  end.

Definition finish (attr : option (gmap Z Z)) (calls : list AiEvent)
  : option (gmap Z Z) * list AiEvent * Outcome unit :=
  let '(t, r) := awaited calls in (attr, t, r).

Definition ask (now : Z) (update : Update)
    (effective_message : option EffectiveMessage) (context : Context)
    (w : World) (attr : option (gmap Z Z))
  : option (gmap Z Z) * list AiEvent * Outcome unit :=
  let user_id := id (effective_user update) in
  if bool_decide (user_id ∈ GLOBAL_BLACKLIST w) then
    match message update with
    | Some _ => finish attr [ai_reply_text "Access denied." None]
    | None => (attr, [], Raised)
    end
  else
    let '(ok, attr) := can_use_ai now user_id attr in
    if negb ok then (attr, [], Returned tt) else
    match args context with
    | [] =>
        match message update with
        | Some _ =>
            finish attr
              [ai_reply_text
                 "Use: <code>/ask what is the meaning of life?</code>" None]
        | None => (attr, [], Raised)
        end
    | _ =>
        let query := Py.join " " (args context) in
        match effective_message with
        | Some msg =>
            finish attr
              [reply_chat_action "typing"; completion query;
               ai_reply_text (call_ai query) (Some (message_id msg))]
        | None => (attr, [], Raised)
        end
    end.

(** Whether the stripped, lowercased text addresses the bot. *)
Definition addressed (text : string) : bool :=
  Py.contains "@dresguardian" text
  || Py.startswith text "dresguardian"
  || Py.startswith text "hey dres"
  || Py.startswith text "yo dres".

Definition mention_ai (now : Z) (effective_message : option EffectiveMessage)
    (w : World) (attr : option (gmap Z Z))
  : option (gmap Z Z) * list AiEvent * Outcome unit :=
  match effective_message with
  | None => (attr, [], Returned tt)
  | Some msg =>
      match em_text msg with
      | None => (attr, [], Returned tt)
      | Some body =>
          if negb (Py.truthy body) then (attr, [], Returned tt) else
          match em_from_user msg with
          | None => (attr, [], Raised)
          | Some sender =>
              if is_bot sender then (attr, [], Returned tt) else
              if bool_decide (id sender ∈ GLOBAL_BLACKLIST w)
              then (attr, [], Returned tt) else
              let '(ok, attr) := can_use_ai now (id sender) attr in
              if negb ok then (attr, [], Returned tt) else
              let text := Py.lower (PyText.strip body) in
              if negb (addressed text) then (attr, [], Returned tt) else
              let query :=
                PyText.strip (PyText.sub_ignore_case "@dresguardian" body) in
              if negb (Py.truthy query) then (attr, [], Returned tt) else
              finish attr
                [reply_chat_action "typing"; completion query;
                 ai_reply_text (call_ai query) (Some (message_id msg))]
          end
      end
  end.

End AiHandlers.

(** The schedule of one call of [can_use_ai] that nothing interrupts: its
    five steps, the clock read at the second. *)
Definition uninterrupted (tid : nat) (now : Z) : list (nat * Z) :=
  [(tid, now); (tid, now); (tid, now); (tid, now); (tid, now)].

(** ** The registrations of [main]

    [main] adds every handler with [app.add_handler(...)], without a group,
    so all of them are in group 0, in the order of the calls.  The library
    hands an update to the first handler of a group whose filter accepts it
    and to no other handler of that group. *)

Inductive Filter :=
  | on_command (name : string)      (* CommandHandler(name, ...) *)
  | on_text_not_command             (* filters.TEXT & ~filters.COMMAND *)
  | on_new_chat_members             (* filters.StatusUpdate.NEW_CHAT_MEMBERS *)
  | on_chat_member.                 (* ChatMemberHandler.CHAT_MEMBER *)

Inductive Callback :=
  | cb_start | cb_help_cmd | cb_ask | cb_search | cb_mention_ai
  | cb_warn | cb_delwarn | cb_warns | cb_kick | cb_ban | cb_unban
  | cb_mute | cb_unmute | cb_addword | cb_removeword
  | cb_setwelcometext | cb_setmedia | cb_setchannellink | cb_clearwelcome
  | cb_blacklist | cb_unblacklist | cb_blacklisted
  | cb_legacy_welcome | cb_welcome_new_member | cb_message_filter.

Definition registered : list (Filter * Callback) :=
  [ (on_command "start", cb_start);
    (on_command "help", cb_help_cmd);
    (on_command "ask", cb_ask);
    (on_command "search", cb_search);
    (on_text_not_command, cb_mention_ai);
    (on_command "warn", cb_warn);
    (on_command "delwarn", cb_delwarn);
    (on_command "warns", cb_warns);
    (on_command "kick", cb_kick);
    (on_command "ban", cb_ban);
    (on_command "unban", cb_unban);
    (on_command "mute", cb_mute);
    (on_command "unmute", cb_unmute);
    (on_command "addword", cb_addword);
    (on_command "removeword", cb_removeword);
    (on_command "setwelcometext", cb_setwelcometext);
    (on_command "setmedia", cb_setmedia);
    (on_command "setchannellink", cb_setchannellink);
    (on_command "clearwelcome", cb_clearwelcome);
    (on_command "blacklist", cb_blacklist);
    (on_command "unblacklist", cb_unblacklist);
    (on_command "blacklisted", cb_blacklisted);
    (on_new_chat_members, cb_legacy_welcome);
    (on_chat_member, cb_welcome_new_member);
    (on_text_not_command, cb_message_filter) ].

(** The callback that gets an update: that of the first registration whose
    filter accepts it.  [accepted] is the library's test of a filter on an
    update; nothing is assumed of it. *)
Definition dispatch {U : Type} (accepted : Filter -> U -> bool)
    (table : list (Filter * Callback)) (update : U) : option Callback :=
  snd <$> List.find (fun h => accepted (fst h) update) table.

(** ** Example data for the further properties *)

(** A text message of [sender] in [chat]. *)
Definition text_message (chat : Z) (sender : User) (body : string) : Update :=
  mkUpdate (Some (mkMessage (Some body) None [])) chat sender None.

(** An afternoon in chat 5: a word is banned, Eve is warned, a welcome text
    is set, Eve is blacklisted by the owner (user 1), her warn is taken
    back, and a member who is no administrator tries to clear the welcome. *)
Definition example_run : list (Handler * Update * Context) :=
  [ (h_addword, command 5 admin_user None, mkContext example_bot ["Spam"]);
    (h_warn 1700000000, warn_eve, mkContext example_bot []);
    (h_setwelcometext, command 5 admin_user None,
     mkContext example_bot ["Welcome"; "{first}!"]);
    (h_blacklist, warn_eve, mkContext example_bot []);
    (h_delwarn, warn_eve, mkContext example_bot []);
    (h_clearwelcome, command 5 bob None, mkContext example_bot []) ].

(** A stand-in for [call_ai]: the prompt comes back. *)
Definition echo (prompt : string) : string := prompt.

(** A text message as [mention_ai] reads it. *)
Definition effective_text (sender : User) (body : string) : EffectiveMessage :=
  mkEffective (Some body) (Some sender) 1.

(** The handlers that assign to neither global and call no function that
    does. *)
Definition read_only (h : Handler) : bool :=
  match h with
  | h_warns | h_mute _ | h_unmute | h_blacklisted
  | h_legacy_welcome | h_welcome_new_member | h_message_filter => true
  | _ => false
  end.

(** ** Templates in parts *)

(** A template cut into its parts: stretches of text, and placeholders. *)
Inductive Segment := Lit (text : string) | Hole (k : Placeholder).

(** The template the parts spell. *)
Fixpoint flat (segments : list Segment) : string :=
  match segments with
  | [] => ""
  | Lit text :: rest => text +:+ flat rest
  | Hole k :: rest => placeholder_name k +:+ flat rest
  end.

(** A string without an opening brace. *)
Definition no_brace (s : string) : Prop :=
  Forall (fun c => c <> "{"%char) (String.list_ascii_of_string s).

(** The stretches of text have no opening brace: every opening brace of the
    template is that of a placeholder. *)
Definition plain_text (segments : list Segment) : Prop :=
  Forall (fun seg => match seg with Lit text => no_brace text | Hole _ => True end)
         segments.

Definition same_placeholder (a b : Placeholder) : bool :=
  match a, b with
  | p_first, p_first | p_mention, p_mention
  | p_id, p_id | p_username, p_username => true
  | _, _ => false
  end.

(** The parts with one placeholder filled in, and with all of them. *)
Definition fill (k : Placeholder) (v : string) (segments : list Segment)
  : list Segment :=
  (fun seg =>
     match seg with
     | Hole k' => if same_placeholder k k' then Lit v else Hole k'
     | Lit text => Lit text
     end) <$> segments.

Definition fill_all (value : Placeholder -> string) (segments : list Segment)
  : list Segment :=
  (fun seg =>
     match seg with
     | Hole k => Lit (value k)
     | Lit text => Lit text
     end) <$> segments.

(** A member whose first name reads like a placeholder, and chat 5 with the
    welcome text ["Hello {first}"]. *)
Definition braces : User := mkUser 42 "{id}" None false.

Definition hello_world : World :=
  (setwelcometext (command 5 admin_user None)
     (mkContext example_bot ["Hello"; "{first}"]) fresh).1.1.


(** A transport that knows the handle ["@bob"] and the id 42, and nobody
    else. *)
Definition directory_bot : Bot :=
  mkBot (fun _ r =>
           match r with
           | Handle h =>
               if String.eqb h "@bob" then Some (mkMember "member" bob)
               else None
           | Uid n =>
               if n =? 42 then Some (mkMember "member" ann) else None
           end)
        (fun _ => true).

(** A command that was edited after it was sent: the library hands it to the
    command handlers like a new one, with the text in
    [update.edited_message] and [update.message] left [None]. *)
Definition edited_command (chat : Z) (sender : User) : Update :=
  mkUpdate None chat sender None.

(** * Properties *)

(** ** Strings *)

Module PyFacts.
Import Py.

Lemma startswith_spec s p :
  startswith s p = true <-> exists r, s = p +:+ r.
Proof.
  revert s. induction p as [|a p IH]; intros s; cbn.
  - split; [intros _; exists s; reflexivity | reflexivity].
  - destruct s as [|b s]; cbn.
    + split; [discriminate | intros [r Hr]; discriminate].
    + destruct (Ascii.eqb_spec a b) as [->|Hne].
      * rewrite IH. split; intros [r Hr]; exists r; cbn in *; congruence.
      * split; [discriminate | intros [r Hr]; cbn in Hr; congruence].
Qed.


Lemma lower_app a b : lower (a +:+ b) = lower a +:+ lower b.
Proof. induction a as [|c a IH]; cbn; [reflexivity | rewrite IH; reflexivity]. Qed.

Lemma chr_lower_idemp c : chr_lower (chr_lower c) = chr_lower c.
Proof. destruct c as [[] [] [] [] [] [] [] []]; reflexivity. Qed.

Lemma lower_idemp s : lower (lower s) = lower s.
Proof.
  induction s as [|c s IH]; cbn; [reflexivity|].
  rewrite chr_lower_idemp, IH. reflexivity.
Qed.

(** The three equations that fix [replace] for a non-empty [old]: an
    occurrence at the head is replaced and the scan resumes after it; any
    other head character is kept; the empty string is left alone. *)
Lemma replace_go_skip old new a s :
  replace_go old new (a +:+ s) (String.length a) = replace_go old new s 0.
Proof.
  induction a as [|c a IH]; cbn; [|exact IH].
  destruct s; reflexivity.
Qed.

Lemma replace_head c old new s :
  replace (String c old +:+ s) (String c old) new = new +:+ replace s (String c old) new.
Proof.
  unfold replace. cbn [append replace_go].
  replace (startswith (String c (old +:+ s)) (String c old)) with true.
  - rewrite replace_go_skip. reflexivity.
  - symmetry. apply startswith_spec. exists s. reflexivity.
Qed.

Lemma replace_keep c old new s :
  startswith (String c s) old = false ->
  replace (String c s) old new = String c (replace s old new).
Proof. intros H. unfold replace. cbn [replace_go]. rewrite H. reflexivity. Qed.

Lemma replace_empty c old new : replace "" (String c old) new = "".
Proof. reflexivity. Qed.

(** A string without any occurrence of [old] is returned as it is. *)
Lemma replace_absent s old new :
  contains old s = false -> replace s old new = s.
Proof.
  destruct old as [|a old].
  { destruct s; cbn; discriminate. }
  induction s as [|c s IH]; [reflexivity|].
  cbn [contains]. rewrite orb_false_iff. intros [Hhd Htl].
  rewrite replace_keep by exact Hhd. rewrite IH by exact Htl. reflexivity.
Qed.

Lemma join_singleton sep p : join sep [p] = p.
Proof. reflexivity. Qed.

End PyFacts.

(** ** The handler monad *)

Ltac run_m :=
  cbv beta iota zeta delta
    [bind ret raise emit call lift save_store get_STORE put_STORE
     get_BLACKLIST put_BLACKLIST try_log try_pass];
  cbn [STORE GLOBAL_BLACKLIST warns welcomes blacklist banned_words
       set_warns set_welcomes set_banned_words set_blacklist fst snd app].

Lemma bind_run {A B} (m : M A) (k : A -> M B) w w1 t1 a :
  m w = (w1, t1, Returned a) ->
  bind m k w = (let '(w2, t2, r) := k a w1 in (w2, t1 ++ t2, r)).
Proof. intros H. unfold bind. rewrite H. reflexivity. Qed.

Lemma bind_raised {A B} (m : M A) (k : A -> M B) w w1 t1 :
  m w = (w1, t1, Raised) -> bind m k w = (w1, t1, Raised).
Proof. intros H. unfold bind. rewrite H. reflexivity. Qed.

Lemma call_run b e w :
  delivers b e = true -> call b e w = (w, [e], Returned tt).
Proof. intros H. unfold call. run_m. rewrite H. reflexivity. Qed.

Lemma call_raised b e w :
  delivers b e = false -> call b e w = (w, [e], Raised).
Proof. intros H. unfold call. run_m. rewrite H. reflexivity. Qed.

(** ** Warn ledger *)

Section Ledger.

Implicit Types (w : World) (chat uid : Z).

Lemma get_warn_count_run w chat uid :
  get_warn_count chat uid w = (w, [], Returned (count_of w chat uid)).
Proof. reflexivity. Qed.

Lemma add_warn_run w chat uid :
  let n := count_of w chat uid + 1 in
  let w' := with_warns w (<[warn_key chat uid := n]> (warns (STORE w))) in
  add_warn chat uid w = (w', [json_dump (STORE w')], Returned n).
Proof.
  unfold add_warn, count_of, with_warns. run_m.
  rewrite lookup_insert_eq. reflexivity.
Qed.

Lemma remove_warn_run_some w chat uid n :
  warns (STORE w) !! warn_key chat uid = Some n ->
  let m := if n - 1 <=? 0 then delete (warn_key chat uid) (warns (STORE w))
           else <[warn_key chat uid := n - 1]> (warns (STORE w)) in
  remove_warn chat uid w
  = (with_warns w m, [json_dump (STORE (with_warns w m))], Returned tt).
Proof.
  intros H. unfold remove_warn, with_warns. run_m. rewrite H. reflexivity.
Qed.

Lemma remove_warn_run_none w chat uid :
  warns (STORE w) !! warn_key chat uid = None ->
  remove_warn chat uid w = (w, [], Returned tt).
Proof.
  intros H. unfold remove_warn. run_m. rewrite H. reflexivity.
Qed.

Lemma round_trip_run w chat uid :
  let key := warn_key chat uid in
  let c := count_of w chat uid in
  let m1 := <[key := c + 1]> (warns (STORE w)) in
  let m2 := if c <=? 0 then delete key m1 else <[key := c]> m1 in
  round_trip chat uid w
  = (with_warns w m2,
     [json_dump (STORE (with_warns w m1)); json_dump (STORE (with_warns w m2))],
     Returned tt).
Proof.
  intros key c m1 m2. unfold round_trip, bind.
  rewrite add_warn_run. fold key c m1.
  rewrite (remove_warn_run_some _ _ _ (c + 1)).
  2: { cbn. apply lookup_insert_eq. }
  cbn [STORE with_warns set_warns warns GLOBAL_BLACKLIST welcomes blacklist
       banned_words app].
  replace (c + 1 - 1) with c by lia. reflexivity.
Qed.

Lemma add_warn_keeps_positive w chat uid :
  counts_positive w -> counts_positive (add_warn chat uid w).1.1.
Proof.
  intros H k n. rewrite add_warn_run. cbn.
  destruct (decide (k = warn_key chat uid)) as [->|Hne].
  - rewrite lookup_insert_eq. intros [= <-]. unfold count_of.
    destruct (warns (STORE w) !! warn_key chat uid) as [c|] eqn:E; cbn; [|lia].
    apply H in E. lia.
  - rewrite lookup_insert_ne by done. apply H.
Qed.

Lemma remove_warn_keeps_positive w chat uid :
  counts_positive w -> counts_positive (remove_warn chat uid w).1.1.
Proof.
  intros H k n.
  destruct (warns (STORE w) !! warn_key chat uid) as [c|] eqn:E.
  - rewrite (remove_warn_run_some _ _ _ c E). cbn.
    destruct (Z.leb_spec (c - 1) 0).
    + destruct (decide (k = warn_key chat uid)) as [->|Hne].
      * rewrite lookup_delete_eq. discriminate.
      * rewrite lookup_delete_ne by done. apply H.
    + destruct (decide (k = warn_key chat uid)) as [->|Hne].
      * rewrite lookup_insert_eq. intros [= <-]. lia.
      * rewrite lookup_insert_ne by done. apply H.
  - rewrite (remove_warn_run_none _ _ _ E). cbn. apply H.
Qed.

Lemma counts_positive_fresh : counts_positive fresh.
Proof. intros k n H. cbn in H. rewrite lookup_empty in H. discriminate. Qed.

(** Where the stored counts are positive, every count read is at least 0. *)
Lemma counts_positive_nonneg w chat uid :
  counts_positive w -> 0 <= count_of w chat uid.
Proof.
  intros H. unfold count_of.
  destruct (warns (STORE w) !! warn_key chat uid) as [n|] eqn:E; cbn; [|lia].
  apply H in E. lia.
Qed.

(** C3. For every (chat, user) pair whose count is not negative, [add_warn]
    followed by [remove_warn] brings the count back to its prior value: a
    prior count above zero is stored again as it was, a prior count of zero
    leaves no entry and [get_warn_count] reads 0; no other pair changes, and
    doing the round trip once more changes nothing. *)
Theorem add_then_remove_warn_restores_count w chat uid :
  0 <= count_of w chat uid ->
  exists w' t,
    (add_warn chat uid ;; remove_warn chat uid) w = (w', t, Returned tt)
    /\ get_warn_count chat uid w' = (w', [], Returned (count_of w chat uid))
    /\ warns (STORE w') !! warn_key chat uid
       = (if count_of w chat uid =? 0 then None else Some (count_of w chat uid))
    /\ (forall k, k <> warn_key chat uid ->
          warns (STORE w') !! k = warns (STORE w) !! k)
    /\ (round_trip chat uid w').1.1 = w'.
Proof.
  intros Hc.
  pose proof (round_trip_run w chat uid) as Hrun. cbv zeta in Hrun.
  set (key := warn_key chat uid) in *. set (c := count_of w chat uid) in *.
  set (m1 := <[key := c + 1]> (warns (STORE w))) in *.
  set (m2 := if c <=? 0 then delete key m1 else <[key := c]> m1) in *.
  assert (Hkey : m2 !! key = if c =? 0 then None else Some c).
  { subst m2. destruct (Z.leb_spec c 0), (Z.eqb_spec c 0); try lia.
    - apply lookup_delete_eq.
    - apply lookup_insert_eq. }
  assert (Hcount : count_of (with_warns w m2) chat uid = c).
  { unfold count_of. cbn. fold key. rewrite Hkey.
    destruct (Z.eqb_spec c 0); cbn; lia. }
  eexists (with_warns w m2), _. split; [exact Hrun|].
  split; [rewrite get_warn_count_run, Hcount; reflexivity|].
  split; [exact Hkey|].
  split.
  - intros k Hk. cbn. subst m2 m1. destruct (c <=? 0).
    + rewrite lookup_delete_ne, lookup_insert_ne by done. reflexivity.
    + rewrite !lookup_insert_ne by done. reflexivity.
  - rewrite round_trip_run. cbn [fst]. fold key. rewrite Hcount.
    unfold with_warns at 1 3. cbn. f_equal. f_equal.
    subst m2. destruct (Z.leb_spec c 0).
    + rewrite delete_insert_eq, delete_delete_eq. reflexivity.
    + rewrite !insert_insert_eq. reflexivity.
Qed.

(** The count has to be non-negative for the round trip: a stored count of
    -5 comes back as no entry. *)
Example round_trip_negative :
  let w := mkWorld (mkStore ∅ [] ∅ {[ warn_key 1 2 := -5 ]}) ∅ in
  count_of w 1 2 = -5 /\ count_of (round_trip 1 2 w).1.1 1 2 = 0.
Proof. split; vm_compute; reflexivity. Qed.

End Ledger.

(** ** Escalation in the [/warn] workflow *)

Section Escalation.

Context (mention_html : User -> string) (py_int : string -> option Z).

Variables (update : Update) (context : Context) (u : User).

Let chat := effective_chat_id update.
Let key := warn_key chat (id u).

(** The caller is an administrator, the target resolves to [u], and the
    transport accepts every call. *)
Hypothesis caller_is_admin :
  is_admin context chat (id (effective_user update)) = true.
Hypothesis target_is_u :
  get_target_user py_int update context = Returned (Some u).
Hypothesis transport_up : forall e, delivers (bot context) e = true.

Lemma reply_run w body :
  reply update context body w = (w, [reply_text body], Returned tt).
Proof.
  unfold reply. pose proof target_is_u as H. unfold get_target_user in H.
  destruct (message update); [|discriminate].
  apply call_run, transport_up.
Qed.

Lemma lift_run {A} (o : Outcome A) w : lift o w = (w, [], o).
Proof. reflexivity. Qed.

(** Every warn counts and reports first; what follows depends on the count. *)
Lemma warn_prefix_run now w :
  let n := count_of w chat (id u) + 1 in
  let w1 := with_warns w (<[key := n]> (warns (STORE w))) in
  warn mention_html py_int now update context w
  = (let '(w2, t2, r) :=
       (if 3 <=? n then
          let* delta := lift (timedelta 0 0 0 1) in
          let* until := lift (timestamp_after now delta) in
          call (bot context)
               (restrict_chat_member chat (id u) false (Some until)) ;;
          reply update context
                (first_name u +:+ " auto-muted for 1 hour (3 warns)") ;;
          let* s := get_STORE in
          put_STORE (set_warns s (delete key (warns s))) ;;
          save_store
        else ret tt) w1 in
     (w2, [json_dump (STORE w1); reply_text (warned_text mention_html u n)] ++ t2, r)).
Proof.
  intros n w1. unfold warn. fold chat. rewrite caller_is_admin. cbn [negb].
  rewrite target_is_u, (bind_run _ _ _ _ _ _ (lift_run _ _)).
  rewrite (bind_run _ _ _ _ _ _ (add_warn_run _ _ _)). fold key n w1.
  rewrite (bind_run _ _ _ _ _ _ (reply_run _ _)).
  destruct (_ w1) as [[w2 t2] r]. reflexivity.
Qed.

(** A warn that stays under the threshold: the count goes up by one. *)
Lemma warn_run_below now w :
  count_of w chat (id u) + 1 < 3 ->
  let n := count_of w chat (id u) + 1 in
  let w1 := with_warns w (<[key := n]> (warns (STORE w))) in
  warn mention_html py_int now update context w
  = (w1, [json_dump (STORE w1); reply_text (warned_text mention_html u n)], Returned tt).
Proof.
  intros Hlt n w1. rewrite (warn_prefix_run now w). fold n w1.
  destruct (Z.leb_spec 3 n); [lia|]. reflexivity.
Qed.

(** A warn that reaches the threshold: the target is muted for one hour
    and the entry is deleted. *)
Lemma warn_run_escalate now w :
  3 <= count_of w chat (id u) + 1 ->
  now + 3600 <= datetime_max ->
  let n := count_of w chat (id u) + 1 in
  let w1 := with_warns w (<[key := n]> (warns (STORE w))) in
  let w2 := with_warns w (delete key (warns (STORE w))) in
  warn mention_html py_int now update context w
  = (w2,
     [json_dump (STORE w1); reply_text (warned_text mention_html u n);
      restrict_chat_member chat (id u) false (Some (now + 3600));
      reply_text (first_name u +:+ " auto-muted for 1 hour (3 warns)");
      json_dump (STORE w2)],
     Returned tt).
Proof.
  intros Hge Hnow n w1 w2. rewrite (warn_prefix_run now w). fold n w1.
  destruct (Z.leb_spec 3 n); [|lia].
  change (timedelta 0 0 0 1) with (Returned (A:=Z) 3600).
  rewrite (bind_run _ _ _ _ _ _ (lift_run _ _)).
  replace (timestamp_after now 3600) with (Returned (now + 3600)).
  2: { unfold timestamp_after.
       destruct (Z.leb_spec (now + 3600) datetime_max); [reflexivity|lia]. }
  rewrite (bind_run _ _ _ _ _ _ (lift_run _ _)).
  rewrite (bind_run _ _ _ _ _ _ (call_run _ _ _ (transport_up _))).
  rewrite (bind_run _ _ _ _ _ _ (reply_run _ _)).
  run_m. fold key. unfold w2, w1, with_warns. cbn.
  rewrite delete_insert_eq. reflexivity.
Qed.

End Escalation.

Lemma add_warn_thrice_run w chat uid :
  warns (STORE w) !! warn_key chat uid = None ->
  (add_warn_thrice chat uid w).2 = Returned (1, 2, 3).
Proof.
  intros Hnone. unfold add_warn_thrice.
  rewrite (bind_run _ _ _ _ _ _ (add_warn_run _ _ _)).
  rewrite (bind_run _ _ _ _ _ _ (add_warn_run _ _ _)).
  rewrite (bind_run _ _ _ _ _ _ (add_warn_run _ _ _)).
  unfold count_of, with_warns. cbn.
  rewrite !lookup_insert_eq, Hnone. reflexivity.
Qed.

(** C2. From an absent entry, three [add_warn] calls for one pair return 1,
    2 and 3.  In the [/warn] workflow (issued by an administrator, the target
    resolved, the transport accepting the calls) the first two warns only
    report the count; the third, whose count 3 reaches the threshold, mutes
    the target until one hour after the clock reading and deletes the entry,
    so that [get_warn_count] then returns 0. *)
Theorem three_warns_escalate
    (mention_html : User -> string) (py_int : string -> option Z)
    (update : Update) (context : Context) (u : User) (now1 now2 now3 : Z)
    (w : World) :
  is_admin context (effective_chat_id update) (id (effective_user update))
  = true ->
  get_target_user py_int update context = Returned (Some u) ->
  (forall e, delivers (bot context) e = true) ->
  now3 + 3600 < 2 ^ 33 ->
  warns (STORE w) !! warn_key (effective_chat_id update) (id u) = None ->
  (add_warn_thrice (effective_chat_id update) (id u) w).2 = Returned (1, 2, 3)
  /\ exists w1 w2 w3 s3,
      warn mention_html py_int now1 update context w
      = (w1, [json_dump (STORE w1); reply_text (warned_text mention_html u 1)],
         Returned tt)
      /\ count_of w1 (effective_chat_id update) (id u) = 1
      /\ warn mention_html py_int now2 update context w1
         = (w2, [json_dump (STORE w2); reply_text (warned_text mention_html u 2)],
            Returned tt)
      /\ count_of w2 (effective_chat_id update) (id u) = 2
      /\ warn mention_html py_int now3 update context w2
         = (w3,
            [json_dump s3; reply_text (warned_text mention_html u 3);
             restrict_chat_member (effective_chat_id update) (id u) false
                                  (Some (now3 + 3600));
             reply_text (first_name u +:+ " auto-muted for 1 hour (3 warns)");
             json_dump (STORE w3)],
            Returned tt)
      /\ warns (STORE w3) !! warn_key (effective_chat_id update) (id u) = None
      /\ get_warn_count (effective_chat_id update) (id u) w3
         = (w3, [], Returned 0).
Proof.
  intros Hadm Htgt Hup Hnow Hnone.
  split; [apply add_warn_thrice_run, Hnone|].
  set (chat := effective_chat_id update) in *.
  set (key := warn_key chat (id u)) in *.
  assert (H0 : count_of w chat (id u) = 0).
  { unfold count_of. fold chat key. rewrite Hnone. reflexivity. }
  pose proof (warn_run_below mention_html py_int update context u
                Hadm Htgt Hup now1 w) as R1.
  cbv zeta in R1. fold chat in R1. rewrite H0 in R1. specialize (R1 ltac:(lia)).
  fold key in R1. set (w1 := with_warns w _) in R1.
  assert (H1 : count_of w1 chat (id u) = 1).
  { unfold count_of, w1. cbn. fold key. rewrite lookup_insert_eq. reflexivity. }
  pose proof (warn_run_below mention_html py_int update context u
                Hadm Htgt Hup now2 w1) as R2.
  cbv zeta in R2. fold chat in R2. rewrite H1 in R2. specialize (R2 ltac:(lia)).
  fold key in R2. set (w2 := with_warns w1 _) in R2.
  assert (H2 : count_of w2 chat (id u) = 2).
  { unfold count_of, w2. cbn. fold key. rewrite lookup_insert_eq. reflexivity. }
  pose proof (warn_run_escalate mention_html py_int update context u
                Hadm Htgt Hup now3 w2) as R3.
  cbv zeta in R3. fold chat in R3. rewrite H2 in R3.
  specialize (R3 ltac:(lia) ltac:(unfold datetime_max; lia)). fold key in R3.
  set (w3 := with_warns w2 (delete _ _)) in R3.
  exists w1, w2, w3. eexists.
  split; [exact R1|]. split; [exact H1|]. split; [exact R2|].
  split; [exact H2|]. split; [exact R3|].
  assert (Hgone : warns (STORE w3) !! key = None).
  { unfold w3. cbn. apply lookup_delete_eq. }
  split; [exact Hgone|].
  rewrite get_warn_count_run. unfold count_of. fold chat key.
  rewrite Hgone. reflexivity.
Qed.

(** ** Welcome configuration *)

Lemma bind_world {A B} (m : M A) (k : A -> M B) w w1 t1 a :
  m w = (w1, t1, Returned a) -> (bind m k w).1.1 = (k a w1).1.1.
Proof.
  intros H. rewrite (bind_run _ _ _ _ _ _ H).
  destruct (k a w1) as [[w2 t2] r]. reflexivity.
Qed.

Lemma reply_world update context body w :
  (reply update context body w).1.1 = w.
Proof.
  unfold reply. destruct (message update); [|reflexivity].
  unfold call. run_m. destruct (delivers _ _); reflexivity.
Qed.

Lemma save_store_run w : save_store w = (w, [json_dump (STORE w)], Returned tt).
Proof. reflexivity. Qed.

Lemma update_cfg_run chat f w :
  update_cfg (Py.str chat) f w
  = (with_welcomes w (<[Py.str chat := f (cfg_of w chat)]> (welcomes (STORE w))),
     [], Returned tt).
Proof. reflexivity. Qed.

Lemma setchannellink_world update context w arg rest :
  is_admin context (effective_chat_id update) (id (effective_user update)) = true ->
  args context = arg :: rest ->
  cfg_of (setchannellink update context w).1.1 (effective_chat_id update)
  = let c := cfg_of w (effective_chat_id update) in
    mkCfg (cfg_text c) (cfg_media c) (cfg_type c) (Some (normalize_link arg)).
Proof.
  intros Hadm Hargs. unfold setchannellink. rewrite Hadm, Hargs. cbn [negb].
  rewrite (bind_world _ _ _ _ _ _ (update_cfg_run _ _ _)).
  rewrite (bind_world _ _ _ _ _ _ (save_store_run _)).
  rewrite reply_world. unfold cfg_of at 1. cbn.
  rewrite lookup_insert_eq. reflexivity.
Qed.

(** C4, as the code has it.  The link given to [/setchannellink] is stored
    unchanged when it begins with ["http"] or with ["t.me"]; any other link
    is stored with ["https://"] in front.  The other fields of the chat's
    welcome configuration are kept. *)
Theorem setchannellink_stores_link update context w arg rest :
  is_admin context (effective_chat_id update) (id (effective_user update)) = true ->
  args context = arg :: rest ->
  exists stored,
    cfg_of (setchannellink update context w).1.1 (effective_chat_id update)
    = mkCfg (cfg_text (cfg_of w (effective_chat_id update)))
            (cfg_media (cfg_of w (effective_chat_id update)))
            (cfg_type (cfg_of w (effective_chat_id update)))
            (Some stored)
    /\ ((exists r, arg = "http" +:+ r) \/ (exists r, arg = "t.me" +:+ r) ->
        stored = arg)
    /\ (~ (exists r, arg = "http" +:+ r) -> ~ (exists r, arg = "t.me" +:+ r) ->
        stored = "https://" +:+ arg).
Proof.
  intros Hadm Hargs. exists (normalize_link arg).
  split; [apply (setchannellink_world _ _ _ _ _ Hadm Hargs)|].
  unfold normalize_link.
  destruct (Py.startswith arg "http") eqn:Eh;
    destruct (Py.startswith arg "t.me") eqn:Et; cbn [orb negb];
    split; try reflexivity; intros H1; try intros H2.
  - exfalso. apply H1. apply PyFacts.startswith_spec. exact Eh.
  - exfalso. apply H1. apply PyFacts.startswith_spec. exact Eh.
  - exfalso. apply H2. apply PyFacts.startswith_spec. exact Et.
  - exfalso. destruct H1 as [H1|H1]; apply PyFacts.startswith_spec in H1; congruence.
Qed.

(** ** Banned-word filter *)

Lemma has_banned_word_run w chat body :
  has_banned_word chat body w
  = (w, [],
     Returned (existsb (fun x => Py.contains (Py.lower x) (Py.lower body))
                       (words_of w chat))).
Proof. reflexivity. Qed.

Lemma addword_world update context w :
  is_admin context (effective_chat_id update) (id (effective_user update)) = true ->
  args context <> [] ->
  let word := Py.lower (Py.join " " (args context)) in
  let old := words_of w (effective_chat_id update) in
  words_of (addword update context w).1.1 (effective_chat_id update)
  = if bool_decide (word ∈ old) then old else old ++ [word].
Proof.
  intros Hadm Hargs. cbv zeta. unfold addword. rewrite Hadm. cbn [negb].
  destruct (args context) as [|a l] eqn:Ea; [congruence|]. rewrite <- Ea.
  clear Ea Hargs a l. generalize (Py.lower (Py.join " " (args context))).
  intros word. unfold words_of. cbv zeta.
  rewrite (bind_world _ _ _ w [] (STORE w)) by reflexivity.
  rewrite (bind_world _ _ _ _ [] tt) by reflexivity.
  remember (default [] (banned_words (STORE w)
                          !! Py.str (effective_chat_id update))) as old.
  destruct (bool_decide (word ∈ old)) eqn:Hin.
  - rewrite (bind_world _ _ _ _ [] tt) by reflexivity.
    rewrite reply_world. unfold words_of. cbn.
    rewrite lookup_insert_eq. reflexivity.
  - erewrite bind_world by reflexivity.
    rewrite reply_world. unfold words_of. cbn.
    rewrite lookup_insert_eq. reflexivity.
Qed.


(** ** Welcome rendering *)

(** *** Templates of text and placeholders *)

Lemma not_brace_eqb c : c <> "{"%char -> Ascii.eqb "{" c = false.
Proof. intros H. apply Ascii.eqb_neq. congruence. Qed.

Lemma startswith_plain c s k :
  c <> "{"%char -> Py.startswith (String c s) (placeholder_name k) = false.
Proof.
  intros H.
  destruct k; cbn [placeholder_name Py.startswith];
    rewrite (not_brace_eqb c H); reflexivity.
Qed.

(** One [replace] of a placeholder passes over text without an opening
    brace, replaces the placeholder where it stands, and passes over the
    other placeholders. *)
Lemma replace_plain_text k new text rest :
  no_brace text ->
  Py.replace (text +:+ rest) (placeholder_name k) new
  = text +:+ Py.replace rest (placeholder_name k) new.
Proof.
  induction text as [|c text IH]; intros H; [reflexivity|].
  apply Forall_cons in H as [Hc H]. cbn [append].
  rewrite PyFacts.replace_keep by (apply startswith_plain, Hc).
  rewrite IH by exact H. reflexivity.
Qed.

Lemma replace_same_hole k new rest :
  Py.replace (placeholder_name k +:+ rest) (placeholder_name k) new
  = new +:+ Py.replace rest (placeholder_name k) new.
Proof. destruct k; apply PyFacts.replace_head. Qed.

Lemma replace_other_hole k k' new rest :
  same_placeholder k k' = false ->
  Py.replace (placeholder_name k' +:+ rest) (placeholder_name k) new
  = placeholder_name k' +:+ Py.replace rest (placeholder_name k) new.
Proof.
  destruct k, k'; try discriminate; intros _; cbn [placeholder_name append];
    repeat (rewrite PyFacts.replace_keep by reflexivity); reflexivity.
Qed.

Lemma replace_pass k v segments :
  plain_text segments ->
  Py.replace (flat segments) (placeholder_name k) v = flat (fill k v segments).
Proof.
  induction segments as [|[text|k'] rest IH]; intros H.
  - destruct k; reflexivity.
  - apply Forall_cons in H as [Ht H]. cbn [flat fill fmap list_fmap].
    rewrite replace_plain_text by exact Ht. f_equal. apply IH, H.
  - apply Forall_cons in H as [_ H]. cbn [flat fill fmap list_fmap].
    destruct (same_placeholder k k') eqn:E.
    + assert (k = k') as <- by (destruct k, k'; cbn in E; congruence).
      rewrite replace_same_hole. cbn [flat]. f_equal. apply IH, H.
    + rewrite replace_other_hole by exact E. cbn [flat]. f_equal. apply IH, H.
Qed.

Lemma fill_plain k v segments :
  plain_text segments -> no_brace v -> plain_text (fill k v segments).
Proof.
  intros H Hv. unfold plain_text, fill. apply Forall_fmap.
  eapply Forall_impl; [exact H|]. intros [text|k'] Hs; cbn; [exact Hs|].
  destruct (same_placeholder k k'); [exact Hv | exact I].
Qed.

Lemma fill_four (value : Placeholder -> string) segments :
  fill p_username (value p_username)
    (fill p_id (value p_id)
       (fill p_mention (value p_mention)
          (fill p_first (value p_first) segments)))
  = fill_all value segments.
Proof.
  unfold fill, fill_all. rewrite <- !list_fmap_compose.
  apply list_fmap_ext. intros i [text|[]] _; reflexivity.
Qed.

(** [str(n)] is made of digits and a sign. *)
Lemma pretty_N_char_no_brace x : pretty_N_char x <> "{"%char.
Proof. unfold pretty_N_char. repeat case_match; discriminate. Qed.

Lemma pretty_N_go_no_brace x s : no_brace s -> no_brace (pretty_N_go x s).
Proof.
  revert s. induction (N.lt_wf_0 x) as [x _ IH]; intros s Hs.
  destruct (decide (x = 0%N)) as [->|Hx]; [exact Hs|].
  rewrite pretty_N_go_step by lia.
  apply IH; [apply N.div_lt; lia|].
  constructor; [apply pretty_N_char_no_brace | exact Hs].
Qed.

Lemma str_no_brace (n : Z) : no_brace (Py.str n).
Proof.
  assert (HN : forall x : N, no_brace (pretty x)).
  { intros x. unfold pretty, pretty_N. case_decide.
    - repeat constructor. discriminate.
    - apply pretty_N_go_no_brace. constructor. }
  unfold Py.str, pretty, pretty_Z. destruct n as [|q|q].
  - repeat constructor. discriminate.
  - apply (HN (Npos q)).
  - constructor; [discriminate | apply (HN (Npos q))].
Qed.

(** The reading of the specification, on a template in parts. *)
Lemma substitute_go_skip value a s :
  substitute_go value (a +:+ s) (String.length a) = substitute_go value s 0.
Proof. induction a as [|c a IH]; cbn; [reflexivity | exact IH]. Qed.

Lemma substitute_plain_text value text rest :
  no_brace text ->
  substitute_go value (text +:+ rest) 0 = text +:+ substitute_go value rest 0.
Proof.
  induction text as [|c text IH]; intros H; [reflexivity|].
  apply Forall_cons in H as [Hc H]. cbn [append substitute_go].
  unfold placeholder_at. cbn [List.find].
  rewrite !(startswith_plain c _ _ Hc). rewrite IH by exact H. reflexivity.
Qed.

Lemma substitute_hole value k rest :
  substitute_go value (placeholder_name k +:+ rest) 0
  = value k +:+ substitute_go value rest 0.
Proof. destruct k; reflexivity. Qed.

Lemma substitute_filled value segments :
  plain_text segments ->
  substitute_go value (flat segments) 0 = flat (fill_all value segments).
Proof.
  induction segments as [|[text|k] rest IH]; intros H; [reflexivity| |].
  - apply Forall_cons in H as [Ht H]. cbn [flat fill_all fmap list_fmap].
    rewrite substitute_plain_text by exact Ht. f_equal. apply IH, H.
  - apply Forall_cons in H as [_ H]. cbn [flat fill_all fmap list_fmap].
    rewrite substitute_hole. f_equal. apply IH, H.
Qed.

Section Rendering.

Context (mention_html : User -> string).

(** The four chained replacements and the reading of the specification give
    the same text for a template of placeholders and text without opening
    braces of its own, and a member whose first name and mention have no
    opening brace either. *)
Lemma welcome_text_substituted segments member :
  plain_text segments ->
  first_name member <> "" -> username member <> Some "" ->
  no_brace (first_name member) -> no_brace (mention_html member) ->
  welcome_text mention_html (flat segments) member
  = substituted mention_html (flat segments) member.
Proof.
  intros Hp Hf Hu Hbf Hbm. unfold substituted.
  rewrite substitute_filled by exact Hp.
  rewrite <- fill_four. cbn [value_of].
  unfold welcome_text.
  replace (if Py.truthy (first_name member) then first_name member else "User")
    with (first_name member)
    by (destruct (first_name member); [congruence | reflexivity]).
  replace (match get_truthy (username member) with
           | Some n => "@" +:+ n
           | None => first_name member
           end)
    with (match username member with
          | Some n => "@" +:+ n
          | None => first_name member
          end)
    by (destruct (username member) as [[|c n]|]; [congruence | |]; reflexivity).
  rewrite (replace_pass p_first) by exact Hp.
  rewrite (replace_pass p_mention) by (apply fill_plain; assumption).
  rewrite (replace_pass p_id) by (repeat apply fill_plain; assumption).
  rewrite (replace_pass p_username)
    by (repeat apply fill_plain; try assumption; apply str_no_brace).
  reflexivity.
Qed.

Lemma send_one_world context chat cfg body w :
  exists t r, send_one context chat cfg body w = (w, t, r).
Proof.
  unfold send_one.
  destruct (get_truthy (cfg_media cfg)); [destruct (send_func _)|];
    unfold call; run_m; try destruct (delivers _ _); eauto.
Qed.

Lemma try_log_send_one_run context chat cfg body w :
  exists t, try_log (send_one context chat cfg body) "Welcome failed" w
            = (w, t, Returned tt).
Proof.
  destruct (send_one_world context chat cfg body w) as (t & r & H).
  unfold try_log. rewrite H. destruct r; eauto.
Qed.

Lemma for_each_welcome_run context chat cfg template members w :
  exists t,
    for_each members (fun member =>
      try_log (send_one context chat cfg
                        (welcome_text mention_html template member))
              "Welcome failed") w
    = (w, t, Returned tt).
Proof.
  induction members as [|m members IH]; cbn [for_each]; [eexists; reflexivity|].
  destruct (try_log_send_one_run context chat cfg
              (welcome_text mention_html template m) w) as [t1 H1].
  destruct IH as [t2 H2].
  rewrite (bind_run _ _ _ _ _ _ H1), H2. eauto.
Qed.

(** [_send_welcome] leaves the world as it found it and does not raise. *)
Lemma send_welcome_pure update context members w :
  exists t, _send_welcome mention_html update context members w
            = (w, t, Returned tt).
Proof.
  unfold _send_welcome.
  rewrite (bind_run _ _ _ w [] (STORE w)) by reflexivity.
  destruct (get_truthy _) as [template|]; [|eexists; reflexivity].
  edestruct for_each_welcome_run as [t H]. rewrite H. eauto.
Qed.

Lemma send_welcome_one update context member w template :
  get_truthy (cfg_text (cfg_of w (effective_chat_id update))) = Some template ->
  _send_welcome mention_html update context [member] w
  = (let '(w1, t1, _) :=
       try_log (send_one context (effective_chat_id update)
                  (cfg_of w (effective_chat_id update))
                  (welcome_text mention_html template member))
               "Welcome failed" w in
     (w1, t1 ++ [], Returned tt)).
Proof.
  intros Ht. unfold _send_welcome.
  rewrite (bind_run _ _ _ w [] (STORE w)) by reflexivity.
  fold (cfg_of w (effective_chat_id update)). rewrite Ht. cbn [for_each app].
  edestruct try_log_send_one_run as [t H].
  rewrite (bind_run _ _ _ _ _ _ H), H. reflexivity.
Qed.

End Rendering.

(** C7. Without a template text for the chat, [_send_welcome] produces
    nothing, whatever media or link is configured, and in every case the
    world is left as it was and nothing is raised.  With a template, the
    text sent is the template with its placeholders substituted, as the
    specification reads it, when the template is made of placeholders and of
    text without an opening brace and the member's first name and mention
    hold no opening brace.  It is not so in general: the code substitutes by
    four [replace] calls in a row, each over the result of the one before, so
    that a value put in by an earlier call is read as template by the later
    ones.  For the template ["Hello {first}"] and a member whose first name
    is ["{id}"], with id 42, the specification gives ["Hello {id}"] and the
    code sends ["Hello 42"]. *)
Theorem send_welcome_reads_values_as_template :
  (forall mention_html update context w,
      get_truthy (cfg_text (cfg_of w (effective_chat_id update))) = None ->
      forall members,
        _send_welcome mention_html update context members w
        = (w, [], Returned tt))
  /\ (forall mention_html update context w segments member,
        get_truthy (cfg_text (cfg_of w (effective_chat_id update)))
        = Some (flat segments) ->
        plain_text segments ->
        first_name member <> "" -> username member <> Some "" ->
        no_brace (first_name member) -> no_brace (mention_html member) ->
        (get_truthy (cfg_media (cfg_of w (effective_chat_id update))) = None ->
         _send_welcome mention_html update context [member] w
         = (w,
            one_call context
              (send_message (effective_chat_id update)
                 (substituted mention_html (flat segments) member)
                 (get_truthy (cfg_link (cfg_of w (effective_chat_id update))))),
            Returned tt))
        /\ (forall file_id send,
              get_truthy (cfg_media (cfg_of w (effective_chat_id update)))
              = Some file_id ->
              send_func (default "photo"
                           (cfg_type (cfg_of w (effective_chat_id update))))
              = Some send ->
              _send_welcome mention_html update context [member] w
              = (w,
                 one_call context
                   (send (effective_chat_id update) file_id
                      (substituted mention_html (flat segments) member)
                      (get_truthy
                         (cfg_link (cfg_of w (effective_chat_id update))))),
                 Returned tt)))
  /\ (forall mention_html update context w members,
        exists t, _send_welcome mention_html update context members w
                  = (w, t, Returned tt))
  /\ substituted example_mention "{first} {mention} {id} {username}" ann
     = "Ann <a>Ann</a> 42 @ann42"
  /\ cfg_text (cfg_of hello_world 5) = Some "Hello {first}"
  /\ substituted example_mention "Hello {first}" braces = "Hello {id}"
  /\ _send_welcome example_mention (member_joined 5 braces)
       (mkContext example_bot []) [braces] hello_world
     = (hello_world, [send_message 5 "Hello 42" None], Returned tt).
Proof.
  split; [|split; [|split; [|repeat split; vm_compute; reflexivity]]].
  - intros mention_html update context w Hnone members. unfold _send_welcome.
    rewrite (bind_run _ _ _ w [] (STORE w)) by reflexivity.
    fold (cfg_of w (effective_chat_id update)). rewrite Hnone. reflexivity.
  - intros mention_html update context w segments member Ht Hp Hf Hu Hbf Hbm.
    pose proof (send_welcome_one mention_html update context member w _ Ht)
      as Hone.
    rewrite (welcome_text_substituted _ _ _ Hp Hf Hu Hbf Hbm) in Hone.
    split.
    + intros Hm. rewrite Hone. unfold try_log, send_one. rewrite Hm.
      unfold call, one_call. run_m. destruct (delivers _ _); reflexivity.
    + intros file_id send Hm Hs. rewrite Hone. unfold try_log, send_one.
      rewrite Hm, Hs.
      unfold call, one_call. run_m. destruct (delivers _ _); reflexivity.
  - intros mention_html update context w members. apply send_welcome_pure.
Qed.

(** ** Scenarios *)

(** C4, as the claim words it, fails: the link ["t.me/x"] has no scheme, and
    it is stored, and later put on the button, without ["https://"]. *)
Lemma setchannellink_keeps_tme_link :
  Py.contains "://" "t.me/x" = false
  /\ cfg_link (cfg_of welcome_bob_world 5) = Some "t.me/x"
  /\ cfg_link (cfg_of welcome_bob_world 5) <> Some "https://t.me/x"
  /\ (welcome_new_member example_mention (member_joined 5 bob)
        (mkContext example_bot []) welcome_bob_world).1.2
     = [send_message 5 "Welcome Bob!" (Some "t.me/x")].
Proof.
  assert (H : cfg_link (cfg_of welcome_bob_world 5) = Some "t.me/x")
    by (vm_compute; reflexivity).
  split; [reflexivity|]. split; [exact H|].
  split; [rewrite H; discriminate|]. vm_compute. reflexivity.
Qed.

(** A link that starts with neither prefix does get the scheme. *)
Example setchannellink_adds_scheme :
  cfg_link (cfg_of (setchannellink (command 5 admin_user None)
                      (mkContext example_bot ["example.org/x"]) fresh).1.1 5)
  = Some "https://example.org/x".
Proof. vm_compute. reflexivity. Qed.

(** The member of the specification's example: first name Ann, id 42,
    username ann42, with a template that uses all four placeholders. *)
Example welcome_ann :
  let w := (setwelcometext (command 5 admin_user None)
              (mkContext example_bot
                 ["{first}"; "{mention}"; "{id}"; "{username}"]) fresh).1.1 in
  _send_welcome example_mention (member_joined 5 ann)
                (mkContext example_bot []) [ann] w
  = (w, [send_message 5 "Ann <a>Ann</a> 42 @ann42" None], Returned tt).
Proof. vm_compute. reflexivity. Qed.

(** Media and link without a text: nothing is sent. *)
Example welcome_needs_text :
  let replied := mkReplied admin_user ["small"; "large"] None None in
  let w1 := (setmedia (command 5 admin_user (Some replied))
               (mkContext example_bot []) fresh).1.1 in
  let w2 := (setchannellink (command 5 admin_user None)
               (mkContext example_bot ["https://t.me/x"]) w1).1.1 in
  cfg_of w2 5 = mkCfg None (Some "large") (Some "photo") (Some "https://t.me/x")
  /\ _send_welcome example_mention (member_joined 5 ann)
                   (mkContext example_bot []) [ann] w2
     = (w2, [], Returned tt).
Proof. split; vm_compute; reflexivity. Qed.

(** The substitutions are made one after the other: a first name that is
    itself a placeholder is substituted by the later steps. *)
Example welcome_substitutes_in_sequence :
  welcome_text example_mention "{first}" (mkUser 42 "{id}" None false) = "42".
Proof. reflexivity. Qed.

(** ** Blacklisted users who join *)

(** The chat-member path does check the blacklist: a blacklisted user gets
    no welcome from [welcome_new_member]. *)
Lemma welcome_new_member_skips_blacklisted
    (mention_html : User -> string) update context w cmu :
  chat_member update = Some cmu ->
  id (cmu_from_user cmu) ∈ GLOBAL_BLACKLIST w ->
  welcome_new_member mention_html update context w = (w, [], Returned tt).
Proof.
  intros Hc Hin. unfold welcome_new_member. rewrite Hc.
  destruct (_ || _); [reflexivity|].
  unfold is_globally_blacklisted.
  rewrite (bind_run _ _ _ w [] true).
  - rewrite orb_true_r. reflexivity.
  - run_m. rewrite bool_decide_eq_true_2 by exact Hin. reflexivity.
Qed.

(** C5 fails on the service-message path: Eve is globally blacklisted, her
    joining is announced by a [new_chat_members] message, and
    [legacy_welcome] sends her the welcome that [welcome_new_member]
    withholds. *)
Theorem legacy_welcome_greets_blacklisted :
  is_globally_blacklisted 7 eve_blacklisted
  = (eve_blacklisted, [], Returned true)
  /\ legacy_welcome example_mention (members_joined 5 eve [eve])
                    (mkContext example_bot []) eve_blacklisted
     = (eve_blacklisted, [send_message 5 "Welcome Eve!" None], Returned tt)
  /\ welcome_new_member example_mention (member_joined 5 eve)
                        (mkContext example_bot []) eve_blacklisted
     = (eve_blacklisted, [], Returned tt).
Proof. repeat split; vm_compute; reflexivity. Qed.

(** On the chat-member path the user tested and greeted is the one who
    performed the change: when an administrator adds Eve, the blacklist test
    is made on the administrator, and a welcome goes out. *)
Example welcome_new_member_greets_the_adder :
  welcome_new_member example_mention (member_added 5 admin_user eve)
                     (mkContext example_bot []) eve_blacklisted
  = (eve_blacklisted, [send_message 5 "Welcome Root!" None], Returned tt).
Proof. vm_compute. reflexivity. Qed.

(** ** Loading the store *)

Lemma dict_get_app d1 d2 k :
  dict_get (d1 ++ d2) k
  = match dict_get d1 k with Some v => Some v | None => dict_get d2 k end.
Proof.
  induction d1 as [|[k' v'] d1 IH]; cbn; [reflexivity|].
  destruct (String.eqb k k'); [reflexivity | exact IH].
Qed.

Lemma dict_get_setdefault d k v k' :
  dict_get (dict_setdefault d k v) k'
  = match dict_get d k' with
    | Some x => Some x
    | None => if String.eqb k' k then Some v else None
    end.
Proof.
  unfold dict_setdefault. destruct (dict_get d k) as [x|] eqn:E.
  - destruct (dict_get d k') as [y|] eqn:E'; [reflexivity|].
    destruct (String.eqb_spec k' k) as [->|]; [congruence | reflexivity].
  - rewrite dict_get_app. cbn. destruct (dict_get d k'); reflexivity.
Qed.

Lemma dict_get_merge defaults data k :
  dict_get (merge_defaults data defaults) k
  = match dict_get data k with
    | Some x => Some x
    | None => dict_get defaults k
    end.
Proof.
  unfold merge_defaults. revert data.
  induction defaults as [|[k0 v0] defaults IH]; intros data; cbn.
  - destruct (dict_get data k); reflexivity.
  - rewrite IH, dict_get_setdefault.
    destruct (dict_get data k); [reflexivity|].
    destruct (String.eqb k k0); [reflexivity|].
    destruct (dict_get defaults k); reflexivity.
Qed.


(** ** Target resolver *)

(** C9. On an update that carries a message the resolver follows the
    precedence of the specification: the author of the replied message when
    the message is a reply, whatever the arguments; otherwise, with a first
    argument, the user the transport finds for it as a handle (tried for an
    argument that starts with ["@"]), or else the user it finds for it as a
    numeric id; a failed lookup or a failed [int] falls through without
    raising, and [None] is returned exactly when the message is no reply and
    there is no argument or both attempts failed.  On an update without
    [message] it raises: [get_target_user] reads
    [update.message.reply_to_message] without the test of [update.message]
    that [legacy_welcome] and [message_filter] make, and a command that was
    edited reaches the command handlers with [update.message] left [None].
    An edited ["/warn @bob"] resolves nobody and ends the handler. *)
Theorem get_target_user_raises_on_edited_command :
  (forall py_int update context,
      message update = None ->
      get_target_user py_int update context = Raised)
  /\ get_target_user example_int (edited_command 5 admin_user)
                     (mkContext directory_bot ["@bob"]) = Raised
  /\ warn example_mention example_int 1700000000 (edited_command 5 admin_user)
          (mkContext example_bot ["42"]) fresh
     = (fresh, [], Raised)
  /\ (forall py_int update context msg,
        message update = Some msg ->
        (forall replied,
           reply_to_message msg = Some replied ->
           get_target_user py_int update context
           = Returned (Some (from_user replied)))
        /\ (forall arg rest member,
              reply_to_message msg = None -> args context = arg :: rest ->
              Py.startswith arg "@" = true ->
              get_chat_member (bot context) (effective_chat_id update)
                              (Handle arg) = Some member ->
              get_target_user py_int update context
              = Returned (Some (user member)))
        /\ (forall arg rest uid member,
              reply_to_message msg = None -> args context = arg :: rest ->
              Py.startswith arg "@" = false
              \/ get_chat_member (bot context) (effective_chat_id update)
                                 (Handle arg) = None ->
              py_int arg = Some uid ->
              get_chat_member (bot context) (effective_chat_id update)
                              (Uid uid) = Some member ->
              get_target_user py_int update context
              = Returned (Some (user member)))
        /\ (get_target_user py_int update context = Returned None <->
            reply_to_message msg = None
            /\ (args context = []
                \/ exists arg rest,
                     args context = arg :: rest
                     /\ (Py.startswith arg "@" = false
                         \/ get_chat_member (bot context)
                              (effective_chat_id update) (Handle arg) = None)
                     /\ (py_int arg = None
                         \/ exists uid,
                              py_int arg = Some uid
                              /\ get_chat_member (bot context)
                                   (effective_chat_id update) (Uid uid)
                                 = None)))
        /\ exists r, get_target_user py_int update context = Returned r)
  /\ get_target_user example_int (command 5 admin_user None)
                     (mkContext directory_bot ["@bob"]) = Returned (Some bob)
  /\ get_target_user example_int (command 5 admin_user None)
                     (mkContext directory_bot ["42"]) = Returned (Some ann)
  /\ get_target_user example_int (command 5 admin_user None)
                     (mkContext directory_bot ["@ghost"]) = Returned None
  /\ get_target_user example_int (command 5 admin_user None)
                     (mkContext directory_bot ["7"]) = Returned None
  /\ get_target_user example_int (command 5 admin_user None)
                     (mkContext directory_bot ["someone"]) = Returned None
  /\ get_target_user example_int (command 5 admin_user None)
                     (mkContext directory_bot []) = Returned None
  /\ get_target_user example_int warn_eve (mkContext directory_bot ["@bob"])
     = Returned (Some eve).
Proof.
  split; [|split; [|split; [|split; [|repeat split; reflexivity]]]].
  - intros py_int update context H. unfold get_target_user. rewrite H.
    reflexivity.
  - reflexivity.
  - vm_compute. reflexivity.
  - intros py_int update context msg Hmsg.
    unfold get_target_user, lookup_user. rewrite Hmsg.
    destruct (reply_to_message msg) as [replied|].
    { split; [intros r [= <-]; reflexivity|].
      split; [discriminate|]. split; [discriminate|].
      split; [|eauto]. split; [discriminate | intros [[=] _]]. }
    split; [discriminate|].
    destruct (args context) as [|arg rest].
    { split; [discriminate|]. split; [discriminate|].
      split; [|eauto]. split; [auto | reflexivity]. }
    split; [|split; [|split]].
    + intros a r member _ [= <- <-] Hat Hh. rewrite Hat, Hh. reflexivity.
    + intros a r uid member _ [= <- <-] Hno Hint Hid. rewrite Hint, Hid.
      destruct Hno as [Hat | Hh]; [rewrite Hat; reflexivity|].
      rewrite Hh. destruct (Py.startswith arg "@"); reflexivity.
    + split.
      * intros H. split; [reflexivity|]. right. exists arg, rest.
        split; [reflexivity|].
        assert (Hid : match py_int arg with
                      | Some uid =>
                          user <$> get_chat_member (bot context)
                                     (effective_chat_id update) (Uid uid)
                      | None => None
                      end = None
                      -> py_int arg = None
                         \/ exists uid,
                              py_int arg = Some uid
                              /\ get_chat_member (bot context)
                                   (effective_chat_id update) (Uid uid) = None).
        { destruct (py_int arg) as [uid|]; [|auto]. intros Hn. right.
          exists uid. split; [reflexivity|].
          destruct (get_chat_member _ _ (Uid uid)); [discriminate | reflexivity]. }
        destruct (Py.startswith arg "@").
        -- destruct (get_chat_member _ _ (Handle arg)) as [m|] eqn:Eh;
             [discriminate|].
           injection H as H. split; [auto | apply Hid, H].
        -- injection H as H. split; [auto | apply Hid, H].
      * intros [_ [[=] | (a & r & [= <- <-] & Hno & Hid)]].
        assert (Hnone : match py_int arg with
                        | Some uid =>
                            user <$> get_chat_member (bot context)
                                       (effective_chat_id update) (Uid uid)
                        | None => None
                        end = None).
        { destruct Hid as [-> | (uid & -> & ->)]; reflexivity. }
        rewrite Hnone.
        destruct Hno as [-> | ->]; [reflexivity|].
        destruct (Py.startswith arg "@"); reflexivity.
    + destruct (Py.startswith arg "@");
        [destruct (get_chat_member _ _ (Handle arg))|]; eauto.
Qed.

(** ** Mute durations *)

Lemma unit_group_cases rest :
  unit_group rest = "" \/ unit_group rest = "s" \/ unit_group rest = "m"
  \/ unit_group rest = "h" \/ unit_group rest = "d".
Proof.
  unfold unit_group. destruct rest as [|c rest]; [auto|].
  destruct (Ascii.eqb_spec c "s") as [->|]; [auto|].
  destruct (Ascii.eqb_spec c "m") as [->|]; [auto 6|].
  destruct (Ascii.eqb_spec c "h") as [->|]; [auto 6|].
  destruct (Ascii.eqb_spec c "d") as [->|]; cbn; auto 6.
Qed.

Lemma re_match_duration_groups s g1 g2 :
  re_match_duration s = Some (g1, g2) ->
  g2 = "" \/ g2 = "s" \/ g2 = "m" \/ g2 = "h" \/ g2 = "d".
Proof.
  unfold re_match_duration. destruct (span_digits s) as [ds rest].
  destruct ds; [discriminate|]. intros [= _ <-]. apply unit_group_cases.
Qed.

Lemma digit_value_range c : is_digit c = true -> 0 <= digit_value c <= 9.
Proof.
  unfold is_digit, digit_value. intros H.
  apply andb_true_iff in H as [H1 H2].
  apply N.leb_le in H1, H2. lia.
Qed.

Lemma span_digits_digits s :
  Forall (fun c => is_digit c = true) (String.list_ascii_of_string (span_digits s).1).
Proof.
  induction s as [|c s IH]; cbn; [constructor|].
  destruct (is_digit c) eqn:E; [|constructor].
  destruct (span_digits s) as [ds rest]. cbn in *. constructor; assumption.
Qed.

Lemma int_of_digits_nonneg ds acc :
  Forall (fun c => is_digit c = true) (String.list_ascii_of_string ds) ->
  0 <= acc -> 0 <= int_of_digits acc ds.
Proof.
  revert acc. induction ds as [|c ds IH]; intros acc Hd Hacc; cbn; [lia|].
  inversion Hd as [|? ? Hc Hrest]; subst.
  apply IH; [exact Hrest|]. pose proof (digit_value_range c Hc). lia.
Qed.

Lemma re_match_duration_num s g1 g2 :
  re_match_duration s = Some (g1, g2) -> 0 <= int_of_digits 0 g1.
Proof.
  unfold re_match_duration. pose proof (span_digits_digits s) as Hd.
  destruct (span_digits s) as [ds rest]. cbn in Hd.
  destruct ds; [discriminate|]. intros [= <- _].
  apply int_of_digits_nonneg; [exact Hd | lia].
Qed.

Lemma timedelta_in_range d sec m h :
  let total := d * 86400 + sec + m * 60 + h * 3600 in
  0 <= total < 1000000000 * 86400 ->
  timedelta d sec m h = Returned total.
Proof.
  intros total H. unfold timedelta. fold total.
  assert (0 <= total / 86400 <= 999999999) as [H1 H2].
  { split; [apply Z.div_pos; lia|].
    apply Z.lt_succ_r, Z.div_lt_upper_bound; lia. }
  destruct (Z.leb_spec (-999999999) (total / 86400)); [|lia].
  destruct (Z.leb_spec (total / 86400) 999999999); [|lia].
  reflexivity.
Qed.

Lemma timedelta_days_overflow d :
  999999999 < d -> timedelta d 0 0 0 = Raised.
Proof.
  intros H. unfold timedelta.
  replace (d * 86400 + 0 + 0 * 60 + 0 * 3600) with (d * 86400) by lia.
  rewrite Z.div_mul by lia.
  destruct (Z.leb_spec d 999999999); [lia|]. rewrite andb_false_r. reflexivity.
Qed.

(** The pattern fails exactly on a string that does not begin with a digit. *)
Lemma re_match_duration_none s :
  re_match_duration s = None <->
  match s with String c _ => is_digit c = false | EmptyString => True end.
Proof.
  unfold re_match_duration. destruct s as [|c s]; cbn; [tauto|].
  destruct (is_digit c); [|tauto].
  destruct (span_digits s). split; discriminate.
Qed.

(** Without a leading digit the duration is one hour. *)
Lemma parse_duration_default s :
  re_match_duration (Py.lower s) = None -> parse_duration s = Returned 3600.
Proof. intros H. unfold parse_duration. rewrite H. reflexivity. Qed.

(** With a leading number up to 999999999 the number counts seconds,
    minutes, hours or days as the suffix says, and hours without a suffix. *)
Lemma parse_duration_units s g1 g2 :
  re_match_duration (Py.lower s) = Some (g1, g2) ->
  int_of_digits 0 g1 <= 999999999 ->
  parse_duration s = Returned (int_of_digits 0 g1 * unit_seconds g2).
Proof.
  intros Hm Hle. unfold parse_duration. rewrite Hm.
  pose proof (re_match_duration_num _ _ _ Hm) as Hpos.
  set (num := int_of_digits 0 g1) in *.
  rewrite !timedelta_in_range by lia. cbn [and_then].
  destruct (re_match_duration_groups _ _ _ Hm) as [-> | [-> | [-> | [-> | ->]]]];
    cbn; f_equal; lia.
Qed.

(** With a larger number it raises, whatever the suffix. *)
Lemma parse_duration_overflow s g1 g2 :
  re_match_duration (Py.lower s) = Some (g1, g2) ->
  999999999 < int_of_digits 0 g1 ->
  parse_duration s = Raised.
Proof.
  intros Hm Hgt. unfold parse_duration. rewrite Hm.
  rewrite (timedelta_days_overflow _ Hgt).
  repeat (destruct (timedelta _ _ _ _); cbn [and_then]; try reflexivity).
Qed.

(** C10 fails on the code: for ["1000000000s"] the parser raises, although
    a billion seconds is a duration [timedelta] accepts: the dict literal also
    builds [timedelta(days=1000000000)], which overflows.  The [/mute]
    command then ends in the exception, before any call to the transport. *)
Theorem parse_duration_raises_on_large_number :
  parse_duration "1000000000s" = Raised
  /\ timedelta 0 1000000000 0 0 = Returned 1000000000
  /\ timedelta 1000000000 0 0 0 = Raised
  /\ parse_duration "999999999s" = Returned 999999999
  /\ mute example_int 1700000000 mute_overflow_update
          (mkContext example_bot ["1000000000s"]) fresh
     = (fresh, [], Raised).
Proof. repeat split; vm_compute; reflexivity. Qed.

(** The same command with a malformed duration mutes for one hour. *)
Example mute_malformed_duration :
  mute example_int 1700000000 mute_overflow_update
       (mkContext example_bot ["soon"]) fresh
  = (fresh,
     [restrict_chat_member 5 8 false (Some 1700003600);
      reply_text "Bob muted for soon"],
     Returned tt).
Proof. vm_compute. reflexivity. Qed.

(** ** AI request gate *)

Module AiGateFacts.
Import AiGate.

Lemma may_pass_some now last :
  may_pass now (Some last) = true <-> cooldown_us <= now - last.
Proof.
  unfold may_pass, COOLDOWN, total_seconds, cooldown_us.
  rewrite Qle_bool_iff. unfold Qle. cbn. lia.
Qed.

Lemma step_moves tid clock σ σ' :
  step tid clock σ = Some σ' ->
  exists t p',
    tasks σ !! tid = Some t
    /\ moves (user_id t) clock (pc t) (held σ) (last_used σ)
             p' (held σ') (last_used σ')
    /\ tasks σ' = <[tid := mkTask (user_id t) p']> (tasks σ).
Proof.
  unfold step. destruct (tasks σ !! tid) as [t|] eqn:Et; [|discriminate].
  destruct (pc t) as [| |now|now lst|now r|now r] eqn:Ep.
  - case_bool_decide as Hin; [discriminate|]. intros [= <-].
    eexists t, _. rewrite Ep. split; [reflexivity|]. split; [|reflexivity].
    cbn. constructor. exact Hin.
  - intros [= <-]. eexists t, _. rewrite Ep. repeat split. cbn. constructor.
  - intros [= <-]. eexists t, _. rewrite Ep. repeat split. cbn. constructor.
  - destruct (may_pass now lst) eqn:Em; intros [= <-]; eexists t, _;
      rewrite Ep; (split; [reflexivity|]); (split; [|reflexivity]); cbn;
      constructor; exact Em.
  - intros [= <-]. eexists t, _. rewrite Ep. repeat split. cbn. constructor.
  - discriminate.
Qed.

Lemma lookup_goto (l : list Task) tid t t' i :
  l !! tid = Some t ->
  <[tid := t']> l !! i = if decide (i = tid) then Some t' else l !! i.
Proof.
  intros Ht. destruct (decide (i = tid)) as [->|Hne].
  - apply list_lookup_insert_eq. eapply lookup_lt_Some, Ht.
  - apply list_lookup_insert_ne. congruence.
Qed.

Lemma read_last_insert a u n u' :
  read_last (Some (<[u := n]> (default ∅ a))) u'
  = if decide (u' = u) then Some n else read_last a u'.
Proof.
  unfold read_last. cbn. destruct (decide (u' = u)) as [->|Hne].
  - apply lookup_insert_eq.
  - apply lookup_insert_ne. congruence.
Qed.

Lemma spawn_lookup users attr i t :
  tasks (spawn users attr) !! i = Some t -> pc t = Start.
Proof.
  cbn. rewrite list_lookup_fmap. destruct (users !! i); cbn; [|discriminate].
  intros [= <-]. reflexivity.
Qed.

Lemma Inv_spawn users attr : Inv attr (spawn users attr).
Proof.
  split.
  - intros i j ti tj Hi _ Hc. apply spawn_lookup in Hi. rewrite Hi in Hc.
    discriminate.
  - intros u. split; [intros H; cbn in H; set_solver|].
    intros (i & t & Hi & _ & Hc). apply spawn_lookup in Hi. rewrite Hi in Hc.
    discriminate.
  - intros i t n l Hi Hp. apply spawn_lookup in Hi. congruence.
  - intros i t n Hi Hg. apply spawn_lookup in Hi. rewrite Hi in Hg. discriminate.
  - intros i j ti tj ni nj _ Hi _ _ Hg. apply spawn_lookup in Hi.
    rewrite Hi in Hg. discriminate.
  - intros u L H. left. exact H.
  - intros i t n Hi Hd. apply spawn_lookup in Hi. rewrite Hi in Hd. discriminate.
Qed.

Section Moves.

Variables (u clock : Z) (p p' : PC) (h h' : gset Z) (a a' : option (gmap Z Z)).
Hypothesis Hm : moves u clock p h a p' h' a'.

Lemma moves_keeps_grant n : grant p = Some n -> grant p' = Some n.
Proof. destruct Hm; cbn; try discriminate. destruct r; auto. Qed.

Lemma moves_into_cs : in_cs p' = true -> in_cs p = true \/ u ∉ h.
Proof. destruct Hm; cbn; auto. Qed.

(** The three kinds of move, as seen by the lock set. *)
Lemma moves_lock_cases :
  (p = Start /\ p' = Locked /\ (u ∉ h) /\ h' = {[u]} ∪ h)
  \/ (in_cs p = true /\ in_cs p' = true /\ h' = h)
  \/ (in_cs p = true /\ in_cs p' = false /\ h' = h ∖ {[u]}).
Proof. destruct Hm; cbn; auto 10. Qed.

(** The attribute changes only when a call is granted. *)
Lemma moves_attr_cases :
  (a' = a /\ forall n, grant p' = Some n -> grant p = Some n)
  \/ (exists n l, p = GotLast n l /\ may_pass n l = true
        /\ p' = Leaving n true
        /\ a' = Some (<[u := n]> (default ∅ a))).
Proof.
  destruct Hm; cbn; try (left; split; [reflexivity | discriminate]).
  - right. exists n, l. auto.
  - left. split; [reflexivity|]. destruct r; auto.
Qed.

Lemma moves_to_gotlast n l :
  p' = GotLast n l -> l = read_last a u /\ a' = a.
Proof. destruct Hm; try discriminate. intros [= -> ->]. auto. Qed.

Lemma moves_to_denial n :
  denial p' = Some n ->
  a' = a
  /\ (denial p = Some n \/ exists l, p = GotLast n l /\ may_pass n l = false).
Proof.
  destruct Hm; cbn; try discriminate.
  - intros [= ->]. split; [reflexivity|]. right. exists l. auto.
  - destruct r; [discriminate|]. auto.
Qed.

End Moves.

Section Preservation.

Variables (attr0 : option (gmap Z Z)) (σ : Sys) (tid : nat) (clock : Z).
Variables (t : Task) (p' : PC) (h' : gset Z) (a' : option (gmap Z Z)).

Hypothesis HI : Inv attr0 σ.
Hypothesis Et : tasks σ !! tid = Some t.
Hypothesis Hm :
  moves (user_id t) clock (pc t) (held σ) (last_used σ) p' h' a'.

Let σ' := mkSys (<[tid := mkTask (user_id t) p']> (tasks σ)) h' a'.

(** A task of the new state is the one that moved or an unchanged one. *)
Lemma lookup_new i x :
  tasks σ' !! i = Some x ->
  (i = tid /\ x = mkTask (user_id t) p') \/ (i <> tid /\ tasks σ !! i = Some x).
Proof.
  cbn. rewrite (lookup_goto _ _ _ _ _ Et).
  destruct (decide (i = tid)); [intros [= <-]; auto | auto].
Qed.

Lemma lookup_old i x :
  i <> tid -> tasks σ !! i = Some x -> tasks σ' !! i = Some x.
Proof.
  intros Hne Hx. cbn. rewrite (lookup_goto _ _ _ _ _ Et).
  destruct (decide (i = tid)); [contradiction | exact Hx].
Qed.

Lemma lookup_moved : tasks σ' !! tid = Some (mkTask (user_id t) p').
Proof. cbn. rewrite (lookup_goto _ _ _ _ _ Et). rewrite decide_True; done. Qed.

(** A granted task of the old state is still granted in the new one. *)
Lemma granted_stays u L :
  (exists i x, tasks σ !! i = Some x /\ user_id x = u /\ grant (pc x) = Some L) ->
  exists i x, tasks σ' !! i = Some x /\ user_id x = u /\ grant (pc x) = Some L.
Proof.
  intros (i & x & Hx & Hu & Hg). destruct (decide (i = tid)) as [->|Hne].
  - exists tid, (mkTask (user_id t) p'). rewrite lookup_moved.
    assert (x = t) as -> by congruence.
    split; [reflexivity|]. split; [exact Hu|]. apply (moves_keeps_grant _ _ _ _ _ _ _ _ Hm), Hg.
  - exists i, x. split; [apply lookup_old; assumption | auto].
Qed.

Lemma step_excl i j ti tj :
  tasks σ' !! i = Some ti -> tasks σ' !! j = Some tj ->
  in_cs (pc ti) = true -> in_cs (pc tj) = true ->
  user_id ti = user_id tj -> i = j.
Proof.
  intros Hi Hj Hci Hcj Hu.
  assert (Hclash : forall k x, k <> tid -> tasks σ !! k = Some x ->
            in_cs (pc x) = true -> user_id x = user_id t ->
            in_cs p' = true -> False).
  { intros k x Hk Hx Hcx Hux Hc'.
    destruct (moves_into_cs _ _ _ _ _ _ _ _ Hm Hc') as [Hc|Hfree].
    - apply Hk. eapply (inv_excl _ _ HI); eauto.
    - apply Hfree. apply (inv_held _ _ HI). exists k, x. auto. }
  apply lookup_new in Hi as [[-> ->]|[Hi Hi']];
    apply lookup_new in Hj as [[-> ->]|[Hj Hj']]; cbn [user_id pc] in *.
  - reflexivity.
  - exfalso. eapply (Hclash j tj); eauto.
  - exfalso. eapply (Hclash i ti); eauto.
  - eapply (inv_excl _ _ HI); eauto.
Qed.

Lemma step_held u :
  u ∈ held σ' <->
  exists i x, tasks σ' !! i = Some x /\ user_id x = u /\ in_cs (pc x) = true.
Proof.
  change (held σ') with h'.
  destruct (moves_lock_cases _ _ _ _ _ _ _ _ Hm)
    as [(Hp & Hp' & Hfree & Hh)|[(Hc & Hc' & Hh)|(Hc & Hc' & Hh)]];
    rewrite Hh; clear Hh.
  - (* acquire *)
    rewrite elem_of_union, elem_of_singleton, (inv_held _ _ HI). split.
    + intros [->|(i & x & Hx & Hu & Hcx)].
      * exists tid, (mkTask (user_id t) p'). rewrite lookup_moved, Hp'. auto.
      * exists i, x. split; [|auto]. apply lookup_old; [|exact Hx].
        intros ->. assert (x = t) as -> by congruence.
        rewrite Hp in Hcx. discriminate.
    + intros (i & x & Hx & Hu & Hcx).
      apply lookup_new in Hx as [[-> ->]|[Hne Hx]]; cbn [user_id pc] in *; [auto|].
      right. exists i, x. auto.
  - (* a move under the lock *)
    rewrite (inv_held _ _ HI). split.
    + intros (i & x & Hx & Hu & Hcx). destruct (decide (i = tid)) as [->|Hne].
      * exists tid, (mkTask (user_id t) p'). rewrite lookup_moved.
        assert (x = t) as -> by congruence. auto.
      * exists i, x. split; [apply lookup_old; assumption | auto].
    + intros (i & x & Hx & Hu & Hcx).
      apply lookup_new in Hx as [[-> ->]|[Hne Hx]]; cbn [user_id pc] in *.
      * exists tid, t. auto.
      * exists i, x. auto.
  - (* release *)
    rewrite elem_of_difference, elem_of_singleton, (inv_held _ _ HI). split.
    + intros [(i & x & Hx & Hu & Hcx) Hne]. exists i, x. split; [|auto].
      apply lookup_old; [|exact Hx]. intros ->.
      assert (x = t) as -> by congruence. congruence.
    + intros (i & x & Hx & Hu & Hcx).
      apply lookup_new in Hx as [[-> ->]|[Hne Hx]]; cbn [user_id pc] in *; [congruence|].
      split; [exists i, x; auto|]. intros ->. apply Hne.
      eapply (inv_excl _ _ HI); eauto.
Qed.

Lemma step_last i x n l :
  tasks σ' !! i = Some x -> pc x = GotLast n l ->
  read_last (last_used σ') (user_id x) = l.
Proof.
  change (last_used σ') with a'. intros Hx Hp.
  apply lookup_new in Hx as [[-> ->]|[Hne Hx]]; cbn [user_id pc] in *.
  - destruct (moves_to_gotlast _ _ _ _ _ _ _ _ Hm _ _ Hp) as [Hl Ha].
    rewrite Hl, Ha. reflexivity.
  - pose proof (inv_last _ _ HI _ _ _ _ Hx Hp) as Hold.
    destruct (moves_attr_cases _ _ _ _ _ _ _ _ Hm)
      as [[Ha _]|(n0 & l0 & Hp0 & _ & _ & Ha)]; rewrite Ha; [exact Hold|].
    rewrite read_last_insert. destruct (decide (user_id x = user_id t)) as [Hu|];
      [|exact Hold].
    exfalso. apply Hne. eapply (inv_excl _ _ HI); eauto.
    + rewrite Hp. reflexivity.
    + rewrite Hp0. reflexivity.
Qed.

(** What a grant tells about the readings granted before it. *)
Lemma grant_after n0 l0 j x nj :
  pc t = GotLast n0 l0 -> may_pass n0 l0 = true ->
  tasks σ !! j = Some x -> user_id x = user_id t -> grant (pc x) = Some nj ->
  cooldown_us <= n0 - nj.
Proof.
  intros Hp Hpass Hx Hu Hg.
  destruct (inv_grant _ _ HI _ _ _ Hx Hg) as (L & HL & Hrel).
  pose proof (inv_last _ _ HI _ _ _ _ Et Hp) as Hl.
  rewrite Hu, Hl in HL. subst l0. apply may_pass_some in Hpass.
  unfold cooldown_us in *. lia.
Qed.

Lemma step_grant i x n :
  tasks σ' !! i = Some x -> grant (pc x) = Some n ->
  exists L, read_last (last_used σ') (user_id x) = Some L
            /\ (L = n \/ cooldown_us <= L - n).
Proof.
  change (last_used σ') with a'. intros Hx Hg.
  destruct (moves_attr_cases _ _ _ _ _ _ _ _ Hm)
    as [[Ha Hback]|(n0 & l0 & Hp0 & Hpass & Hp' & Ha)]; rewrite Ha; clear Ha.
  - apply lookup_new in Hx as [[-> ->]|[Hne Hx]]; cbn [user_id pc] in *.
    + apply (inv_grant _ _ HI _ _ _ Et). auto.
    + apply (inv_grant _ _ HI _ _ _ Hx Hg).
  - apply lookup_new in Hx as [[-> ->]|[Hne Hx]]; cbn [user_id pc] in *.
    + rewrite Hp' in Hg. injection Hg as <-. exists n0.
      rewrite read_last_insert, decide_True by reflexivity. auto.
    + rewrite read_last_insert.
      destruct (decide (user_id x = user_id t)) as [Hu|];
        [|apply (inv_grant _ _ HI _ _ _ Hx Hg)].
      exists n0. split; [reflexivity|]. right.
      eapply grant_after; eauto.
Qed.

Lemma step_apart i j ti tj ni nj :
  i <> j -> tasks σ' !! i = Some ti -> tasks σ' !! j = Some tj ->
  user_id ti = user_id tj ->
  grant (pc ti) = Some ni -> grant (pc tj) = Some nj ->
  cooldown_us <= Z.abs (ni - nj).
Proof.
  intros Hij Hi Hj Hu Hgi Hgj.
  (* the reading of the task that moved against an older grant *)
  assert (Hnew : forall k x n nk,
            k <> tid -> tasks σ !! k = Some x -> user_id x = user_id t ->
            grant (pc x) = Some nk -> grant p' = Some n ->
            cooldown_us <= Z.abs (n - nk)).
  { intros k x n nk Hk Hx Hux Hgx Hg'.
    destruct (moves_attr_cases _ _ _ _ _ _ _ _ Hm)
      as [[_ Hback]|(n0 & l0 & Hp0 & Hpass & Hp' & _)].
    - apply (inv_apart _ _ HI tid k t x); auto.
    - rewrite Hp' in Hg'. injection Hg' as <-.
      pose proof (grant_after _ _ _ _ _ Hp0 Hpass Hx Hux Hgx).
      unfold cooldown_us in *. lia. }
  apply lookup_new in Hi as [[-> ->]|[Hi Hi']];
    apply lookup_new in Hj as [[-> ->]|[Hj Hj']]; cbn [user_id pc] in *.
  - contradiction.
  - eapply Hnew; eauto.
  - replace (ni - nj) with (- (nj - ni)) by lia. rewrite Z.abs_opp.
    eapply Hnew; eauto.
  - eapply (inv_apart _ _ HI i j); eauto.
Qed.

Lemma step_source u L :
  read_last (last_used σ') u = Some L ->
  read_last attr0 u = Some L
  \/ exists i x, tasks σ' !! i = Some x /\ user_id x = u
                 /\ grant (pc x) = Some L.
Proof.
  change (last_used σ') with a'.
  destruct (moves_attr_cases _ _ _ _ _ _ _ _ Hm)
    as [[Ha _]|(n0 & l0 & Hp0 & Hpass & Hp' & Ha)]; rewrite Ha; clear Ha.
  - intros HL. destruct (inv_source _ _ HI _ _ HL) as [H0|Hw]; [auto|].
    right. apply granted_stays, Hw.
  - rewrite read_last_insert. destruct (decide (u = user_id t)) as [->|Hne].
    + intros [= <-]. right. exists tid, (mkTask (user_id t) p').
      rewrite lookup_moved, Hp'. auto.
    + intros HL. destruct (inv_source _ _ HI _ _ HL) as [H0|Hw]; [auto|].
      right. apply granted_stays, Hw.
Qed.

Lemma step_denial i x n :
  tasks σ' !! i = Some x -> denial (pc x) = Some n ->
  exists L, n - L < cooldown_us
    /\ (read_last attr0 (user_id x) = Some L
        \/ exists j tj, tasks σ' !! j = Some tj /\ user_id tj = user_id x
                        /\ grant (pc tj) = Some L).
Proof.
  intros Hx Hd.
  assert (Hold : forall y, (exists k, tasks σ !! k = Some y) ->
            denial (pc y) = Some n ->
            exists L, n - L < cooldown_us
              /\ (read_last attr0 (user_id y) = Some L
                  \/ exists j tj, tasks σ' !! j = Some tj
                        /\ user_id tj = user_id y /\ grant (pc tj) = Some L)).
  { intros y [k Hy] Hdy.
    destruct (inv_denial _ _ HI _ _ _ Hy Hdy) as (L & HL & [H0|Hw]);
      exists L; (split; [exact HL|]); [auto|].
    right. apply granted_stays, Hw. }
  apply lookup_new in Hx as [[-> ->]|[Hne Hx]]; cbn [user_id pc] in *;
    [|apply Hold; eauto].
  destruct (moves_to_denial _ _ _ _ _ _ _ _ Hm _ Hd) as [Ha [Hdold|[l [Hp Hpass]]]].
  - apply (Hold t); eauto.
  - pose proof (inv_last _ _ HI _ _ _ _ Et Hp) as Hl.
    destruct l as [L|]; [|discriminate].
    exists L. split.
    + destruct (Z.lt_ge_cases (n - L) cooldown_us) as [|Hge]; [assumption|].
      apply may_pass_some in Hge. congruence.
    + destruct (inv_source _ _ HI _ _ Hl) as [H0|Hw]; [auto|].
      right. apply granted_stays, Hw.
Qed.

End Preservation.

Lemma Inv_step attr0 tid clock σ σ' :
  Inv attr0 σ -> step tid clock σ = Some σ' -> Inv attr0 σ'.
Proof.
  intros HI Hs. destruct (step_moves _ _ _ _ Hs) as (t & p' & Et & Hm & Hts).
  destruct σ' as [ts' h' a']. cbn [tasks held last_used] in *. subst ts'.
  split.
  - apply (step_excl attr0 σ tid clock t p' h' a' HI Et Hm).
  - apply (step_held attr0 σ tid clock t p' h' a' HI Et Hm).
  - apply (step_last attr0 σ tid clock t p' h' a' HI Et Hm).
  - apply (step_grant attr0 σ tid clock t p' h' a' HI Et Hm).
  - apply (step_apart attr0 σ tid clock t p' h' a' HI Et Hm).
  - apply (step_source attr0 σ tid clock t p' h' a' HI Et Hm).
  - apply (step_denial attr0 σ tid clock t p' h' a' HI Et Hm).
Qed.

Lemma Inv_run attr0 schedule σ :
  Inv attr0 σ -> Inv attr0 (run schedule σ).
Proof.
  revert σ. induction schedule as [|[tid clock] rest IH]; intros σ HI; cbn;
    [exact HI|].
  apply IH. destruct (step tid clock σ) as [σ'|] eqn:Hs; cbn; [|exact HI].
  eapply Inv_step; eauto.
Qed.

(** Two grants to one user, in any schedule of any number of calls, are at
    least a cooldown apart. *)
Lemma grants_apart users attr0 schedule i j u ni nj :
  i <> j ->
  tasks (run schedule (spawn users attr0)) !! i = Some (mkTask u (Done ni true)) ->
  tasks (run schedule (spawn users attr0)) !! j = Some (mkTask u (Done nj true)) ->
  cooldown_us <= Z.abs (ni - nj).
Proof.
  intros Hij Hi Hj.
  eapply (inv_apart _ _ (Inv_run attr0 schedule _ (Inv_spawn users attr0)));
    eauto.
Qed.

(** *** Every call returns *)

Lemma sum_list_insert (l : list Task) i x y (f : Task -> nat) :
  l !! i = Some x ->
  (sum_list (f <$> <[i := y]> l) + f x = sum_list (f <$> l) + f y)%nat.
Proof.
  revert i. induction l as [|z l IH]; intros [|i] H; cbn in *; try discriminate.
  - injection H as ->.
    generalize (sum_list_with Datatypes.id (f <$> l)). intros; lia.
  - rewrite <- !Nat.add_assoc. f_equal. apply IH, H.
Qed.

Lemma moves_remaining u clock p h a p' h' a' :
  moves u clock p h a p' h' a' -> remaining p = S (remaining p').
Proof. destruct 1; reflexivity. Qed.

Lemma step_work tid clock σ σ' :
  step tid clock σ = Some σ' -> work σ = S (work σ').
Proof.
  intros Hs. destruct (step_moves _ _ _ _ Hs) as (t & p' & Et & Hm & Hts).
  unfold work. rewrite Hts.
  pose proof (sum_list_insert (tasks σ) tid t (mkTask (user_id t) p')
                (fun t => remaining (pc t)) Et) as H.
  cbn [pc] in H. rewrite (moves_remaining _ _ _ _ _ _ _ _ Hm) in H. lia.
Qed.

Lemma work_zero σ i t :
  work σ = 0%nat -> tasks σ !! i = Some t -> exists n r, pc t = Done n r.
Proof.
  unfold work. generalize (tasks σ). intros l. revert i.
  induction l as [|x l IH]; intros [|i] H Hl; cbn in *; try discriminate.
  - injection Hl as ->. destruct (pc t); cbn in H; try lia. eauto.
  - apply (IH i); [lia | exact Hl].
Qed.

Lemma work_pos σ :
  work σ <> 0%nat ->
  exists i t, tasks σ !! i = Some t /\ remaining (pc t) <> 0%nat.
Proof.
  unfold work. generalize (tasks σ). intros l.
  induction l as [|x l IH]; cbn; [congruence|]. intros H.
  destruct (decide (remaining (pc x) = 0%nat)) as [E|E].
  - destruct IH as (i & t & Hi & Ht); [lia|]. exists (S i), t. auto.
  - exists 0%nat, x. auto.
Qed.

(** A task under a lock can always move. *)
Lemma step_in_cs tid clock σ t :
  tasks σ !! tid = Some t -> in_cs (pc t) = true ->
  exists σ', step tid clock σ = Some σ'.
Proof.
  intros Et Hc. unfold step. rewrite Et.
  destruct (pc t); try discriminate; try destruct (may_pass _ _); eauto.
Qed.

(** While some call has not returned, some task can move. *)
Lemma progress attr0 clock σ :
  Inv attr0 σ -> work σ <> 0%nat ->
  exists tid σ', step tid clock σ = Some σ'.
Proof.
  intros HI Hw. destruct (work_pos _ Hw) as (i & t & Et & Hr).
  destruct (in_cs (pc t)) eqn:Hc.
  { exists i. eapply step_in_cs; eauto. }
  assert (Hp : pc t = Start) by (destruct (pc t); cbn in *; congruence).
  destruct (decide (user_id t ∈ held σ)) as [Hin|Hfree].
  - apply (inv_held _ _ HI) in Hin as (j & x & Ex & _ & Hcx).
    exists j. eapply step_in_cs; eauto.
  - exists i. unfold step. rewrite Et, Hp.
    rewrite bool_decide_eq_false_2 by exact Hfree. eauto.
Qed.

(** From every reachable state some schedule lets every call return. *)
Lemma all_return attr0 σ :
  Inv attr0 σ ->
  exists schedule, forall i t,
    tasks (run schedule σ) !! i = Some t -> exists n r, pc t = Done n r.
Proof.
  remember (work σ) as k eqn:Hk. revert σ Hk.
  induction k as [|k IH]; intros σ Hk HI.
  - exists []. intros i t. apply work_zero. auto.
  - destruct (progress attr0 0 σ HI) as (tid & σ' & Hs); [lia|].
    destruct (IH σ') as [schedule Hdone].
    + pose proof (step_work _ _ _ _ Hs). lia.
    + eapply Inv_step; eauto.
    + exists ((tid, 0) :: schedule). cbn. rewrite Hs. exact Hdone.
Qed.

(** *** Two calls of one user *)

Lemma step_users tid clock σ σ' :
  step tid clock σ = Some σ' ->
  user_id <$> tasks σ' = user_id <$> tasks σ.
Proof.
  intros Hs. destruct (step_moves _ _ _ _ Hs) as (t & p' & Et & _ & ->).
  rewrite list_fmap_insert. cbn. apply list_insert_id.
  rewrite list_lookup_fmap, Et. reflexivity.
Qed.

Lemma run_users schedule σ :
  user_id <$> tasks (run schedule σ) = user_id <$> tasks σ.
Proof.
  revert σ. induction schedule as [|[tid clock] rest IH]; intros σ; cbn;
    [reflexivity|].
  rewrite IH. destruct (step tid clock σ) as [σ'|] eqn:Hs; cbn; [|reflexivity].
  eapply step_users, Hs.
Qed.

Lemma returned_task σ i n r :
  returned σ i = Some (n, r) ->
  exists t, tasks σ !! i = Some t /\ pc t = Done n r.
Proof.
  unfold returned. destruct (tasks σ !! i) as [t|]; cbn; [|discriminate].
  destruct (pc t) eqn:Ep; try discriminate. intros [= -> ->]. exists t. auto.
Qed.

Lemma spawn_users users attr : user_id <$> tasks (spawn users attr) = users.
Proof.
  cbn. induction users as [|v users IH]; cbn; [reflexivity|].
  f_equal. exact IH.
Qed.

(** The two calls of [u] come first; the calls that run beside them are
    those of other users. *)
Lemma pair_task schedule u others attr0 i t :
  u ∉ others ->
  tasks (run schedule (spawn (u :: u :: others) attr0)) !! i = Some t ->
  user_id t = u <-> (i = 0 \/ i = 1)%nat.
Proof.
  intros Hfresh Ht.
  assert (Hu : (user_id <$> tasks (run schedule
                                     (spawn (u :: u :: others) attr0))) !! i
               = Some (user_id t))
    by (rewrite list_lookup_fmap, Ht; reflexivity).
  rewrite run_users, spawn_users in Hu.
  destruct i as [|[|i]]; cbn in Hu.
  - injection Hu as <-. split; auto.
  - injection Hu as <-. split; auto.
  - split; [|intros [|]; discriminate].
    intros E. exfalso. apply Hfresh. rewrite <- E.
    eapply list_elem_of_lookup_2, Hu.
Qed.

(** C1. Two calls of [can_use_ai] for one user run concurrently, beside any
    calls for other users, under any schedule and any clock readings.  Some
    schedule lets both return.  When both have returned and their clock
    readings are less than the cooldown apart, they did not both return
    true; and when the user had no grant less than a cooldown before either
    reading, exactly one returned true. *)
Theorem concurrent_calls_one_grant
    (u : Z) (others : list Z) (attr0 : option (gmap Z Z)) :
  u ∉ others ->
  (exists schedule n1 r1 n2 r2,
      returned (run schedule (spawn (u :: u :: others) attr0)) 0 = Some (n1, r1)
      /\ returned (run schedule (spawn (u :: u :: others) attr0)) 1
         = Some (n2, r2))
  /\ (forall schedule n1 r1 n2 r2,
        returned (run schedule (spawn (u :: u :: others) attr0)) 0
        = Some (n1, r1) ->
        returned (run schedule (spawn (u :: u :: others) attr0)) 1
        = Some (n2, r2) ->
        Z.abs (n1 - n2) < cooldown_us ->
        ~ (r1 = true /\ r2 = true)
        /\ ((forall L, read_last attr0 u = Some L ->
                       cooldown_us <= n1 - L /\ cooldown_us <= n2 - L) ->
            r1 = negb r2)).
Proof.
  intros Hfresh.
  pose proof (Inv_spawn (u :: u :: others) attr0) as HI0.
  split.
  - destruct (all_return attr0 _ HI0) as [schedule Hdone].
    pose proof (run_users schedule (spawn (u :: u :: others) attr0)) as Hus.
    cbn in Hus.
    destruct (tasks (run schedule (spawn (u :: u :: others) attr0)))
      as [|t1 [|t2 rest]] eqn:Ets; try discriminate.
    destruct (Hdone 0%nat t1) as (n1 & r1 & H1); [reflexivity|].
    destruct (Hdone 1%nat t2) as (n2 & r2 & H2); [reflexivity|].
    exists schedule, n1, r1, n2, r2. unfold returned. rewrite Ets. cbn.
    rewrite H1, H2. auto.
  - intros schedule n1 r1 n2 r2 R1 R2 Hnear.
    pose proof (Inv_run attr0 schedule _ HI0) as HI.
    apply returned_task in R1 as (t1 & E1 & P1).
    apply returned_task in R2 as (t2 & E2 & P2).
    assert (U1 : user_id t1 = u) by (apply (pair_task _ _ _ _ _ _ Hfresh E1); auto).
    assert (U2 : user_id t2 = u) by (apply (pair_task _ _ _ _ _ _ Hfresh E2); auto).
    assert (Hboth : ~ (r1 = true /\ r2 = true)).
    { intros [-> ->].
      pose proof (inv_apart _ _ HI 0%nat 1%nat t1 t2 n1 n2) as Hap.
      rewrite P1, P2 in Hap. cbn in Hap.
      specialize (Hap ltac:(lia) E1 E2 ltac:(congruence) eq_refl eq_refl). lia. }
    split; [exact Hboth|]. intros Helig.
    destruct r1, r2; cbn; try reflexivity.
    + exfalso. apply Hboth. auto.
    + (* a denied call points to a grant, which can only be the other call *)
      exfalso.
      destruct (inv_denial _ _ HI 0%nat t1 n1 E1)
        as (L & HL & [H0|(j & tj & Ej & Uj & Gj)]).
      * rewrite P1. reflexivity.
      * rewrite U1 in H0. destruct (Helig L H0). lia.
      * rewrite U1 in Uj.
        destruct (proj1 (pair_task _ _ _ _ _ _ Hfresh Ej) Uj) as [-> | ->].
        -- assert (tj = t1) as -> by congruence. rewrite P1 in Gj. discriminate.
        -- assert (tj = t2) as -> by congruence. rewrite P2 in Gj. discriminate.
Qed.

End AiGateFacts.

(** ** The theorems at concrete inputs *)

Lemma add_then_remove_warn_restores_count_witness :
  0 <= count_of twice_warned 100 7
  /\ exists w' t,
      (add_warn 100 7 ;; remove_warn 100 7) twice_warned = (w', t, Returned tt)
      /\ get_warn_count 100 7 w' = (w', [], Returned 2).
Proof.
  assert (H : 0 <= count_of twice_warned 100 7) by (vm_compute; discriminate).
  split; [exact H|].
  destruct (add_then_remove_warn_restores_count twice_warned 100 7 H)
    as (w' & t & H1 & H2 & _).
  exists w', t. split; [exact H1 | exact H2].
Defined.

Lemma three_warns_escalate_witness :
  is_admin (mkContext example_bot []) (effective_chat_id warn_eve)
           (id (effective_user warn_eve)) = true
  /\ get_target_user example_int warn_eve (mkContext example_bot [])
     = Returned (Some eve)
  /\ (forall e, delivers (bot (mkContext example_bot [])) e = true)
  /\ 1700000200 + 3600 < 2 ^ 33
  /\ warns (STORE fresh) !! warn_key (effective_chat_id warn_eve) (id eve) = None
  /\ (add_warn_thrice 5 7 fresh).2 = Returned (1, 2, 3).
Proof.
  assert (H1 : is_admin (mkContext example_bot []) (effective_chat_id warn_eve)
                        (id (effective_user warn_eve)) = true) by reflexivity.
  assert (H2 : get_target_user example_int warn_eve (mkContext example_bot [])
               = Returned (Some eve)) by reflexivity.
  assert (H3 : forall e, delivers (bot (mkContext example_bot [])) e = true)
    by (intros e; reflexivity).
  assert (H4 : 1700000200 + 3600 < 2 ^ 33) by (vm_compute; reflexivity).
  assert (H5 : warns (STORE fresh)
                 !! warn_key (effective_chat_id warn_eve) (id eve) = None)
    by (vm_compute; reflexivity).
  repeat (split; [assumption|]).
  exact (proj1 (three_warns_escalate example_mention example_int warn_eve
                  (mkContext example_bot []) eve
                  1700000000 1700000100 1700000200 fresh H1 H2 H3 H4 H5)).
Defined.

(** The third warn of Eve, with the clock at 1700000200. *)
Example third_warn_mutes_for_an_hour :
  let ctx := mkContext example_bot [] in
  let w2 := (warn example_mention example_int 1700000100 warn_eve ctx
               (warn example_mention example_int 1700000000 warn_eve ctx
                  fresh).1.1).1.1 in
  count_of w2 5 7 = 2
  /\ (warn example_mention example_int 1700000200 warn_eve ctx w2).1.2
     = [json_dump (mkStore ∅ [] ∅ {[ "5:7" := 3 ]});
        reply_text "Warned <a>Eve</a> (3/3)";
        restrict_chat_member 5 7 false (Some 1700003800);
        reply_text "Eve auto-muted for 1 hour (3 warns)";
        json_dump (mkStore ∅ [] ∅ ∅)]
  /\ count_of (warn example_mention example_int 1700000200 warn_eve ctx
                    w2).1.1 5 7 = 0.
Proof. repeat split; vm_compute; reflexivity. Qed.

(** When the transport refuses the mute, the handler ends in the exception
    before the entry is deleted: the count stays at 3. *)
Example third_warn_mute_refused :
  let ctx := mkContext refusing_bot [] in
  let w2 := (warn example_mention example_int 1700000100 warn_eve ctx
               (warn example_mention example_int 1700000000 warn_eve ctx
                  fresh).1.1).1.1 in
  (warn example_mention example_int 1700000200 warn_eve ctx w2).2 = Raised
  /\ count_of (warn example_mention example_int 1700000200 warn_eve ctx
                    w2).1.1 5 7 = 3.
Proof. split; vm_compute; reflexivity. Qed.

Lemma setchannellink_stores_link_witness :
  is_admin (mkContext example_bot ["example.org/x"]) 5 1 = true
  /\ args (mkContext example_bot ["example.org/x"]) = ["example.org/x"]
  /\ cfg_link (cfg_of (setchannellink (command 5 admin_user None)
                         (mkContext example_bot ["example.org/x"]) fresh).1.1 5)
     = Some "https://example.org/x".
Proof.
  assert (H1 : is_admin (mkContext example_bot ["example.org/x"])
                 (effective_chat_id (command 5 admin_user None))
                 (id (effective_user (command 5 admin_user None))) = true)
    by reflexivity.
  assert (H2 : args (mkContext example_bot ["example.org/x"])
               = ["example.org/x"]) by reflexivity.
  split; [exact H1|]. split; [exact H2|].
  destruct (setchannellink_stores_link (command 5 admin_user None)
              (mkContext example_bot ["example.org/x"]) fresh
              "example.org/x" [] H1 H2) as (stored & Hcfg & _ & Hadd).
  change (effective_chat_id (command 5 admin_user None)) with 5 in Hcfg.
  rewrite Hcfg. cbn [cfg_link]. f_equal. apply Hadd.
  - intros [r Hr]. discriminate Hr.
  - intros [r Hr]. discriminate Hr.
Defined.

Lemma send_welcome_reads_values_as_template_witness :
  plain_text [Lit "Welcome "; Hole p_first; Lit "!"]
  /\ get_truthy (cfg_text (cfg_of welcome_bob_world
                             (effective_chat_id (member_joined 5 bob))))
     = Some (flat [Lit "Welcome "; Hole p_first; Lit "!"])
  /\ no_brace (first_name bob)
  /\ no_brace (example_mention bob)
  /\ substituted example_mention (flat [Lit "Welcome "; Hole p_first; Lit "!"]) bob
     = "Welcome Bob!"
  /\ _send_welcome example_mention (member_joined 5 bob)
       (mkContext example_bot []) [bob] welcome_bob_world
     = (welcome_bob_world,
        one_call (mkContext example_bot [])
          (send_message (effective_chat_id (member_joined 5 bob))
             (substituted example_mention
                (flat [Lit "Welcome "; Hole p_first; Lit "!"]) bob)
             (get_truthy
                (cfg_link (cfg_of welcome_bob_world
                             (effective_chat_id (member_joined 5 bob)))))),
        Returned tt).
Proof.
  assert (H1 : plain_text [Lit "Welcome "; Hole p_first; Lit "!"])
    by (unfold plain_text, no_brace; cbn; repeat constructor; discriminate).
  assert (H2 : get_truthy (cfg_text (cfg_of welcome_bob_world
                                      (effective_chat_id (member_joined 5 bob))))
               = Some (flat [Lit "Welcome "; Hole p_first; Lit "!"]))
    by (vm_compute; reflexivity).
  assert (H3 : no_brace (first_name bob))
    by (unfold no_brace; cbn; repeat constructor; discriminate).
  assert (H4 : no_brace (example_mention bob))
    by (unfold no_brace; cbn; repeat constructor; discriminate).
  split; [exact H1|]. split; [exact H2|]. split; [exact H3|].
  split; [exact H4|]. split; [vm_compute; reflexivity|].
  exact (proj1 (proj1 (proj2 send_welcome_reads_values_as_template)
                  example_mention (member_joined 5 bob)
                  (mkContext example_bot []) welcome_bob_world
                  [Lit "Welcome "; Hole p_first; Lit "!"] bob
                  H2 H1 ltac:(discriminate) ltac:(discriminate) H3 H4)
           eq_refl).
Defined.

(** The resolver on arguments: a handle the transport does not know falls
    through, a numeric id is looked up, and anything else gives [None]. *)
Example get_target_user_by_argument :
  get_target_user example_int (command 5 admin_user None)
                  (mkContext example_bot ["@ghost"]) = Returned None
  /\ get_target_user example_int (command 5 admin_user None)
                     (mkContext example_bot ["42"])
     = Returned (Some (mkUser 42 "Member" None false))
  /\ get_target_user example_int (command 5 admin_user None)
                     (mkContext example_bot ["someone"]) = Returned None
  /\ get_target_user example_int (mkUpdate None 5 admin_user None)
                     (mkContext example_bot ["42"]) = Raised.
Proof. repeat split; reflexivity. Qed.

Lemma concurrent_calls_one_grant_witness :
  (9 ∉ [4])
  /\ (exists schedule n1 r1 n2 r2,
        AiGate.returned (AiGate.run schedule (AiGate.spawn [9; 9; 4] None)) 0
        = Some (n1, r1)
        /\ AiGate.returned (AiGate.run schedule (AiGate.spawn [9; 9; 4] None)) 1
           = Some (n2, r2))
  /\ AiGate.returned (AiGate.run interleaved (AiGate.spawn [9; 9; 4] None)) 0
     = Some (1000, true)
  /\ AiGate.returned (AiGate.run interleaved (AiGate.spawn [9; 9; 4] None)) 1
     = Some (500000, false)
  /\ ~ (true = true /\ false = true).
Proof.
  assert (H : 9 ∉ [4]) by (intros H%list_elem_of_singleton; discriminate).
  assert (R1 : AiGate.returned
                 (AiGate.run interleaved (AiGate.spawn [9; 9; 4] None)) 0
               = Some (1000, true)) by (vm_compute; reflexivity).
  assert (R2 : AiGate.returned
                 (AiGate.run interleaved (AiGate.spawn [9; 9; 4] None)) 1
               = Some (500000, false)) by (vm_compute; reflexivity).
  assert (Hnear : Z.abs (1000 - 500000) < AiGate.cooldown_us)
    by (vm_compute; reflexivity).
  split; [exact H|].
  split; [exact (proj1 (AiGateFacts.concurrent_calls_one_grant 9 [4] None H))|].
  split; [exact R1|]. split; [exact R2|].
  exact (proj1 (proj2 (AiGateFacts.concurrent_calls_one_grant 9 [4] None H)
                  interleaved 1000 true 500000 false R1 R2 Hnear)).
Defined.

(** Two calls for user 9 on a fresh gate, interleaved: call 0 takes the
    lock, call 1 has to wait for it, and only call 0 is granted. *)
Example gate_interleaved :
  AiGate.returned (AiGate.run interleaved (AiGate.spawn [9; 9] None)) 0
  = Some (1000, true)
  /\ AiGate.returned (AiGate.run interleaved (AiGate.spawn [9; 9] None)) 1
     = Some (500000, false).
Proof. split; vm_compute; reflexivity. Qed.

(** With a grant less than a cooldown before them, both calls are denied. *)
Example gate_both_denied :
  let schedule :=
    [(0%nat, 0); (0%nat, 1000000); (0%nat, 0); (0%nat, 0); (0%nat, 0);
     (1%nat, 0); (1%nat, 1200000); (1%nat, 0); (1%nat, 0); (1%nat, 0)] in
  let σ := AiGate.run schedule (AiGate.spawn [9; 9] (Some {[ 9 := 0 ]})) in
  AiGate.returned σ 0 = Some (1000000, false)
  /\ AiGate.returned σ 1 = Some (1200000, false).
Proof. split; vm_compute; reflexivity. Qed.

(** The cooldown is inclusive: a call 1.5 s after the last grant passes. *)
Example gate_cooldown_boundary :
  AiGate.may_pass 1500000 (Some 0) = true
  /\ AiGate.may_pass 1499999 (Some 0) = false.
Proof. split; reflexivity. Qed.


(** * Further properties of the code *)

(** ** The ledger key *)

Lemma pretty_N_char_no_colon x : pretty_N_char x <> ":"%char.
Proof. unfold pretty_N_char. repeat case_match; discriminate. Qed.

Lemma pretty_N_go_no_colon x s : no_colon s -> no_colon (pretty_N_go x s).
Proof.
  revert s. induction (N.lt_wf_0 x) as [x _ IH]; intros s Hs.
  destruct (decide (x = 0%N)) as [->|Hx]; [exact Hs|].
  rewrite pretty_N_go_step by lia.
  apply IH; [apply N.div_lt; lia|].
  constructor; [apply pretty_N_char_no_colon | exact Hs].
Qed.

Lemma str_no_colon (n : Z) : no_colon (Py.str n).
Proof.
  assert (HN : forall x : N, no_colon (pretty x)).
  { intros x. unfold pretty, pretty_N. case_decide.
    - repeat constructor. discriminate.
    - apply pretty_N_go_no_colon. constructor. }
  unfold Py.str, pretty, pretty_Z. destruct n as [|q|q].
  - repeat constructor. discriminate.
  - apply (HN (Npos q)).
  - constructor; [discriminate | apply (HN (Npos q))].
Qed.

Lemma split_at_colon a b x y :
  no_colon a -> no_colon b ->
  a +:+ ":" +:+ x = b +:+ ":" +:+ y -> a = b /\ x = y.
Proof.
  revert b. induction a as [|c a IH]; intros [|d b] Ha Hb H; cbn in H.
  - injection H as ->. auto.
  - injection H as <- _. inversion Hb as [|? ? Hd _]. congruence.
  - injection H as -> _. inversion Ha as [|? ? Hc _]. congruence.
  - injection H as -> H. inversion Ha; inversion Hb; subst.
    destruct (IH b) as [-> ->]; auto.
Qed.

Lemma warn_key_inj chat uid chat' uid' :
  warn_key chat uid = warn_key chat' uid' -> chat = chat' /\ uid = uid'.
Proof.
  unfold warn_key. intros H.
  apply split_at_colon in H as [H1 H2]; try apply str_no_colon.
  split; eapply (inj pretty); eassumption.
Qed.

(** ** More on the warn ledger *)

Lemma warn_key_ne chat uid chat' uid' :
  (chat, uid) <> (chat', uid') -> warn_key chat uid <> warn_key chat' uid'.
Proof. intros Hne H. apply warn_key_inj in H as [-> ->]. auto. Qed.

(** X1. Two different (chat, user) pairs never share a ledger entry: the
    keys ["chat:user"] of different pairs differ, so [add_warn] and
    [remove_warn] for one pair leave the count of every other pair as it
    was. *)
Theorem ledger_pairs_independent w chat uid chat' uid' :
  (chat, uid) <> (chat', uid') ->
  warn_key chat uid <> warn_key chat' uid'
  /\ count_of (add_warn chat uid w).1.1 chat' uid' = count_of w chat' uid'
  /\ count_of (remove_warn chat uid w).1.1 chat' uid' = count_of w chat' uid'.
Proof.
  intros Hne. pose proof (warn_key_ne _ _ _ _ Hne) as Hk.
  split; [exact Hk|]. split.
  - rewrite add_warn_run. unfold count_of. cbn.
    rewrite lookup_insert_ne by exact Hk. reflexivity.
  - unfold count_of.
    destruct (warns (STORE w) !! warn_key chat uid) as [n|] eqn:E.
    + rewrite (remove_warn_run_some _ _ _ n E). cbn.
      destruct (n - 1 <=? 0).
      * rewrite lookup_delete_ne by exact Hk. reflexivity.
      * rewrite lookup_insert_ne by exact Hk. reflexivity.
    + rewrite (remove_warn_run_none _ _ _ E). reflexivity.
Qed.

(** X2. [remove_warn] counts down to zero and stops there: whatever was
    stored, the count read afterwards is the larger of 0 and the count before
    minus one, an entry is kept only for a count of at least 1, and the
    document is written exactly when there was an entry. *)
Theorem remove_warn_saturates w chat uid :
  exists w' t,
    remove_warn chat uid w = (w', t, Returned tt)
    /\ count_of w' chat uid = Z.max 0 (count_of w chat uid - 1)
    /\ (forall n, warns (STORE w') !! warn_key chat uid = Some n -> 1 <= n)
    /\ t = match warns (STORE w) !! warn_key chat uid with
           | Some _ => [json_dump (STORE w')]
           | None => []
           end.
Proof.
  unfold count_of.
  destruct (warns (STORE w) !! warn_key chat uid) as [n|] eqn:E.
  - rewrite (remove_warn_run_some _ _ _ n E). eexists _, _.
    split; [reflexivity|]. cbn.
    destruct (Z.leb_spec (n - 1) 0).
    + rewrite lookup_delete_eq. cbn. repeat split; [lia | discriminate].
    + rewrite lookup_insert_eq. cbn.
      repeat split; [lia | intros m [= <-]; lia].
  - rewrite (remove_warn_run_none _ _ _ E). exists w, [].
    rewrite E. cbn. repeat split; discriminate.
Qed.

(** *** Calls that may be refused *)

Lemma call_cases b e w :
  call b e w = (w, [e], if delivers b e then Returned tt else Raised).
Proof. unfold call. run_m. destruct (delivers b e); reflexivity. Qed.

Lemma reply_cases update context body w :
  reply update context body w
  = match message update with
    | Some _ => (w, [reply_text body],
                 if delivers (bot context) (reply_text body)
                 then Returned tt else Raised)
    | None => (w, [], Raised)
    end.
Proof. unfold reply. destruct (message update); [apply call_cases | reflexivity]. Qed.

(** Case analysis on the next transport call of a handler. *)
Ltac next_call :=
  match goal with
  | |- context [bind (call ?b ?e) ?k ?w] =>
      let D := fresh "D" in
      destruct (delivers b e) eqn:D;
      [ rewrite (bind_run _ _ _ _ _ _ (call_run b e w D))
      | rewrite (bind_raised _ _ _ _ _ (call_raised b e w D)) ]
  end.

Lemma reply_is_call update context body m :
  message update = Some m ->
  reply update context body = call (bot context) (reply_text body).
Proof. intros H. unfold reply. rewrite H. reflexivity. Qed.

Lemma target_has_message py_int update context r :
  get_target_user py_int update context = Returned r ->
  exists m, message update = Some m.
Proof.
  unfold get_target_user. destruct (message update); [eauto | discriminate].
Qed.

(** X3. A [/warn] that runs from its first to its last statement with no
    other handler running in between, and returns, leaves the target with a
    count of at most 2: a count that reaches 3 or more is deleted in the same
    run, whatever was stored before.  ([main] asks for concurrent updates:
    where another [/warn] for the same pair runs while this one awaits its
    reply, the count it leaves may be higher; that case is not part of the
    statement.) *)
Theorem warn_caps_count
    (mention_html : User -> string) (py_int : string -> option Z)
    (now : Z) (update : Update) (context : Context) (u : User) (w : World) :
  is_admin context (effective_chat_id update) (id (effective_user update))
  = true ->
  get_target_user py_int update context = Returned (Some u) ->
  (warn mention_html py_int now update context w).2 = Returned tt ->
  count_of (warn mention_html py_int now update context w).1.1
           (effective_chat_id update) (id u) <= 2.
Proof.
  intros Hadm Htgt. destruct (target_has_message _ _ _ _ Htgt) as [m Hm].
  unfold warn. rewrite Hadm, Htgt. cbn [negb].
  rewrite (bind_run _ _ _ _ _ _ (lift_run _ _)).
  rewrite (bind_run _ _ _ _ _ _ (add_warn_run _ _ _)).
  rewrite !(reply_is_call _ _ _ _ Hm).
  set (chat := effective_chat_id update). set (key := warn_key chat (id u)).
  set (n := count_of w chat (id u) + 1).
  next_call; [|discriminate].
  destruct (Z.leb_spec 3 n) as [Hge|Hlt].
  - change (timedelta 0 0 0 1) with (Returned (A:=Z) 3600).
    rewrite (bind_run _ _ _ _ _ _ (lift_run _ _)).
    unfold timestamp_after. destruct (now + 3600 <=? datetime_max).
    + rewrite (bind_run _ _ _ _ _ _ (lift_run _ _)).
      next_call; [|discriminate]. next_call; [|discriminate].
      intros _. unfold count_of. cbn. fold chat key.
      rewrite lookup_delete_eq. cbn. lia.
    + rewrite (bind_raised _ _ _ _ _ (lift_run _ _)). discriminate.
  - intros _. unfold count_of. cbn. fold chat key.
    rewrite lookup_insert_eq. cbn. lia.
Qed.

(** ** What every handler keeps true *)

Section Service.

Context (mention_html : User -> string)
        (py_int : string -> option Z)
        (OWNER_ID : Z).

(** Unfold a handler down to the decisions it takes. *)
Ltac open_handler :=
  cbv beta iota zeta delta
    [handle warn delwarn warns_cmd mute unmute addword removeword
     setwelcometext setmedia setchannellink clearwelcome blacklist_cmd
     unblacklist blacklisted message_filter update_cfg add_warn remove_warn get_warn_count
     is_globally_blacklisted has_banned_word reply
     bind ret raise emit call lift save_store get_STORE put_STORE
     get_BLACKLIST put_BLACKLIST try_log try_pass];
  cbn [STORE GLOBAL_BLACKLIST warns welcomes blacklist banned_words
       set_warns set_welcomes set_banned_words set_blacklist fst snd app].

(** The handlers of joins send; they write nothing. *)
Lemma legacy_welcome_run update context w :
  exists t, legacy_welcome mention_html update context w = (w, t, Returned tt).
Proof.
  unfold legacy_welcome. destruct (message update) as [m|]; [|eexists; reflexivity].
  destruct (new_chat_members m); [eexists; reflexivity|].
  apply send_welcome_pure.
Qed.

Lemma welcome_new_member_run update context w :
  exists t,
    welcome_new_member mention_html update context w = (w, t, Returned tt).
Proof.
  unfold welcome_new_member.
  destruct (chat_member update) as [cmu|]; [|eexists; reflexivity].
  destruct (_ || _); [eexists; reflexivity|].
  unfold is_globally_blacklisted.
  rewrite (bind_run _ _ _ w [] (bool_decide (id (cmu_from_user cmu)
                                              ∈ GLOBAL_BLACKLIST w)))
    by reflexivity.
  destruct (_ || _); [eexists; reflexivity|].
  destruct (send_welcome_pure mention_html update context [cmu_from_user cmu] w)
    as [t Ht].
  rewrite Ht. eexists; reflexivity.
Qed.

(** Split on the handler; the two join handlers are settled by the lemmas
    above, the others are opened down to their decisions. *)
Ltac join_handler L upd ctx w :=
  cbn [handle];
  let t := fresh "t" in
  let Ht := fresh "Ht" in
  destruct (L upd ctx w) as [t Ht]; rewrite Ht.

Ltac by_handler h upd ctx w :=
  destruct h;
  [ ..
  | join_handler legacy_welcome_run upd ctx w
  | join_handler welcome_new_member_run upd ctx w
  | idtac ];
  open_handler; repeat case_match; simplify_eq.

(** *** Stored counts stay positive *)

Lemma positive_insert (m : gmap string Z) k n :
  (forall k n, m !! k = Some n -> 1 <= n) -> 1 <= n ->
  forall k' n', <[k := n]> m !! k' = Some n' -> 1 <= n'.
Proof.
  intros H Hn k' n'. destruct (decide (k = k')) as [->|Hne].
  - rewrite lookup_insert_eq. intros [= <-]. exact Hn.
  - rewrite lookup_insert_ne by exact Hne. apply H.
Qed.

Lemma positive_delete (m : gmap string Z) k :
  (forall k n, m !! k = Some n -> 1 <= n) ->
  forall k' n', delete k m !! k' = Some n' -> 1 <= n'.
Proof.
  intros H k' n'. destruct (decide (k = k')) as [->|Hne].
  - rewrite lookup_delete_eq. discriminate.
  - rewrite lookup_delete_ne by exact Hne. apply H.
Qed.

Lemma positive_next (m : gmap string Z) k :
  (forall k n, m !! k = Some n -> 1 <= n) -> 1 <= default 0 (m !! k) + 1.
Proof.
  intros H. destruct (m !! k) as [n|] eqn:E; cbn; [|lia]. apply H in E. lia.
Qed.

Lemma handle_keeps_positive h upd ctx w :
  counts_positive w ->
  counts_positive (handle mention_html py_int OWNER_ID h upd ctx w).1.1.
Proof.
  unfold counts_positive. intros H.
  by_handler h upd ctx w; cbn; try exact H.
  all: try (apply positive_delete);
       try (apply positive_insert; [exact H|]);
       try (apply positive_next; exact H);
       try exact H.
  all: match goal with
       | E : (_ <=? _) = false |- _ => apply Z.leb_gt in E; lia
       end.
Qed.

(** *** The set of blacklisted users mirrors the document *)

Lemma handle_keeps_mirrored h upd ctx w :
  blacklist_mirrored w ->
  blacklist_mirrored (handle mention_html py_int OWNER_ID h upd ctx w).1.1.
Proof.
  unfold blacklist_mirrored. intros H.
  by_handler h upd ctx w; cbn; try exact H.
  all: symmetry; apply list_to_set_elements_L.
Qed.

(** *** Banned words stay lowercase and without duplicates *)

Lemma normal_insert (m : gmap string (list string)) c l :
  (forall chat l, m !! chat = Some l ->
     NoDup l /\ Forall (fun x => Py.lower x = x) l) ->
  NoDup l /\ Forall (fun x => Py.lower x = x) l ->
  forall chat l', <[c := l]> m !! chat = Some l' ->
    NoDup l' /\ Forall (fun x => Py.lower x = x) l'.
Proof.
  intros H Hl chat l'. destruct (decide (c = chat)) as [->|Hne].
  - rewrite lookup_insert_eq. intros [= <-]. exact Hl.
  - rewrite lookup_insert_ne by exact Hne. apply H.
Qed.

Lemma normal_existing (m : gmap string (list string)) c :
  (forall chat l, m !! chat = Some l ->
     NoDup l /\ Forall (fun x => Py.lower x = x) l) ->
  NoDup (default [] (m !! c))
  /\ Forall (fun x => Py.lower x = x) (default [] (m !! c)).
Proof.
  intros H. destruct (m !! c) as [l|] eqn:E; cbn; [eauto|].
  split; constructor.
Qed.

Lemma list_remove_subseteq x l y : y ∈ list_remove x l -> y ∈ l.
Proof.
  induction l as [|z l IH]; cbn; [auto|].
  destruct (String.eqb x z).
  - intros Hy. apply elem_of_cons. auto.
  - intros Hy. apply elem_of_cons in Hy as [->|Hy]; apply elem_of_cons; auto.
Qed.

Lemma list_remove_normal x l :
  NoDup l /\ Forall (fun x => Py.lower x = x) l ->
  NoDup (list_remove x l) /\ Forall (fun x => Py.lower x = x) (list_remove x l).
Proof.
  induction l as [|z l IH]; cbn; [auto|]. intros [Hnd Hlow].
  apply NoDup_cons in Hnd as [Hz Hnd]. apply Forall_cons in Hlow as [Hzl Hlow].
  destruct (String.eqb x z); [auto|].
  destruct IH as [IH1 IH2]; [auto|]. split.
  - apply NoDup_cons. split; [|exact IH1].
    intros Hin. apply Hz. eapply list_remove_subseteq, Hin.
  - apply Forall_cons. auto.
Qed.

Lemma normal_append (m : gmap string (list string)) c x :
  (forall chat l, m !! chat = Some l ->
     NoDup l /\ Forall (fun x => Py.lower x = x) l) ->
  bool_decide (Py.lower x ∈ default [] (m !! c)) = false ->
  NoDup (default [] (m !! c) ++ [Py.lower x])
  /\ Forall (fun x => Py.lower x = x) (default [] (m !! c) ++ [Py.lower x]).
Proof.
  intros H E. destruct (normal_existing m c H) as [Hnd Hl].
  apply bool_decide_eq_false_1 in E. split.
  - apply NoDup_app. split; [exact Hnd|]. split; [|apply NoDup_singleton].
    intros y Hy Hy'. apply list_elem_of_singleton in Hy' as ->. exact (E Hy).
  - apply Forall_app. split; [exact Hl|]. repeat constructor.
    apply PyFacts.lower_idemp.
Qed.

Ltac normal_step H :=
  first
    [ exact H
    | apply normal_existing, H
    | apply normal_append; [exact H | assumption]
    | apply list_remove_normal; eapply H; eassumption
    | match goal with |- forall _ _, _ -> _ => apply normal_insert end ].

Lemma handle_keeps_normal h upd ctx w :
  words_normal w ->
  words_normal (handle mention_html py_int OWNER_ID h upd ctx w).1.1.
Proof.
  unfold words_normal. intros H.
  by_handler h upd ctx w; cbn; repeat normal_step H.
Qed.

(** *** Every configured media can be sent *)

Lemma send_func_kinds kind :
  kind = "photo" \/ kind = "animation" \/ kind = "video" ->
  is_Some (send_func kind).
Proof. intros [-> | [-> | ->]]; cbn; eauto. Qed.





(** *** What is in memory is what was written last *)

Lemma written_app t1 t2 disk :
  written (t1 ++ t2) disk = written t2 (written t1 disk).
Proof.
  revert disk. induction t1 as [|e t1 IH]; intros disk; [reflexivity|].
  destruct e; cbn; apply IH.
Qed.

Lemma send_one_quiet context chat cfg body w :
  exists t r, send_one context chat cfg body w = (w, t, r)
              /\ forall disk, written t disk = disk.
Proof.
  unfold send_one.
  destruct (get_truthy (cfg_media cfg)); [destruct (send_func _) as [send|] eqn:E|];
    unfold call; run_m; try destruct (delivers _ _); eauto.
  all: unfold send_func in E; repeat case_match; simplify_eq; eauto.
Qed.

Lemma for_each_welcome_quiet context chat cfg template members w :
  exists t,
    for_each members (fun member =>
      try_log (send_one context chat cfg
                        (welcome_text mention_html template member))
              "Welcome failed") w
    = (w, t, Returned tt)
    /\ forall disk, written t disk = disk.
Proof.
  induction members as [|m members IH]; cbn [for_each];
    [eexists; split; reflexivity|].
  destruct (send_one_quiet context chat cfg
              (welcome_text mention_html template m) w) as (t1 & r & H1 & Q1).
  destruct IH as (t2 & H2 & Q2).
  assert (exists t1', try_log (send_one context chat cfg
                                 (welcome_text mention_html template m))
                              "Welcome failed" w = (w, t1', Returned tt)
                      /\ forall disk, written t1' disk = disk)
    as (t1' & H1' & Q1').
  { unfold try_log. rewrite H1. destruct r; eexists; split; try reflexivity.
    - exact Q1.
    - intros disk. rewrite written_app, Q1. reflexivity. }
  rewrite (bind_run _ _ _ _ _ _ H1'), H2. eexists. split; [reflexivity|].
  intros disk. rewrite written_app, Q1', Q2. reflexivity.
Qed.

Lemma send_welcome_quiet update context members w :
  exists t, _send_welcome mention_html update context members w
            = (w, t, Returned tt)
            /\ forall disk, written t disk = disk.
Proof.
  unfold _send_welcome.
  rewrite (bind_run _ _ _ w [] (STORE w)) by reflexivity.
  destruct (get_truthy _) as [template|]; [|eexists; split; reflexivity].
  edestruct for_each_welcome_quiet as (t & H & Q). rewrite H.
  eexists. split; [reflexivity|]. exact Q.
Qed.

Lemma record_same_words (s : Store) k :
  is_Some (banned_words s !! k) ->
  set_banned_words s (<[k := default [] (banned_words s !! k)]> (banned_words s))
  = s.
Proof.
  intros [l E]. unfold set_banned_words. rewrite E. cbn.
  rewrite insert_id by exact E. destruct s; reflexivity.
Qed.

Lemma legacy_welcome_written upd ctx w :
  written (legacy_welcome mention_html upd ctx w).1.2 (STORE w)
  = STORE (legacy_welcome mention_html upd ctx w).1.1.
Proof.
  unfold legacy_welcome.
  destruct (message upd) as [m|]; [|reflexivity].
  destruct (new_chat_members m) as [|u l]; [reflexivity|].
  destruct (send_welcome_quiet upd ctx (u :: l) w) as (t & Ht & Q).
  rewrite Ht. cbn. apply Q.
Qed.

Lemma welcome_new_member_written upd ctx w :
  written (welcome_new_member mention_html upd ctx w).1.2 (STORE w)
  = STORE (welcome_new_member mention_html upd ctx w).1.1.
Proof.
  unfold welcome_new_member.
  destruct (chat_member upd) as [cmu|]; [|reflexivity].
  destruct (_ || _); [reflexivity|].
  unfold is_globally_blacklisted.
  rewrite (bind_run _ _ _ w [] (bool_decide (id (cmu_from_user cmu)
                                              ∈ GLOBAL_BLACKLIST w)))
    by reflexivity.
  destruct (_ || _); [reflexivity|].
  destruct (send_welcome_quiet upd ctx [cmu_from_user cmu] w) as (t & Ht & Q).
  rewrite Ht. cbn. apply Q.
Qed.

Lemma handle_written h upd ctx w :
  written (handle mention_html py_int OWNER_ID h upd ctx w).1.2 (STORE w)
  = STORE (handle mention_html py_int OWNER_ID h upd ctx w).1.1.
Proof.
  destruct h;
    [ .. | apply legacy_welcome_written | apply welcome_new_member_written
    | idtac ];
    open_handler; repeat case_match; simplify_eq; cbn; try reflexivity.
  all: symmetry; apply record_same_words;
       match goal with E : bool_decide _ = true |- _ =>
         apply bool_decide_eq_true_1 in E;
         destruct (banned_words (STORE w) !! Py.str (effective_chat_id upd));
         [eauto | cbn in E; apply elem_of_nil in E; destruct E]
       end.
Qed.

(** *** The invariants over a run of the service *)

Lemma serve_invariant (P : World -> Prop) :
  (forall h upd ctx w,
     P w -> P (handle mention_html py_int OWNER_ID h upd ctx w).1.1) ->
  forall deliveries w,
    P w -> P (serve mention_html py_int OWNER_ID deliveries w).
Proof.
  intros Hstep deliveries.
  induction deliveries as [|[[h upd] ctx] rest IH]; intros w Hw; cbn;
    [exact Hw|].
  apply IH, Hstep, Hw.
Qed.

(** X4. Whatever updates are handled one after the other, in whatever
    order and with whatever transport failures, a warn ledger whose stored
    counts are all at least 1 stays so: no handler leaves a zero or negative
    count behind, every count read is at least 0, and a count reads 0 exactly
    for the pairs without an entry. *)
Theorem served_counts_stay_positive deliveries w :
  counts_positive w ->
  counts_positive (serve mention_html py_int OWNER_ID deliveries w)
  /\ forall chat uid,
       0 <= count_of (serve mention_html py_int OWNER_ID deliveries w) chat uid
       /\ (count_of (serve mention_html py_int OWNER_ID deliveries w) chat uid = 0
           <-> warns (STORE (serve mention_html py_int OWNER_ID deliveries w))
                 !! warn_key chat uid = None).
Proof.
  intros H.
  assert (Hp : counts_positive (serve mention_html py_int OWNER_ID deliveries w)).
  { apply serve_invariant; [|exact H].
    intros h upd ctx w0. apply handle_keeps_positive. }
  split; [exact Hp|]. intros chat uid.
  split; [apply counts_positive_nonneg, Hp|].
  unfold count_of.
  destruct (warns _ !! warn_key chat uid) as [n|] eqn:E; cbn; [|tauto].
  apply Hp in E. split; [lia | discriminate].
Qed.

(** X5. The set [GLOBAL_BLACKLIST] that the handlers consult and the list
    ["blacklist"] of the document stay in step while updates are handled one
    after the other: once the set was built from the list, as at start-up, a
    user is globally blacklisted exactly when their id is in the stored
    list. *)
Theorem served_blacklist_mirrored deliveries w :
  blacklist_mirrored w ->
  blacklist_mirrored (serve mention_html py_int OWNER_ID deliveries w)
  /\ forall uid,
       (is_globally_blacklisted uid
          (serve mention_html py_int OWNER_ID deliveries w)).2
       = Returned
           (bool_decide
              (uid ∈ blacklist
                       (STORE (serve mention_html py_int OWNER_ID deliveries w)))).
Proof.
  intros H.
  assert (Hm : blacklist_mirrored
                 (serve mention_html py_int OWNER_ID deliveries w)).
  { apply serve_invariant; [|exact H].
    intros h upd ctx w0. apply handle_keeps_mirrored. }
  split; [exact Hm|]. intros uid. cbn. f_equal.
  apply bool_decide_ext. rewrite Hm. apply elem_of_list_to_set.
Qed.

(** X6. Every list of banned words that was built through [/addword] and
    [/removeword] holds lowercase words, each of them once: where all stored
    lists are so, as in the empty document, they still are after any updates
    handled one after the other. *)
Theorem served_words_stay_normal deliveries w :
  words_normal w ->
  words_normal (serve mention_html py_int OWNER_ID deliveries w).
Proof.
  apply serve_invariant. intros h upd ctx w0. apply handle_keeps_normal.
Qed.


(** X9. The document in memory never runs ahead of the file: after any
    updates handled one after the other, the store is the document of the
    last [json.dump] made, or the store of the beginning when nothing was
    dumped.  So every handler that changes the store saves it, also on the
    paths where a reply fails afterwards.  (Whether the dump reaches the
    disk is not part of the statement: [save_store] logs a failed write and
    goes on.) *)
Theorem served_store_is_written deliveries w :
  written (serve_trace mention_html py_int OWNER_ID deliveries w) (STORE w)
  = STORE (serve mention_html py_int OWNER_ID deliveries w).
Proof.
  revert w. induction deliveries as [|[[h upd] ctx] rest IH]; intros w; cbn;
    [reflexivity|].
  rewrite written_app, handle_written. apply IH.
Qed.

(** *** Who may do what *)

(** X10. A handler whose opening test the sender does not pass stops at
    that test: the admin commands sent by a member who is not an
    administrator or creator (or whose membership cannot be looked up), and
    the owner commands sent by anyone but the owner, leave both globals as
    they are, send no answer, restrict nobody, delete nothing and write no
    file.  The one request an admin command has made by then is the
    [get_chat_member] lookup of [is_admin], which the trace does not
    record; an owner command has made none. *)
Theorem unauthorized_has_no_effect h upd ctx w :
  passes OWNER_ID h upd ctx = false ->
  handle mention_html py_int OWNER_ID h upd ctx w = (w, [], Returned tt).
Proof.
  unfold passes. destruct h; cbn [guard]; intros H; try discriminate;
    cbn [handle];
    unfold warn, delwarn, mute, unmute, addword, removeword, setwelcometext,
      setmedia, setchannellink, clearwelcome, blacklist_cmd, unblacklist,
      blacklisted;
    rewrite H; reflexivity.
Qed.

(** X26. The global blacklist changes through [/blacklist] and
    [/unblacklist] only: every other handler, whoever sends the update and
    whatever it holds, leaves both the set [GLOBAL_BLACKLIST] and the list
    ["blacklist"] of the document as they were. *)
Theorem blacklist_changes_by_owner_commands_only h upd ctx w :
  h <> h_blacklist -> h <> h_unblacklist ->
  GLOBAL_BLACKLIST (handle mention_html py_int OWNER_ID h upd ctx w).1.1
  = GLOBAL_BLACKLIST w
  /\ blacklist (STORE (handle mention_html py_int OWNER_ID h upd ctx w).1.1)
     = blacklist (STORE w).
Proof.
  intros H1 H2. by_handler h upd ctx w; cbn; first [congruence | auto].
Qed.

(** X27. The handlers that only look: [/warns], [/mute], [/unmute],
    [/blacklisted], the two handlers of joins and [message_filter] leave the
    document and the blacklist exactly as they were, on every path,
    including those on which a call fails and the handler raises. *)
Theorem read_only_handlers_change_nothing h upd ctx w :
  read_only h = true ->
  (handle mention_html py_int OWNER_ID h upd ctx w).1.1 = w.
Proof.
  intros H. by_handler h upd ctx w; cbn; first [discriminate | reflexivity].
Qed.

(** *** One chat does not reach into another *)

Lemma str_ne (a b : Z) : a <> b -> Py.str b <> Py.str a.
Proof. intros Hne H. apply Hne. symmetry. eapply (inj pretty), H. Qed.

Lemma key_other_chat chat chat' uid uid' :
  chat <> chat' -> warn_key chat' uid' <> warn_key chat uid.
Proof. intros Hne H. apply warn_key_inj in H as [H _]. auto. Qed.

(** X11. A handler run for an update of one chat leaves every other chat as
    it was: its welcome configuration, its banned words and the warn counts
    of all its users.  The keys ["<chat>"] and ["<chat>:<user>"] under which
    the document files them never coincide for two different chats. *)
Theorem handlers_keep_to_their_chat h upd ctx w chat :
  chat <> effective_chat_id upd ->
  cfg_of (handle mention_html py_int OWNER_ID h upd ctx w).1.1 chat
  = cfg_of w chat
  /\ words_of (handle mention_html py_int OWNER_ID h upd ctx w).1.1 chat
     = words_of w chat
  /\ forall uid,
       count_of (handle mention_html py_int OWNER_ID h upd ctx w).1.1 chat uid
       = count_of w chat uid.
Proof.
  intros Hne. pose proof (str_ne _ _ Hne) as Hs.
  unfold cfg_of, words_of, count_of.
  by_handler h upd ctx w; cbn;
    repeat first [ rewrite (lookup_insert_ne _ _ _ _ Hs)
                 | rewrite (lookup_delete_ne _ _ _ Hs) ];
    (split; [reflexivity|]; split; [reflexivity|]; intros uid);
    repeat first
      [ rewrite lookup_insert_ne by (apply key_other_chat; exact Hne)
      | rewrite lookup_delete_ne by (apply key_other_chat; exact Hne) ];
    reflexivity.
Qed.

(** *** Banned words *)

Lemma list_remove_gone x l : NoDup l -> x ∉ list_remove x l.
Proof.
  induction l as [|z l IH]; cbn; [intros _; apply not_elem_of_nil|].
  intros Hnd. apply NoDup_cons in Hnd as [Hz Hnd].
  destruct (String.eqb_spec x z) as [->|Hxz]; [exact Hz|].
  intros Hin. apply elem_of_cons in Hin as [E|Hin]; [congruence|].
  exact (IH Hnd Hin).
Qed.

(** X7. After [/removeword] by an administrator the word is no longer in
    the chat's list, provided the list held no word twice, which is what the
    handlers guarantee: [list.remove] takes out one occurrence only. *)
Theorem removeword_unbans upd ctx w :
  NoDup (words_of w (effective_chat_id upd)) ->
  is_admin ctx (effective_chat_id upd) (id (effective_user upd)) = true ->
  args ctx <> [] ->
  Py.lower (Py.join " " (args ctx))
  ∉ words_of (removeword upd ctx w).1.1 (effective_chat_id upd).
Proof.
  intros Hnd Hadm Hargs. unfold words_of in *.
  unfold removeword. rewrite Hadm. cbn [negb].
  destruct (args ctx) as [|a l] eqn:Ea; [congruence|]. rewrite <- Ea.
  generalize (Py.lower (Py.join " " (args ctx))). intros word.
  rewrite (bind_world _ _ _ w [] (STORE w)) by reflexivity.
  destruct (banned_words (STORE w) !! Py.str (effective_chat_id upd))
    as [old|] eqn:E; cbn [default] in *.
  - destruct (bool_decide (word ∈ old)) eqn:Hin.
    + rewrite (bind_world _ _ _ _ [] tt) by reflexivity.
      rewrite (bind_world _ _ _ _ _ _ (save_store_run _)).
      rewrite reply_world. cbn. rewrite lookup_insert_eq. cbn.
      apply list_remove_gone, Hnd.
    + rewrite reply_world. rewrite E. cbn.
      apply bool_decide_eq_false_1 in Hin. exact Hin.
  - rewrite reply_world. rewrite E. apply not_elem_of_nil.
Qed.

(** X12. [message_filter] never raises and changes neither global: all it
    can do is delete the message, once.  A failed deletion is swallowed, and
    for a sender that is a bot or globally blacklisted nothing is deleted,
    whatever the text holds. *)
Theorem message_filter_is_harmless upd ctx w :
  exists t,
    message_filter upd ctx w = (w, t, Returned tt)
    /\ (t = [] \/ t = [delete_message])
    /\ (is_bot (effective_user upd) = true
        \/ id (effective_user upd) ∈ GLOBAL_BLACKLIST w -> t = []).
Proof using Type.
  unfold message_filter.
  destruct (message upd) as [m|]; [|exists []; auto].
  destruct (text m) as [body|]; [|exists []; auto].
  destruct (Py.truthy body); [|exists []; auto].
  open_handler.
  destruct (bool_decide (id (effective_user upd) ∈ GLOBAL_BLACKLIST w)) eqn:Hb.
  { rewrite orb_true_r. exists []. auto. }
  apply bool_decide_eq_false_1 in Hb.
  destruct (is_bot (effective_user upd)); cbn [orb]; [exists []; auto|].
  destruct (existsb _ _); cbn.
  - exists [delete_message]. destruct (delivers _ _); cbn.
    + split; [reflexivity|]. split; [auto|]. intros [?|?]; [discriminate|contradiction].
    + split; [reflexivity|]. split; [auto|]. intros [?|?]; [discriminate|contradiction].
  - exists []. auto.
Qed.

(** X13. A word banned with [/addword] counts from then on and whatever
    its case: after the command of an administrator, [message_filter] run on
    a message of that chat whose text contains the word, in any mix of upper
    and lower case, deletes the message, unless the sender is a bot or
    globally blacklisted. *)
Theorem banned_word_gets_deleted upd ctx w upd' ctx' msg body :
  is_admin ctx (effective_chat_id upd) (id (effective_user upd)) = true ->
  args ctx <> [] ->
  effective_chat_id upd' = effective_chat_id upd ->
  message upd' = Some msg ->
  text msg = Some body ->
  body <> "" ->
  is_bot (effective_user upd') = false ->
  id (effective_user upd') ∉ GLOBAL_BLACKLIST w ->
  Py.contains (Py.lower (Py.join " " (args ctx))) (Py.lower body) = true ->
  message_filter upd' ctx' (addword upd ctx w).1.1
  = ((addword upd ctx w).1.1, [delete_message], Returned tt).
Proof.
  intros Hadm Hargs Hchat Hmsg Htext Hbody Hbot Hbl Hin.
  pose proof (addword_world upd ctx w Hadm Hargs) as Hw. cbv zeta in Hw.
  assert (Hs : GLOBAL_BLACKLIST (addword upd ctx w).1.1 = GLOBAL_BLACKLIST w).
  { open_handler. repeat case_match; simplify_eq; reflexivity. }
  set (w' := (addword upd ctx w).1.1) in *.
  unfold message_filter. rewrite Hmsg, Htext.
  destruct body as [|c body]; [congruence|]. cbn [Py.truthy].
  unfold is_globally_blacklisted.
  rewrite (bind_run _ _ _ w' []
             (bool_decide (id (effective_user upd') ∈ GLOBAL_BLACKLIST w')))
    by reflexivity.
  rewrite Hs, (bool_decide_eq_false_2 _ Hbl), Hbot. cbn [orb app].
  rewrite (bind_run _ _ _ _ _ _ (has_banned_word_run w' _ _)).
  rewrite Hchat, Hw.
  assert (Hex : existsb
                  (fun x => Py.contains (Py.lower x) (Py.lower (String c body)))
                  (if bool_decide (Py.lower (Py.join " " (args ctx))
                                   ∈ words_of w (effective_chat_id upd))
                   then words_of w (effective_chat_id upd)
                   else words_of w (effective_chat_id upd)
                        ++ [Py.lower (Py.join " " (args ctx))]) = true).
  { apply existsb_exists. exists (Py.lower (Py.join " " (args ctx))).
    rewrite PyFacts.lower_idemp. split; [|exact Hin].
    apply list_elem_of_In.
    destruct (bool_decide _) eqn:Hd.
    - apply bool_decide_eq_true_1 in Hd. exact Hd.
    - apply elem_of_app. right. apply list_elem_of_singleton. reflexivity. }
  rewrite Hex. unfold try_pass. rewrite call_cases. reflexivity.
Qed.

(** *** Welcome system *)

(** X14. After [/clearwelcome] by an administrator the chat greets nobody:
    neither handler of joins sends anything for that chat, whoever joins and
    however many at once, until a text is set again. *)
Theorem clearwelcome_silences_joins upd ctx w upd' ctx' :
  is_admin ctx (effective_chat_id upd) (id (effective_user upd)) = true ->
  effective_chat_id upd' = effective_chat_id upd ->
  legacy_welcome mention_html upd' ctx' (clearwelcome upd ctx w).1.1
  = ((clearwelcome upd ctx w).1.1, [], Returned tt)
  /\ welcome_new_member mention_html upd' ctx' (clearwelcome upd ctx w).1.1
     = ((clearwelcome upd ctx w).1.1, [], Returned tt).
Proof.
  intros Hadm Hchat.
  assert (Hnone : welcomes (STORE (clearwelcome upd ctx w).1.1)
                    !! Py.str (effective_chat_id upd') = None).
  { rewrite Hchat. unfold clearwelcome. rewrite Hadm. cbn [negb].
    open_handler. repeat case_match; simplify_eq; cbn; apply lookup_delete_eq. }
  set (w' := (clearwelcome upd ctx w).1.1) in *.
  assert (Hsend : forall members,
            _send_welcome mention_html upd' ctx' members w'
            = (w', [], Returned tt)).
  { intros members. unfold _send_welcome.
    rewrite (bind_run _ _ _ w' [] (STORE w')) by reflexivity.
    rewrite Hnone. reflexivity. }
  split.
  - unfold legacy_welcome. destruct (message upd') as [m|]; [|reflexivity].
    destruct (new_chat_members m); [reflexivity | apply Hsend].
  - unfold welcome_new_member.
    destruct (chat_member upd') as [cmu|]; [|reflexivity].
    destruct (_ || _); [reflexivity|].
    unfold is_globally_blacklisted.
    rewrite (bind_run _ _ _ w' []
               (bool_decide (id (cmu_from_user cmu) ∈ GLOBAL_BLACKLIST w')))
      by reflexivity.
    destruct (_ || _); [reflexivity|]. cbn [app]. rewrite Hsend. reflexivity.
Qed.

(** *** Owner commands *)

(** X15. [/blacklist] by the owner puts the target into the global
    blacklist and [/unblacklist] takes the target out of it, in both cases
    also when the answer cannot be delivered; nobody else's entry changes.
    So [/unblacklist] after [/blacklist] restores the set for a target that
    was not in it. *)
Theorem owner_blacklist_commands upd ctx w u :
  id (effective_user upd) = OWNER_ID ->
  get_target_user py_int upd ctx = Returned (Some u) ->
  GLOBAL_BLACKLIST (blacklist_cmd py_int OWNER_ID upd ctx w).1.1
  = {[id u]} ∪ GLOBAL_BLACKLIST w
  /\ GLOBAL_BLACKLIST (unblacklist py_int OWNER_ID upd ctx w).1.1
     = GLOBAL_BLACKLIST w ∖ {[id u]}
  /\ (id u ∉ GLOBAL_BLACKLIST w ->
      GLOBAL_BLACKLIST
        (unblacklist py_int OWNER_ID upd ctx
           (blacklist_cmd py_int OWNER_ID upd ctx w).1.1).1.1
      = GLOBAL_BLACKLIST w).
Proof using Type.
  intros Hown Htarget.
  assert (Hb : forall w0,
            GLOBAL_BLACKLIST (blacklist_cmd py_int OWNER_ID upd ctx w0).1.1
            = {[id u]} ∪ GLOBAL_BLACKLIST w0).
  { intros w0. unfold blacklist_cmd. rewrite Hown, Z.eqb_refl, Htarget.
    cbn [negb]. open_handler.
    destruct (bool_decide (id u ∈ GLOBAL_BLACKLIST w0)) eqn:Hin.
    - apply bool_decide_eq_true_1 in Hin.
      assert (Hsame : GLOBAL_BLACKLIST w0 = {[id u]} ∪ GLOBAL_BLACKLIST w0).
      { apply set_eq. intros x. rewrite elem_of_union, elem_of_singleton.
        split; [auto | intros [-> | Hx]; auto]. }
      repeat case_match; simplify_eq; exact Hsame.
    - repeat case_match; simplify_eq; reflexivity. }
  assert (Hu : forall w0,
            GLOBAL_BLACKLIST (unblacklist py_int OWNER_ID upd ctx w0).1.1
            = GLOBAL_BLACKLIST w0 ∖ {[id u]}).
  { intros w0. unfold unblacklist. rewrite Hown, Z.eqb_refl, Htarget.
    cbn [negb]. open_handler.
    destruct (bool_decide (id u ∈ GLOBAL_BLACKLIST w0)) eqn:Hin.
    - repeat case_match; simplify_eq; reflexivity.
    - apply bool_decide_eq_false_1 in Hin. cbn.
      apply set_eq. intros x. rewrite elem_of_difference, elem_of_singleton.
      split; [|intros [Hx _]; exact Hx].
      intros Hx. split; [exact Hx|]. intros ->. auto. }
  split; [apply Hb|]. split; [apply Hu|].
  intros Hnew. rewrite Hu, Hb.
  apply set_eq. intros x.
  rewrite elem_of_difference, elem_of_union, elem_of_singleton.
  split; [intros [[Hx | Hx] Hne]; [contradiction | exact Hx]|].
  intros Hx. split; [auto|]. intros ->. auto.
Qed.

(** *** Mute *)

(** X16. [/mute] with a well-formed duration restricts the target until the
    clock reading plus the number times its unit (seconds, minutes, hours or
    days; hours without a unit), the unit in either case and anything after
    it ignored, as long as the number is at most 999999999 and the date
    stays below 2^33 seconds (year 2242), where the float of [timestamp()]
    is still exact to the second. *)
Theorem mute_until_date now upd ctx w u g1 g2 :
  is_admin ctx (effective_chat_id upd) (id (effective_user upd)) = true ->
  get_target_user py_int upd ctx = Returned (Some u) ->
  re_match_duration (Py.lower (List.last (args ctx) "1h")) = Some (g1, g2) ->
  int_of_digits 0 g1 <= 999999999 ->
  now + int_of_digits 0 g1 * unit_seconds g2 < 2 ^ 33 ->
  (forall e, delivers (bot ctx) e = true) ->
  mute py_int now upd ctx w
  = (w,
     [restrict_chat_member (effective_chat_id upd) (id u) false
        (Some (now + int_of_digits 0 g1 * unit_seconds g2));
      reply_text (first_name u +:+ " muted for " +:+ List.last (args ctx) "1h")],
     Returned tt).
Proof.
  intros Hadm Htarget Hm Hnum Hnear Hd.
  assert (Hdate : now + int_of_digits 0 g1 * unit_seconds g2 <= datetime_max).
  { unfold datetime_max. change (2 ^ 33) with 8589934592 in Hnear. lia. }
  destruct (target_has_message _ _ _ _ Htarget) as [m Em].
  unfold mute. rewrite Hadm, Htarget. cbn [negb].
  rewrite (parse_duration_units _ _ _ Hm Hnum).
  open_handler. unfold timestamp_after.
  rewrite (proj2 (Z.leb_le _ _) Hdate).
  cbn [fst snd app]. rewrite Em, !Hd. reflexivity.
Qed.

(** *** Several members at once *)

Lemma for_each_app {A} (l1 l2 : list A) (body : A -> M unit) w :
  (forall x w0, exists t, body x w0 = (w0, t, Returned tt)) ->
  for_each (l1 ++ l2) body w
  = (w, (for_each l1 body w).1.2 ++ (for_each l2 body w).1.2, Returned tt).
Proof.
  intros Hbody. induction l1 as [|x l1 IH]; cbn [for_each app].
  - assert (H2 : exists t, for_each l2 body w = (w, t, Returned tt)).
    { clear -Hbody. induction l2 as [|y l2 IH]; cbn [for_each];
        [eexists; reflexivity|].
      destruct (Hbody y w) as [t1 H1]. destruct IH as [t2 H2].
      rewrite (bind_run _ _ _ _ _ _ H1), H2. eauto. }
    destruct H2 as [t2 H2]. rewrite H2. reflexivity.
  - destruct (Hbody x w) as [t1 H1].
    rewrite !(bind_run _ _ _ _ _ _ H1), IH. cbn.
    destruct (for_each l1 body w) as [[w1 t] r]. cbn.
    rewrite app_assoc. reflexivity.
Qed.

(** X17. When several members join at once, each of them is greeted as if
    alone, in the order of the list: what [_send_welcome] does for a list is
    what it does for the first part followed by what it does for the rest.
    A send that fails is logged and the members after it are still greeted. *)
Theorem send_welcome_member_by_member upd ctx members1 members2 w :
  _send_welcome mention_html upd ctx (members1 ++ members2) w
  = (w,
     (_send_welcome mention_html upd ctx members1 w).1.2
     ++ (_send_welcome mention_html upd ctx members2 w).1.2,
     Returned tt).
Proof.
  unfold _send_welcome.
  rewrite !(bind_run _ _ _ w [] (STORE w)) by reflexivity.
  destruct (get_truthy _) as [template|]; [|reflexivity].
  cbn [app]. rewrite for_each_app.
  - destruct (for_each members1 _ w) as [[w1 t1] r1].
    destruct (for_each members2 _ w) as [[w2 t2] r2]. reflexivity.
  - intros x w0. apply try_log_send_one_run.
Qed.

End Service.

(** ** More on the AI request gate *)

Module AiGateRuns.
Import AiGate AiGateFacts.

Lemma run_app s1 s2 σ : run (s1 ++ s2) σ = run s2 (run s1 σ).
Proof.
  revert σ. induction s1 as [|[tid clock] s1 IH]; intros σ; cbn;
    [reflexivity | apply IH].
Qed.

(** The task at a position is a call of the user at that position. *)
Lemma task_user users attr0 schedule i t :
  tasks (run schedule (spawn users attr0)) !! i = Some t ->
  users !! i = Some (user_id t).
Proof.
  intros Ht.
  pose proof (run_users schedule (spawn users attr0)) as Hu.
  apply (f_equal (fun l => l !! i)) in Hu.
  rewrite !list_lookup_fmap, Ht in Hu. cbn in Hu.
  rewrite list_lookup_fmap in Hu.
  destruct (users !! i) as [u|]; cbn in Hu; congruence.
Qed.

Lemma user_task users attr0 schedule i u :
  users !! i = Some u ->
  exists t, tasks (run schedule (spawn users attr0)) !! i = Some t
            /\ user_id t = u.
Proof.
  intros Hu.
  pose proof (run_users schedule (spawn users attr0)) as Hus.
  apply (f_equal (fun l => l !! i)) in Hus.
  rewrite !list_lookup_fmap in Hus. cbn in Hus.
  rewrite list_lookup_fmap, Hu in Hus. cbn in Hus.
  destruct (tasks (run schedule (spawn users attr0)) !! i) as [t|];
    cbn in Hus; [|discriminate].
  exists t. split; [reflexivity | congruence].
Qed.


(** X19. The gate cannot get stuck: whatever has happened so far, with any
    number of calls in flight and whichever of them hold locks, the schedule
    can be continued so that every call returns. *)
Theorem calls_can_always_finish users attr0 schedule :
  exists rest, forall i u,
    users !! i = Some u ->
    exists n r,
      returned (run (schedule ++ rest) (spawn users attr0)) i = Some (n, r).
Proof.
  pose proof (Inv_run attr0 schedule _ (Inv_spawn users attr0)) as HI.
  destruct (all_return attr0 _ HI) as [rest Hdone].
  exists rest. intros i u Hu.
  destruct (user_task users attr0 (schedule ++ rest) i u Hu) as (t & Et & _).
  pose proof Et as Et'. rewrite run_app in Et'.
  destruct (Hdone i t Et') as (n & r & Hp).
  exists n, r. unfold returned. rewrite Et. cbn. rewrite Hp. reflexivity.
Qed.

(** X20. A call is refused only for a reason: when a call of a user returns
    false, that user had a granted call, or a record from before the calls
    started, whose clock reading is less than a cooldown before the reading
    of the refused call.  So the only call of a user without a record is
    granted, whatever the other users do. *)
Theorem refusal_has_a_cause users attr0 schedule i u n r :
  users !! i = Some u ->
  returned (run schedule (spawn users attr0)) i = Some (n, r) ->
  (r = false ->
   exists L, n - L < cooldown_us
     /\ (read_last attr0 u = Some L
         \/ exists j tj,
              tasks (run schedule (spawn users attr0)) !! j = Some tj
              /\ users !! j = Some u /\ grant (pc tj) = Some L))
  /\ (read_last attr0 u = None ->
      (forall j, users !! j = Some u -> j = i) ->
      r = true).
Proof.
  intros Hu R.
  pose proof (Inv_run attr0 schedule _ (Inv_spawn users attr0)) as HI.
  apply returned_task in R as (t & Et & Pt).
  pose proof (task_user _ _ _ _ _ Et) as Ut.
  assert (Eu : user_id t = u) by congruence.
  assert (Hcause : r = false ->
            exists L, n - L < cooldown_us
              /\ (read_last attr0 u = Some L
                  \/ exists j tj,
                       tasks (run schedule (spawn users attr0)) !! j = Some tj
                       /\ users !! j = Some u /\ grant (pc tj) = Some L)).
  { intros ->.
    destruct (inv_denial _ _ HI i t n Et) as (L & HL & Hsrc).
    { rewrite Pt. reflexivity. }
    exists L. split; [exact HL|].
    destruct Hsrc as [H0 | (j & tj & Ej & Uj & Gj)].
    - left. congruence.
    - right. exists j, tj. split; [exact Ej|]. split; [|exact Gj].
      rewrite (task_user _ _ _ _ _ Ej). congruence. }
  split; [exact Hcause|].
  intros Hnone Honly. destruct r; [reflexivity|].
  destruct (Hcause eq_refl) as (L & _ & [H0 | (j & tj & Ej & Uj & Gj)]).
  - congruence.
  - apply Honly in Uj. subst j.
    rewrite Et in Ej. injection Ej as <-. rewrite Pt in Gj. discriminate.
Qed.

End AiGateRuns.

(** ** More on [load_store] *)

Lemma setdefault_present d k v :
  is_Some (dict_get d k) -> dict_setdefault d k v = d.
Proof. intros [x E]. unfold dict_setdefault. rewrite E. reflexivity. Qed.

Lemma merge_defaults_extends data defaults :
  exists extra,
    merge_defaults data defaults = data ++ extra
    /\ forall kv, kv ∈ extra -> kv ∈ defaults.
Proof.
  unfold merge_defaults. revert data.
  induction defaults as [|[k v] defaults IH]; intros data; cbn.
  - exists []. rewrite app_nil_r. split; [reflexivity|]. intros kv H. exact H.
  - destruct (IH (dict_setdefault data k v)) as (extra & -> & Hsub).
    unfold dict_setdefault. destruct (dict_get data k).
    + exists extra. split; [reflexivity|].
      intros kv H. right. apply Hsub, H.
    + exists ((k, v) :: extra). rewrite <- app_assoc. split; [reflexivity|].
      intros kv H. apply elem_of_cons in H as [-> | H]; [left|].
      right. apply Hsub, H.
Qed.

Lemma merge_defaults_present data defaults :
  (forall k v, (k, v) ∈ defaults -> is_Some (dict_get data k)) ->
  merge_defaults data defaults = data.
Proof.
  unfold merge_defaults.
  induction defaults as [|[k v] defaults IH]; intros H; cbn; [reflexivity|].
  rewrite setdefault_present by (eapply H; left).
  apply IH. intros k' v' Hin. eapply H. right. exact Hin.
Qed.

(** X21. Loading is idempotent and keeps the file's own fields in front:
    what [load_store] returns, written out and loaded again, comes back
    unchanged; and for a file that holds an object, the result is the
    object's fields in their order, followed by defaults only. *)
Theorem load_store_idempotent (file : Snapshot) :
  load_store (Parsed (load_store file)) = load_store file
  /\ (forall data, file = Parsed (JObj data) ->
      exists extra,
        load_store file = JObj (data ++ extra)
        /\ forall k v, (k, v) ∈ extra -> dict_get default_fields k = Some v).
Proof.
  split.
  - assert (Hd : load_store (Parsed (JObj default_fields)) = JObj default_fields)
      by reflexivity.
    destruct file as [| |data]; try exact Hd.
    destruct data as [| | | | |data]; try exact Hd.
    cbn [load_store]. f_equal. apply merge_defaults_present.
    intros k v Hin. rewrite dict_get_merge.
    destruct (dict_get data k); [eauto|].
    repeat (apply elem_of_cons in Hin as [[= -> ->]|Hin]); cbn; eauto.
    inversion Hin.
  - intros data ->. cbn [load_store].
    destruct (merge_defaults_extends data default_fields) as (extra & E & Hsub).
    exists extra. split; [rewrite E; reflexivity|].
    intros k v Hin. apply Hsub in Hin.
    repeat (apply elem_of_cons in Hin as [[= -> ->]|Hin]);
      try reflexivity; inversion Hin.
Qed.

(** ** AI commands *)

Section AiCommands.

Context (call_ai : string -> string)
        (accepts : AiEvent -> bool).

Lemma can_use_ai_refused now last u attr :
  AiGate.read_last attr u = Some last ->
  now - last < AiGate.cooldown_us ->
  can_use_ai now u attr = (false, attr).
Proof.
  intros Hl Hnear. unfold can_use_ai. rewrite Hl.
  destruct (AiGate.may_pass now (Some last)) eqn:E; [|reflexivity].
  apply AiGateFacts.may_pass_some in E. lia.
Qed.

Lemma can_use_ai_granted now u attr :
  AiGate.may_pass now (AiGate.read_last attr u) = true ->
  can_use_ai now u attr = (true, Some (<[u := now]> (default ∅ attr)))
  /\ AiGate.read_last (Some (<[u := now]> (default ∅ attr))) u = Some now.
Proof.
  intros H. unfold can_use_ai. rewrite H. split; [reflexivity|].
  unfold AiGate.read_last. cbn. apply lookup_insert_eq.
Qed.

(** X22. A globally blacklisted user gets nothing out of the AI commands and
    leaves no mark on the rate limit: [/ask] answers ["Access denied."] at
    most, [mention_ai] stays silent, neither asks the model, and the record
    of last uses is as before. *)
Theorem blacklisted_users_get_no_ai (u : User) (w : World) now attr :
  id u ∈ GLOBAL_BLACKLIST w ->
  (forall upd em ctx,
     effective_user upd = u ->
     exists t r,
       ask call_ai accepts now upd em ctx w attr = (attr, t, r)
       /\ (t = [] \/ t = [ai_reply_text "Access denied." None]))
  /\ (forall msg,
        em_from_user msg = Some u ->
        mention_ai call_ai accepts now (Some msg) w attr
        = (attr, [], Returned tt)).
Proof.
  intros Hbl. split.
  - intros upd em ctx Hu. unfold ask. rewrite Hu.
    rewrite bool_decide_eq_true_2 by exact Hbl.
    destruct (message upd); [|eauto].
    unfold finish. cbn. destruct (accepts _); eauto.
  - intros msg Hfrom. unfold mention_ai. rewrite Hfrom.
    destruct (em_text msg) as [body|]; [|reflexivity].
    destruct (negb (Py.truthy body)); [reflexivity|].
    destruct (is_bot u); [reflexivity|].
    rewrite bool_decide_eq_true_2 by exact Hbl. reflexivity.
Qed.

(** X23. Every text message takes the sender's slot, addressed to the bot
    or not: [mention_ai] asks [can_use_ai] before it looks at the text, so
    after any non-empty text message of a user who is let through, the record
    holds the time of that message.  For less than a cooldown from then on,
    neither a mention nor [/ask] of that user gets an answer, or any reply at
    all. *)
Theorem every_message_takes_the_slot (u : User) (w : World) now attr msg body :
  em_text msg = Some body ->
  body <> "" ->
  em_from_user msg = Some u ->
  is_bot u = false ->
  id u ∉ GLOBAL_BLACKLIST w ->
  AiGate.may_pass now (AiGate.read_last attr (id u)) = true ->
  AiGate.read_last (mention_ai call_ai accepts now (Some msg) w attr).1.1 (id u)
  = Some now
  /\ forall now',
       now' - now < AiGate.cooldown_us ->
       (forall msg',
          em_from_user msg' = Some u ->
          mention_ai call_ai accepts now' (Some msg') w
            (mention_ai call_ai accepts now (Some msg) w attr).1.1
          = ((mention_ai call_ai accepts now (Some msg) w attr).1.1, [],
             Returned tt))
       /\ (forall upd em ctx,
             effective_user upd = u ->
             ask call_ai accepts now' upd em ctx w
               (mention_ai call_ai accepts now (Some msg) w attr).1.1
             = ((mention_ai call_ai accepts now (Some msg) w attr).1.1, [],
                Returned tt)).
Proof.
  intros Htext Hbody Hfrom Hbot Hbl Hpass.
  destruct (can_use_ai_granted now (id u) attr Hpass) as [Hg Hread].
  assert (Hattr : (mention_ai call_ai accepts now (Some msg) w attr).1.1
                  = Some (<[id u := now]> (default ∅ attr))).
  { unfold mention_ai. rewrite Htext, Hfrom, Hbot.
    destruct body as [|c body]; [congruence|]. cbn [Py.truthy negb].
    rewrite bool_decide_eq_false_2 by exact Hbl. rewrite Hg. cbn [negb].
    destruct (negb (addressed _)); [reflexivity|].
    destruct (negb (Py.truthy _)); [reflexivity|].
    unfold finish. destruct (awaited _ _) as [t r]. reflexivity. }
  rewrite Hattr. split; [exact Hread|].
  intros now' Hnear.
  pose proof (can_use_ai_refused now' now (id u) _ Hread Hnear) as Hr.
  split.
  - intros msg' Hfrom'. unfold mention_ai. rewrite Hfrom', Hbot.
    destruct (em_text msg') as [body'|]; [|reflexivity].
    destruct (negb (Py.truthy body')); [reflexivity|].
    rewrite bool_decide_eq_false_2 by exact Hbl. rewrite Hr. reflexivity.
  - intros upd em ctx Hu. unfold ask. rewrite Hu.
    rewrite bool_decide_eq_false_2 by exact Hbl. rewrite Hr. reflexivity.
Qed.

End AiCommands.

Lemma run_step tid clock rest σ σ' :
  AiGate.step tid clock σ = Some σ' ->
  AiGate.run ((tid, clock) :: rest) σ = AiGate.run rest σ'.
Proof. intros H. cbn. rewrite H. reflexivity. Qed.

Lemma step_goto tid clock σ u p p' h a :
  AiGate.tasks σ !! tid = Some (AiGate.mkTask u p) ->
  AiGate.moves u clock p (AiGate.held σ) (AiGate.last_used σ) p' h a ->
  AiGate.step tid clock σ
  = Some (AiGate.mkSys (<[tid := AiGate.mkTask u p']> (AiGate.tasks σ)) h a)
  /\ <[tid := AiGate.mkTask u p']> (AiGate.tasks σ) !! tid
     = Some (AiGate.mkTask u p').
Proof.
  intros Ht Hm. split.
  - unfold AiGate.step. rewrite Ht. cbn [AiGate.pc AiGate.user_id].
    destruct Hm; try reflexivity.
    + rewrite bool_decide_eq_false_2 by assumption. reflexivity.
    + match goal with E : AiGate.may_pass _ _ = _ |- _ => rewrite E end.
      reflexivity.
    + match goal with E : AiGate.may_pass _ _ = _ |- _ => rewrite E end.
      reflexivity.
  - apply list_lookup_insert_eq. eapply lookup_lt_Some, Ht.
Qed.

(** The next step of the call [tid], by the move [Hm]; [T] is the task's
    entry before and after. *)
Ltac next_step T Hm :=
  match goal with
  | |- context [AiGate.run (_ :: _) ?s] =>
      let E := fresh "E" in
      let T' := fresh "T" in
      destruct (step_goto _ _ s _ _ _ _ _ T (Hm _ _)) as [E T'];
      cbn [AiGate.tasks AiGate.held AiGate.last_used] in E, T';
      rewrite (run_step _ _ _ _ _ E); clear E T; rename T' into T
  end.

(** X24. [can_use_ai] as the commands above take it is the gate of the
    interleaving model run without interruption: from any state in which a
    call has not started and the lock of its user is free, letting that call
    make its five steps in a row returns the same answer, leaves the same
    record of last uses, and gives the lock back. *)
Theorem can_use_ai_uninterrupted σ tid u now :
  AiGate.tasks σ !! tid = Some (AiGate.mkTask u AiGate.Start) ->
  u ∉ AiGate.held σ ->
  AiGate.returned (AiGate.run (uninterrupted tid now) σ) tid
  = Some (now, (can_use_ai now u (AiGate.last_used σ)).1)
  /\ AiGate.last_used (AiGate.run (uninterrupted tid now) σ)
     = (can_use_ai now u (AiGate.last_used σ)).2
  /\ AiGate.held (AiGate.run (uninterrupted tid now) σ) = AiGate.held σ.
Proof.
  intros Ht Hfree.
  assert (Hheld : ({[u]} ∪ AiGate.held σ) ∖ {[u]} = AiGate.held σ).
  { apply set_eq. intros x.
    rewrite elem_of_difference, elem_of_union, elem_of_singleton.
    split; [tauto|]. intros Hx. split; [auto|]. intros ->. auto. }
  unfold uninterrupted, can_use_ai.
  destruct (step_goto tid now σ u _ _ _ _ Ht
              (AiGate.move_acquire u now _ _ Hfree)) as [E T].
  rewrite (run_step _ _ _ _ _ E). clear E.
  next_step T (AiGate.move_now u now).
  next_step T (AiGate.move_last u now now).
  destruct (AiGate.may_pass now (AiGate.read_last (AiGate.last_used σ) u))
    eqn:Hp.
  - next_step T (fun h a => AiGate.move_grant u now now _ h a Hp).
    next_step T (AiGate.move_release u now now true).
    cbn [AiGate.run]. unfold AiGate.returned. cbn [AiGate.tasks].
    rewrite T. cbn. rewrite Hheld. auto.
  - next_step T (fun h a => AiGate.move_deny u now now _ h a Hp).
    next_step T (AiGate.move_release u now now false).
    cbn [AiGate.run]. unfold AiGate.returned. cbn [AiGate.tasks].
    rewrite T. cbn. rewrite Hheld. auto.
Qed.

(** ** The registrations of [main] *)

(** X25. With the registrations in the order [main] makes them,
    [message_filter] is never handed an update: it is registered with the
    same filter as [mention_ai], after it and in the same group, and the
    first handler of a group that accepts an update is the only one to get
    it.  Whatever the filters accept, an update goes to [message_filter] in
    no case, and a text message that is no command goes to [mention_ai]. *)
Theorem message_filter_is_shadowed
    {U : Type} (accepted : Filter -> U -> bool) (update : U) :
  dispatch accepted registered update <> Some cb_message_filter
  /\ (accepted on_text_not_command update = true ->
      (forall name, accepted (on_command name) update = false) ->
      dispatch accepted registered update = Some cb_mention_ai).
Proof.
  split.
  - unfold dispatch, registered. cbn [List.find fst].
    repeat (match goal with
            | |- context [if accepted ?f update then _ else _] =>
                destruct (accepted f update) eqn:?
            end; cbn [fmap option_fmap option_map snd];
            try discriminate).
    all: congruence.
  - intros Htext Hcmd. unfold dispatch, registered. cbn [List.find fst].
    rewrite !Hcmd, Htext. reflexivity.
Qed.

(** ** The further properties at concrete inputs *)

Lemma words_normal_fresh : words_normal fresh.
Proof. intros chat l H. cbn in H. rewrite lookup_empty in H. discriminate. Qed.


Lemma ledger_pairs_independent_witness :
  (5, 7) <> (5, 8)
  /\ count_of (add_warn 5 7 fresh).1.1 5 8 = count_of fresh 5 8.
Proof.
  assert (H : (5, 7) <> (5, 8)) by discriminate.
  split; [exact H|].
  exact (proj1 (proj2 (ledger_pairs_independent fresh 5 7 5 8 H))).
Defined.

Lemma warn_caps_count_witness :
  is_admin (mkContext example_bot []) (effective_chat_id warn_eve)
           (id (effective_user warn_eve)) = true
  /\ get_target_user example_int warn_eve (mkContext example_bot [])
     = Returned (Some eve)
  /\ (warn example_mention example_int 1700000000 warn_eve
           (mkContext example_bot []) fresh).2 = Returned tt
  /\ count_of (warn example_mention example_int 1700000000 warn_eve
                    (mkContext example_bot []) fresh).1.1
              (effective_chat_id warn_eve) (id eve) <= 2.
Proof.
  assert (H1 : is_admin (mkContext example_bot []) (effective_chat_id warn_eve)
                        (id (effective_user warn_eve)) = true) by reflexivity.
  assert (H2 : get_target_user example_int warn_eve (mkContext example_bot [])
               = Returned (Some eve)) by reflexivity.
  assert (H3 : (warn example_mention example_int 1700000000 warn_eve
                     (mkContext example_bot []) fresh).2 = Returned tt)
    by (vm_compute; reflexivity).
  split; [exact H1|]. split; [exact H2|]. split; [exact H3|].
  exact (warn_caps_count example_mention example_int 1700000000 warn_eve
           (mkContext example_bot []) eve fresh H1 H2 H3).
Defined.

Lemma served_counts_stay_positive_witness :
  counts_positive fresh
  /\ 0 <= count_of (serve example_mention example_int 1 example_run fresh) 5 7.
Proof.
  split; [exact counts_positive_fresh|].
  exact (proj1 (proj2 (served_counts_stay_positive example_mention example_int 1
                         example_run fresh counts_positive_fresh) 5 7)).
Defined.

Lemma served_blacklist_mirrored_witness :
  blacklist_mirrored fresh
  /\ blacklist_mirrored (serve example_mention example_int 1 example_run fresh).
Proof.
  assert (H : blacklist_mirrored fresh) by reflexivity.
  split; [exact H|].
  exact (proj1 (served_blacklist_mirrored example_mention example_int 1
                  example_run fresh H)).
Defined.

Lemma served_words_stay_normal_witness :
  words_normal fresh
  /\ words_normal (serve example_mention example_int 1 example_run fresh).
Proof.
  split; [exact words_normal_fresh|].
  exact (served_words_stay_normal example_mention example_int 1 example_run
           fresh words_normal_fresh).
Defined.

Lemma removeword_unbans_witness :
  NoDup (words_of spam_banned (effective_chat_id (command 100 admin_user None)))
  /\ is_admin (mkContext example_bot ["SPAM"])
              (effective_chat_id (command 100 admin_user None))
              (id (effective_user (command 100 admin_user None))) = true
  /\ args (mkContext example_bot ["SPAM"]) <> []
  /\ (Py.lower (Py.join " " (args (mkContext example_bot ["SPAM"])))
      ∉ words_of (removeword (command 100 admin_user None)
                    (mkContext example_bot ["SPAM"]) spam_banned).1.1
                 (effective_chat_id (command 100 admin_user None))).
Proof.
  assert (H1 : NoDup (words_of spam_banned
                        (effective_chat_id (command 100 admin_user None))))
    by (vm_compute; apply NoDup_singleton).
  assert (H2 : is_admin (mkContext example_bot ["SPAM"])
                 (effective_chat_id (command 100 admin_user None))
                 (id (effective_user (command 100 admin_user None))) = true)
    by reflexivity.
  assert (H3 : args (mkContext example_bot ["SPAM"]) <> []) by discriminate.
  split; [exact H1|]. split; [exact H2|]. split; [exact H3|].
  exact (removeword_unbans (command 100 admin_user None)
           (mkContext example_bot ["SPAM"]) spam_banned H1 H2 H3).
Defined.


Lemma unauthorized_has_no_effect_witness :
  passes 1 h_addword (command 5 bob None) (mkContext example_bot ["spam"])
  = false
  /\ handle example_mention example_int 1 h_addword (command 5 bob None)
       (mkContext example_bot ["spam"]) fresh
     = (fresh, [], Returned tt).
Proof.
  assert (H : passes 1 h_addword (command 5 bob None)
                (mkContext example_bot ["spam"]) = false) by reflexivity.
  split; [exact H|].
  exact (unauthorized_has_no_effect example_mention example_int 1 h_addword
           (command 5 bob None) (mkContext example_bot ["spam"]) fresh H).
Defined.

Lemma handlers_keep_to_their_chat_witness :
  100 <> effective_chat_id (command 5 admin_user None)
  /\ words_of (handle example_mention example_int 1 h_addword
                 (command 5 admin_user None) (mkContext example_bot ["ham"])
                 spam_banned).1.1 100
     = words_of spam_banned 100.
Proof.
  assert (H : 100 <> effective_chat_id (command 5 admin_user None))
    by discriminate.
  split; [exact H|].
  exact (proj1 (proj2 (handlers_keep_to_their_chat example_mention example_int 1
                         h_addword (command 5 admin_user None)
                         (mkContext example_bot ["ham"]) spam_banned 100 H))).
Defined.

Lemma banned_word_gets_deleted_witness :
  is_admin (mkContext example_bot ["Spam"])
           (effective_chat_id (command 100 admin_user None))
           (id (effective_user (command 100 admin_user None))) = true
  /\ args (mkContext example_bot ["Spam"]) <> []
  /\ (id (effective_user (text_message 100 bob "no SPAM here"))
      ∉ GLOBAL_BLACKLIST fresh)
  /\ message_filter (text_message 100 bob "no SPAM here")
       (mkContext example_bot [])
       (addword (command 100 admin_user None)
          (mkContext example_bot ["Spam"]) fresh).1.1
     = ((addword (command 100 admin_user None)
           (mkContext example_bot ["Spam"]) fresh).1.1,
        [delete_message], Returned tt).
Proof.
  assert (H1 : is_admin (mkContext example_bot ["Spam"])
                 (effective_chat_id (command 100 admin_user None))
                 (id (effective_user (command 100 admin_user None))) = true)
    by reflexivity.
  assert (H2 : args (mkContext example_bot ["Spam"]) <> []) by discriminate.
  assert (H3 : id (effective_user (text_message 100 bob "no SPAM here"))
               ∉ GLOBAL_BLACKLIST fresh) by apply not_elem_of_empty.
  split; [exact H1|]. split; [exact H2|]. split; [exact H3|].
  exact (banned_word_gets_deleted (command 100 admin_user None)
           (mkContext example_bot ["Spam"]) fresh
           (text_message 100 bob "no SPAM here") (mkContext example_bot [])
           (mkMessage (Some "no SPAM here") None []) "no SPAM here"
           H1 H2 eq_refl eq_refl eq_refl ltac:(discriminate) eq_refl H3 eq_refl).
Defined.

Lemma clearwelcome_silences_joins_witness :
  is_admin (mkContext example_bot []) (effective_chat_id (command 5 admin_user None))
           (id (effective_user (command 5 admin_user None))) = true
  /\ effective_chat_id (members_joined 5 bob [bob; ann])
     = effective_chat_id (command 5 admin_user None)
  /\ legacy_welcome example_mention (members_joined 5 bob [bob; ann])
       (mkContext example_bot [])
       (clearwelcome (command 5 admin_user None) (mkContext example_bot [])
          welcome_bob_world).1.1
     = ((clearwelcome (command 5 admin_user None) (mkContext example_bot [])
           welcome_bob_world).1.1, [], Returned tt).
Proof.
  assert (H1 : is_admin (mkContext example_bot [])
                 (effective_chat_id (command 5 admin_user None))
                 (id (effective_user (command 5 admin_user None))) = true)
    by reflexivity.
  assert (H2 : effective_chat_id (members_joined 5 bob [bob; ann])
               = effective_chat_id (command 5 admin_user None)) by reflexivity.
  split; [exact H1|]. split; [exact H2|].
  exact (proj1 (clearwelcome_silences_joins example_mention
                  (command 5 admin_user None) (mkContext example_bot [])
                  welcome_bob_world (members_joined 5 bob [bob; ann])
                  (mkContext example_bot []) H1 H2)).
Defined.

Lemma owner_blacklist_commands_witness :
  id (effective_user warn_eve) = 1
  /\ get_target_user example_int warn_eve (mkContext example_bot [])
     = Returned (Some eve)
  /\ GLOBAL_BLACKLIST (blacklist_cmd example_int 1 warn_eve
                         (mkContext example_bot []) fresh).1.1
     = {[id eve]} ∪ GLOBAL_BLACKLIST fresh.
Proof.
  assert (H1 : id (effective_user warn_eve) = 1) by reflexivity.
  assert (H2 : get_target_user example_int warn_eve (mkContext example_bot [])
               = Returned (Some eve)) by reflexivity.
  split; [exact H1|]. split; [exact H2|].
  exact (proj1 (owner_blacklist_commands example_int 1 warn_eve
                  (mkContext example_bot []) fresh eve H1 H2)).
Defined.

Lemma mute_until_date_witness :
  is_admin (mkContext example_bot ["10M"])
           (effective_chat_id mute_overflow_update)
           (id (effective_user mute_overflow_update)) = true
  /\ get_target_user example_int mute_overflow_update
       (mkContext example_bot ["10M"]) = Returned (Some bob)
  /\ re_match_duration
       (Py.lower (List.last (args (mkContext example_bot ["10M"])) "1h"))
     = Some ("10", "m")
  /\ int_of_digits 0 "10" <= 999999999
  /\ 1700000000 + int_of_digits 0 "10" * unit_seconds "m" < 2 ^ 33
  /\ (forall e, delivers (bot (mkContext example_bot ["10M"])) e = true)
  /\ mute example_int 1700000000 mute_overflow_update
       (mkContext example_bot ["10M"]) fresh
     = (fresh,
        [restrict_chat_member (effective_chat_id mute_overflow_update) (id bob)
           false (Some (1700000000 + int_of_digits 0 "10" * unit_seconds "m"));
         reply_text (first_name bob +:+ " muted for "
                     +:+ List.last (args (mkContext example_bot ["10M"])) "1h")],
        Returned tt).
Proof.
  assert (H1 : is_admin (mkContext example_bot ["10M"])
                 (effective_chat_id mute_overflow_update)
                 (id (effective_user mute_overflow_update)) = true)
    by reflexivity.
  assert (H2 : get_target_user example_int mute_overflow_update
                 (mkContext example_bot ["10M"]) = Returned (Some bob))
    by reflexivity.
  assert (H3 : re_match_duration
                 (Py.lower (List.last (args (mkContext example_bot ["10M"])) "1h"))
               = Some ("10", "m")) by reflexivity.
  assert (H4 : int_of_digits 0 "10" <= 999999999) by (vm_compute; discriminate).
  assert (H5 : 1700000000 + int_of_digits 0 "10" * unit_seconds "m"
               < 2 ^ 33) by (vm_compute; reflexivity).
  assert (H6 : forall e, delivers (bot (mkContext example_bot ["10M"])) e = true)
    by reflexivity.
  split; [exact H1|]. split; [exact H2|]. split; [exact H3|].
  split; [exact H4|]. split; [exact H5|]. split; [exact H6|].
  exact (mute_until_date example_int 1700000000 mute_overflow_update
           (mkContext example_bot ["10M"]) fresh bob "10" "m"
           H1 H2 H3 H4 H5 H6).
Defined.


Lemma refusal_has_a_cause_witness :
  [9; 9; 4] !! 1%nat = Some 9
  /\ AiGate.returned (AiGate.run interleaved (AiGate.spawn [9; 9; 4] None))
                     1%nat = Some (500000, false)
  /\ exists L, 500000 - L < AiGate.cooldown_us
       /\ (AiGate.read_last None 9 = Some L
           \/ exists j tj,
                AiGate.tasks (AiGate.run interleaved
                                (AiGate.spawn [9; 9; 4] None)) !! j = Some tj
                /\ [9; 9; 4] !! j = Some 9
                /\ AiGate.grant (AiGate.pc tj) = Some L).
Proof.
  assert (H1 : [9; 9; 4] !! 1%nat = Some 9) by reflexivity.
  assert (H2 : AiGate.returned
                 (AiGate.run interleaved (AiGate.spawn [9; 9; 4] None)) 1%nat
               = Some (500000, false)) by (vm_compute; reflexivity).
  split; [exact H1|]. split; [exact H2|].
  exact (proj1 (AiGateRuns.refusal_has_a_cause [9; 9; 4] None interleaved
                  1%nat 9 500000 false H1 H2) eq_refl).
Defined.

Lemma blacklisted_users_get_no_ai_witness :
  (id eve ∈ GLOBAL_BLACKLIST eve_blacklisted)
  /\ mention_ai echo (fun _ => true) 1000
       (Some (effective_text eve "@dresguardian hello")) eve_blacklisted None
     = (None, [], Returned tt).
Proof.
  assert (H : id eve ∈ GLOBAL_BLACKLIST eve_blacklisted).
  { apply (bool_decide_eq_true_1 (id eve ∈ GLOBAL_BLACKLIST eve_blacklisted)).
    vm_compute. reflexivity. }
  split; [exact H|].
  exact (proj2 (blacklisted_users_get_no_ai echo (fun _ => true) eve
                  eve_blacklisted 1000 None H)
           (effective_text eve "@dresguardian hello") eq_refl).
Defined.

Lemma every_message_takes_the_slot_witness :
  em_text (effective_text bob "good morning") = Some "good morning"
  /\ "good morning" <> ""
  /\ em_from_user (effective_text bob "good morning") = Some bob
  /\ is_bot bob = false
  /\ (id bob ∉ GLOBAL_BLACKLIST fresh)
  /\ AiGate.may_pass 1000 (AiGate.read_last None (id bob)) = true
  /\ AiGate.read_last
       (mention_ai echo (fun _ => true) 1000
          (Some (effective_text bob "good morning")) fresh None).1.1 (id bob)
     = Some 1000.
Proof.
  assert (H1 : em_text (effective_text bob "good morning")
               = Some "good morning") by reflexivity.
  assert (H2 : "good morning" <> "") by discriminate.
  assert (H3 : em_from_user (effective_text bob "good morning") = Some bob)
    by reflexivity.
  assert (H4 : is_bot bob = false) by reflexivity.
  assert (H5 : id bob ∉ GLOBAL_BLACKLIST fresh) by apply not_elem_of_empty.
  assert (H6 : AiGate.may_pass 1000 (AiGate.read_last None (id bob)) = true)
    by reflexivity.
  split; [exact H1|]. split; [exact H2|]. split; [exact H3|].
  split; [exact H4|]. split; [exact H5|]. split; [exact H6|].
  exact (proj1 (every_message_takes_the_slot echo (fun _ => true) bob fresh
                  1000 None (effective_text bob "good morning") "good morning"
                  H1 H2 H3 H4 H5 H6)).
Defined.

Lemma can_use_ai_uninterrupted_witness :
  AiGate.tasks (AiGate.spawn [9; 4] None) !! 0%nat
  = Some (AiGate.mkTask 9 AiGate.Start)
  /\ (9 ∉ AiGate.held (AiGate.spawn [9; 4] None))
  /\ AiGate.returned
       (AiGate.run (uninterrupted 0 1000) (AiGate.spawn [9; 4] None)) 0%nat
     = Some (1000, (can_use_ai 1000 9 None).1).
Proof.
  assert (H1 : AiGate.tasks (AiGate.spawn [9; 4] None) !! 0%nat
               = Some (AiGate.mkTask 9 AiGate.Start)) by reflexivity.
  assert (H2 : 9 ∉ AiGate.held (AiGate.spawn [9; 4] None))
    by apply not_elem_of_empty.
  split; [exact H1|]. split; [exact H2|].
  exact (proj1 (can_use_ai_uninterrupted (AiGate.spawn [9; 4] None) 0%nat 9
                  1000 H1 H2)).
Defined.

Lemma blacklist_changes_by_owner_commands_only_witness :
  h_addword <> h_blacklist
  /\ h_addword <> h_unblacklist
  /\ GLOBAL_BLACKLIST
       (handle example_mention example_int 1 h_addword
          (command 5 admin_user None) (mkContext example_bot ["spam"])
          eve_blacklisted).1.1
     = GLOBAL_BLACKLIST eve_blacklisted.
Proof.
  assert (H1 : h_addword <> h_blacklist) by discriminate.
  assert (H2 : h_addword <> h_unblacklist) by discriminate.
  split; [exact H1|]. split; [exact H2|].
  exact (proj1 (blacklist_changes_by_owner_commands_only example_mention
                  example_int 1 h_addword (command 5 admin_user None)
                  (mkContext example_bot ["spam"]) eve_blacklisted H1 H2)).
Defined.

Lemma read_only_handlers_change_nothing_witness :
  read_only (h_mute 1700000000) = true
  /\ (handle example_mention example_int 1 (h_mute 1700000000)
        mute_overflow_update (mkContext example_bot ["1000000000s"])
        twice_warned).1.1
     = twice_warned.
Proof.
  assert (H : read_only (h_mute 1700000000) = true) by reflexivity.
  split; [exact H|].
  exact (read_only_handlers_change_nothing example_mention example_int 1
           (h_mute 1700000000) mute_overflow_update
           (mkContext example_bot ["1000000000s"]) twice_warned H).
Defined.
